(** * Listing scrapers: de-duplication, pagination and flattening

    A shallow embedding of [extract_data.py] (site A, imovelweb: the paginated
    driver [ImovelWebScraper], the seen-ID loader, the flattener and [main])
    and of [quintoandar_scraper.py] (site B: one bulk request per city), with
    the properties the specification states about them.

    Python values are the values [json.load] produces.  Exceptions are
    explicit: a call that can raise returns a [result].  What the program
    takes from Python's library and the outside world (the remote API, the
    clock, the text of a float, what writing a file does) is a parameter of
    the model.  A Python [str] is the string of its UTF-8 bytes.  The
    messages the programs print are left out: [print] is taken to succeed. *)

From Stdlib Require Import ZArith Bool List Ascii String Lia.
From stdpp Require Import base option list gmap strings pretty.
Import ListNotations.

Local Open Scope string_scope.
Local Open Scope Z_scope.
Local Open Scope list_scope.
Local Set Warnings "-register-all".

(** ** Python values *)

(** The exceptions the two programs meet.  [OtherError] stands for the
    library's own errors (transport failures, JSON decoding, file access),
    all of them subclasses of [Exception]. *)
Inductive exn : Type :=
| KeyError
| IndexError
| TypeError
| AttributeError
| ValueError
| OverflowError
| RequestException
| JSONDecodeError
| OtherError (name : string).

Inductive result (A : Type) : Type :=
| Ok (a : A)
| Raise (e : exn).

Arguments Ok {A} a.
Arguments Raise {A} e.

#[global] Instance exn_eq_dec : EqDecision exn.
Proof. solve_decision. Defined.

#[global] Instance result_ret : MRet result := fun A a => Ok a.
#[global] Instance result_bind : MBind result := fun A B f r =>
  match r with
  | Ok a => f a
  | Raise e => Raise e
  end.

(** An IEEE double, as [(-1)^negative * mantissa * 2^exponent]. *)
Inductive pyfloat : Type :=
| FNaN
| FInf (negative : bool)
| FFinite (negative : bool) (mantissa : N) (exponent : Z).

Definition float_is_zero (x : pyfloat) : bool :=
  match x with
  | FFinite _ 0%N _ => true
  | _ => false
  end.

(** A value read from JSON.  The entries of a [VDict] are in insertion order
    and their keys are pairwise distinct, as in any Python [dict]. *)
Inductive value : Type :=
| VNone
| VBool (b : bool)
| VInt (n : Z)
| VFloat (x : pyfloat)
| VStr (s : string)
| VList (items : list value)
| VDict (entries : list (string * value)).

Definition empty_dict : value := VDict [].

(** ** What is on disk *)

(** A JSON file (the state file of a scraper, the cookie file) as [open]
    and [json.load] find it: it does not exist; its text is not JSON
    ([json.JSONDecodeError]); opening or reading it raises another exception
    (bytes that are not UTF-8, a directory, no permission); or it holds a
    JSON document. *)
Inductive file : Type :=
| Missing
| Undecodable
| ReadRaises (e : exn)
| Holds (v : value).

(** What [open(path, 'w')] followed by [json.dump] does to the file: the
    document is written, or one of the two raises and leaves the file as
    [remains] (as it was when it cannot be opened; cut short, and no longer
    JSON, when the dump raises midway). *)
Inductive dumped : Type :=
| Dumped
| DumpRaises (e : exn) (remains : file).

(** One flat row (site A): the columns of the output file. *)
Record flat_item : Type := {
  postingId : value;
  price : value;
  expenses : value;
  currency : value;
  bedrooms : value;
  suites : value;
  bathrooms : value;
  parking : value;
  area_m2 : value;
  location : value;
  latitude : value;
  longitude : value;
  title : value;
  description : value;
  publisher : value;
  full_url : value;
  retrievedDate : value
}.

(** What [pd.read_csv(file, usecols=['postingId'], dtype=str)] gives for one
    prior output file: it raises, or it returns the column, [None] being a
    missing value. *)
Inductive csv_read : Type :=
| Unreadable
| Column (cells : list (option string)).

(** Parts of Python's library, and of the disk under it, whose algorithms
    are not the repository's: [repr] of a float, list or dict (what [str]
    prints for them), [str.lower], [float + 1], [time.sleep] ([None] when it
    returns), [int] of a string; what writing a state to the state file
    does, given the file as it is; whether updating the cookie jar with a
    document raises; whether [pd.DataFrame(rows).to_csv(...)] raises; and
    what [pd.read_csv] later reads from the file [to_csv] wrote for these
    rows. *)
Class Builtins : Type := {
  repr : value -> string;
  lower : string -> string;
  float_succ : pyfloat -> pyfloat;
  sleep : pyfloat -> option exn;
  int_of_str : string -> option Z;
  json_dump : file -> value -> dumped;
  cookies_update : value -> option exn;
  to_csv : list flat_item -> option exn;
  read_back : list flat_item -> csv_read
}.

Definition is_dict (v : value) : bool :=
  match v with
  | VDict _ => true
  | _ => false
  end.

(** [bool(v)]. *)
Definition truthy (v : value) : bool :=
  match v with
  | VNone => false
  | VBool b => b
  | VInt n => negb (n =? 0)
  | VFloat x => negb (float_is_zero x)
  | VStr s => negb (String.eqb s "")
  | VList items => negb (bool_decide (items = []))
  | VDict entries => negb (bool_decide (entries = []))
  end.

(** [a or b]. *)
Definition py_or (a b : value) : value := if truthy a then a else b.

Fixpoint dict_lookup (k : string) (entries : list (string * value)) : option value :=
  match entries with
  | [] => None
  | (k', v) :: rest => if String.eqb k k' then Some v else dict_lookup k rest
  end.

(** [d[k] = v] on the entries of a dict: the value is replaced in place, a
    new key goes last. *)
Fixpoint dict_set (k : string) (v : value) (entries : list (string * value))
  : list (string * value) :=
  match entries with
  | [] => [(k, v)]
  | (k', v') :: rest =>
      if String.eqb k k' then (k', v) :: rest else (k', v') :: dict_set k v rest
  end.

Definition dict_values (entries : list (string * value)) : list value :=
  map snd entries.

(** [v.get(k, default)]: only a dict has the method. *)
Definition get (v : value) (k : string) (default : value) : result value :=
  match v with
  | VDict entries =>
      Ok (match dict_lookup k entries with Some x => x | None => default end)
  | _ => Raise AttributeError
  end.

(** [v[k]] for a string [k]. *)
Definition getitem (v : value) (k : string) : result value :=
  match v with
  | VDict entries =>
      match dict_lookup k entries with
      | Some x => Ok x
      | None => Raise KeyError
      end
  | _ => Raise TypeError
  end.

(** A byte that continues a UTF-8 encoded character ([10xxxxxx]). *)
Definition is_continuation (c : ascii) : bool :=
  let n := N_of_ascii c in (128 <=? n)%N && (n <? 192)%N.

Fixpoint leading_continuations (s : string) : string :=
  match s with
  | String c rest =>
      if is_continuation c then String c (leading_continuations rest) else ""
  | EmptyString => ""
  end.

Fixpoint drop_continuations (s : string) : string :=
  match s with
  | String c rest => if is_continuation c then drop_continuations rest else s
  | EmptyString => ""
  end.

(** The characters of a string, each with the bytes that encode it. *)
Fixpoint chars_fuel (fuel : nat) (s : string) : list string :=
  match fuel, s with
  | S fuel', String c rest =>
      String c (leading_continuations rest)
        :: chars_fuel fuel' (drop_continuations rest)
  | _, _ => []
  end.

Definition chars (s : string) : list string := chars_fuel (String.length s) s.

(** [v[0]]. *)
Definition getitem0 (v : value) : result value :=
  match v with
  | VList (x :: _) => Ok x
  | VList [] => Raise IndexError
  | VStr s =>
      match chars s with
      | c :: _ => Ok (VStr c)
      | [] => Raise IndexError
      end
  | VDict _ => Raise KeyError
  | _ => Raise TypeError
  end.

(** What a [for] loop over [v] visits. *)
Definition py_iter (v : value) : result (list value) :=
  match v with
  | VList items => Ok items
  | VDict entries => Ok (map (fun e => VStr (fst e)) entries)
  | VStr s => Ok (map VStr (chars s))
  | _ => Raise TypeError
  end.

(** [needle in hay] on strings. *)
Fixpoint contains (needle hay : string) : bool :=
  match hay with
  | EmptyString => String.prefix needle ""
  | String _ rest => String.prefix needle hay || contains needle rest
  end.

(** [try: body / except (...): pass]: [body] ends with the local variables
    it has assigned so far and the exception it raised, if any; a caught
    exception is dropped and the variables are kept. *)
Definition try_pass {S : Type} (caught : exn -> bool) (body : S * option exn)
  : result S :=
  match body with
  | (s, None) => Ok s
  | (s, Some e) => if caught e then Ok s else Raise e
  end.

(** A block that assigns nothing unless it runs to its end. *)
Definition atomic {S : Type} (init : S) (r : result S) : S * option exn :=
  match r with
  | Ok s => (s, None)
  | Raise e => (init, Some e)
  end.

Section Python.
Context `{Builtins}.

(** [str(v)]. *)
Definition py_str (v : value) : string :=
  match v with
  | VNone => "None"
  | VBool true => "True"
  | VBool false => "False"
  | VInt n => pretty n
  | VStr s => s
  | _ => repr v
  end.

(** [v + 1]. *)
Definition py_succ (v : value) : result value :=
  match v with
  | VInt n => Ok (VInt (n + 1))
  | VBool b => Ok (VInt (if b then 2 else 1))
  | VFloat x => Ok (VFloat (float_succ x))
  | _ => Raise TypeError
  end.

(** [v.lower()]: a method of [str] only. *)
Definition py_lower (v : value) : result string :=
  match v with
  | VStr s => Ok (lower s)
  | _ => Raise AttributeError
  end.

End Python.

(** ** The flattener (site A)

    The body of the loop of [save_new_listings_to_city_csv]: one listing
    record becomes one flat row. *)

(** The variables the feature block assigns. *)
Record features : Type := {
  f_area : value;
  f_bedrooms : value;
  f_bathrooms : value;
  f_suites : value;
  f_parking : value
}.

Definition no_features : features :=
  {| f_area := VNone; f_bedrooms := VNone; f_bathrooms := VNone;
     f_suites := VNone; f_parking := VNone |}.

Definition base_url : string := "https://www.imovelweb.com.br".

(** [except (E1, E2, ...)]: the classes the handlers of [flatten] name are
    not subclasses of one another, so a handler catches by equality. *)
Definition catches (handled : list exn) (e : exn) : bool :=
  bool_decide (e ∈ handled).

Section Flattener.
Context `{Builtins}.

(** [listing['priceOperationTypes'][0]['prices'][0]]. *)
Definition price_info_of (listing : value) : result value :=
  types ← getitem listing "priceOperationTypes";
  first ← getitem0 types;
  prices ← getitem first "prices";
  getitem0 prices.

(** Lines 167-169: price and currency. *)
Definition price_body (listing : value) : result (value * value) :=
  price_info ← price_info_of listing;
  amount ← get price_info "amount" VNone;
  cur ← get price_info "currency" VNone;
  Ok (amount, cur).

(** Line 171. *)
Definition expenses_body (listing : value) : result value :=
  e ← getitem listing "expenses";
  getitem e "amount".

(** [next((f.get('value') for f in fs if word in f.get('label','').lower()), None)]. *)
Fixpoint find_feature (word : string) (fs : list value) : result value :=
  match fs with
  | [] => Ok VNone
  | f :: rest =>
      label ← get f "label" (VStr "");
      lowered ← py_lower label;
      if contains word lowered then get f "value" VNone
      else find_feature word rest
  end.

(** Lines 175-183.  The variables are assigned one after the other, so an
    exception leaves the later ones as they were. *)
Definition features_body (listing : value) : features * option exn :=
  match get listing "mainFeatures" empty_dict with
  | Raise e => (no_features, Some e)
  | Ok (VDict entries) =>
      let fs := dict_values entries in
      match find_feature "útil" fs with
      | Raise e => (no_features, Some e)
      | Ok area_util =>
      match find_feature "total" fs with
      | Raise e => (no_features, Some e)
      | Ok area_total =>
      let st1 := {| f_area := py_or area_util area_total; f_bedrooms := VNone;
                    f_bathrooms := VNone; f_suites := VNone; f_parking := VNone |} in
      match find_feature "quarto" fs with
      | Raise e => (st1, Some e)
      | Ok v2 =>
      let st2 := {| f_area := f_area st1; f_bedrooms := v2;
                    f_bathrooms := VNone; f_suites := VNone; f_parking := VNone |} in
      match find_feature "banheiro" fs with
      | Raise e => (st2, Some e)
      | Ok v3 =>
      let st3 := {| f_area := f_area st1; f_bedrooms := v2;
                    f_bathrooms := v3; f_suites := VNone; f_parking := VNone |} in
      match find_feature "suíte" fs with
      | Raise e => (st3, Some e)
      | Ok v4 =>
      let st4 := {| f_area := f_area st1; f_bedrooms := v2;
                    f_bathrooms := v3; f_suites := v4; f_parking := VNone |} in
      match find_feature "vaga" fs with
      | Raise e => (st4, Some e)
      | Ok v5 =>
          ({| f_area := f_area st1; f_bedrooms := v2; f_bathrooms := v3;
              f_suites := v4; f_parking := v5 |}, None)
      end end end end end end
  | Ok _ => (no_features, None)
  end.

(** [listing['postingLocation']['postingGeolocation']['geolocation']]. *)
Definition geo_of (listing : value) : result value :=
  pl ← getitem listing "postingLocation";
  pg ← getitem pl "postingGeolocation";
  getitem pg "geolocation".

(** Line 187. *)
Definition location_name_of (listing : value) : result value :=
  pl ← getitem listing "postingLocation";
  loc ← getitem pl "location";
  getitem loc "name".

(** Lines 187-189: location, then latitude and longitude together. *)
Definition location_body (listing : value) : (value * value * value) * option exn :=
  match location_name_of listing with
  | Raise e => ((VNone, VNone, VNone), Some e)
  | Ok name =>
      match (geo ← geo_of listing;
             lat ← get geo "latitude" VNone;
             lon ← get geo "longitude" VNone;
             Ok (lat, lon)) with
      | Raise e => ((name, VNone, VNone), Some e)
      | Ok (lat, lon) => ((name, lat, lon), None)
      end
  end.

(** Lines 193-195. *)
Definition url_body (listing : value) : result value :=
  relative_url ← get listing "url" (VStr "");
  if truthy relative_url then
    match relative_url with
    | VStr s => Ok (VStr (base_url +:+ s))
    | _ => Raise TypeError
    end
  else Ok VNone.

(** Lines 166-197 for one listing; [timestamp] is the text of the clock
    read once per file. *)
Definition flatten (timestamp : string) (listing : value) : result flat_item :=
  pc ← try_pass (catches [KeyError; TypeError; IndexError])
         (atomic (VNone, VNone) (price_body listing));
  ex ← try_pass (catches [KeyError; TypeError])
         (atomic VNone (expenses_body listing));
  fe ← try_pass (catches [AttributeError; TypeError]) (features_body listing);
  lo ← try_pass (catches [KeyError; TypeError; IndexError]) (location_body listing);
  url ← try_pass (catches [TypeError]) (atomic VNone (url_body listing));
  pid ← get listing "postingId" VNone;
  ti ← get listing "title" VNone;
  de ← get listing "descriptionNormalized" VNone;
  pub ← get listing "publisher" empty_dict;
  pname ← get pub "name" VNone;
  Ok {| postingId := pid; price := pc.1; expenses := ex; currency := pc.2;
        bedrooms := f_bedrooms fe; suites := f_suites fe;
        bathrooms := f_bathrooms fe; parking := f_parking fe;
        area_m2 := f_area fe; location := lo.1.1; latitude := lo.1.2;
        longitude := lo.2; title := ti; description := de; publisher := pname;
        full_url := url; retrievedDate := VStr timestamp |}.

(** [save_new_listings_to_city_csv]: nothing is written for an empty list;
    otherwise the rows of the new file, unless a listing makes the loop
    raise, in which case no file is written, or writing the rows raises
    (creating the directory is taken to succeed). *)
Definition save_new_listings_to_city_csv (timestamp : string)
    (new_listings : list value) : result (option (list flat_item)) :=
  match new_listings with
  | [] => Ok None
  | _ =>
      rows ← mapM (flatten timestamp) new_listings;
      match to_csv rows with
      | Some e => Raise e
      | None => Ok (Some rows)
      end
  end.

End Flattener.


(** ** The paginated driver (site A) *)

(** What [self.session.post(...)] followed by [response.json()] gives for
    one page: the call itself may raise (time-out, connection error), and
    decoding the body may raise. *)
Inductive response : Type :=
| PostRaises (e : exn)
| Response (status_code : Z) (json : result value).

(** The remote API: the answer to a request for a city code and a page. *)
Definition api : Type := string -> value -> response.

(** The fields of [ImovelWebScraper] the driver uses, the contents of its
    state file, and the pages it has requested so far (oldest first). *)
Record scraper : Type := {
  city_slug : string;
  city_code : string;
  seen_posting_ids : gset string;
  state_file : file;
  state : value;
  new_listings_this_session : list (string * value);
  new_listings_count : Z;
  requested : list value
}.

Definition with_session (sc : scraper) (session : list (string * value)) : scraper :=
  {| city_slug := city_slug sc; city_code := city_code sc;
     seen_posting_ids := seen_posting_ids sc; state_file := state_file sc;
     state := state sc; new_listings_this_session := session;
     new_listings_count := new_listings_count sc; requested := requested sc |}.

Definition with_count (sc : scraper) (n : Z) : scraper :=
  {| city_slug := city_slug sc; city_code := city_code sc;
     seen_posting_ids := seen_posting_ids sc; state_file := state_file sc;
     state := state sc;
     new_listings_this_session := new_listings_this_session sc;
     new_listings_count := n; requested := requested sc |}.

Definition with_state (sc : scraper) (st : value) (f : file) : scraper :=
  {| city_slug := city_slug sc; city_code := city_code sc;
     seen_posting_ids := seen_posting_ids sc; state_file := f;
     state := st;
     new_listings_this_session := new_listings_this_session sc;
     new_listings_count := new_listings_count sc; requested := requested sc |}.

Definition log_request (sc : scraper) (page : value) : scraper :=
  {| city_slug := city_slug sc; city_code := city_code sc;
     seen_posting_ids := seen_posting_ids sc; state_file := state_file sc;
     state := state sc;
     new_listings_this_session := new_listings_this_session sc;
     new_listings_count := new_listings_count sc;
     requested := requested sc ++ [page] |}.

Definition initial_state : value := VDict [("last_page", VInt 0)].

(** [_load_state]: any JSON document in the file is taken as the state;
    only [json.JSONDecodeError] is caught. *)
Definition _load_state (f : file) : result value :=
  match f with
  | Holds v => Ok v
  | Missing | Undecodable => Ok initial_state
  | ReadRaises e =>
      if catches [JSONDecodeError] e then Ok initial_state else Raise e
  end.

Section Constructor.
Context `{Builtins}.

(** [_load_cookies]: the document of the cookie file updates the cookie jar
    of the session; only [json.JSONDecodeError] is caught.  [None] when it
    returns. *)
Definition _load_cookies (cookies_file : file) : option exn :=
  match cookies_file with
  | Missing | Undecodable => None
  | ReadRaises e => if catches [JSONDecodeError] e then None else Some e
  | Holds v =>
      match cookies_update v with
      | Some e => if catches [JSONDecodeError] e then None else Some e
      | None => None
      end
  end.

(** [__init__]: the state is loaded, then the cookies, and the accumulator
    starts empty (the HTTP session and its headers are the API's side). *)
Definition init_scraper (code slug : string) (seen : gset string)
    (f cookies_file : file) : result scraper :=
  st ← _load_state f;
  match _load_cookies cookies_file with
  | Some e => Raise e
  | None =>
      Ok {| city_slug := slug; city_code := code; seen_posting_ids := seen;
            state_file := f; state := st;
            new_listings_this_session := []; new_listings_count := 0;
            requested := [] |}
  end.

(** [_save_state]: [self.state["last_page"] = page], then the state is
    dumped to the file.  When the write raises, the state is already
    changed and the file is what the write left. *)
Definition _save_state (sc : scraper) (page : value) : scraper * option exn :=
  match state sc with
  | VDict entries =>
      let st := VDict (dict_set "last_page" page entries) in
      match json_dump (state_file sc) st with
      | Dumped => (with_state sc st (Holds st), None)
      | DumpRaises e remains => (with_state sc st remains, Some e)
      end
  | _ => (sc, Some TypeError)
  end.

End Constructor.

(** [k in d] for the session accumulator. *)
Definition in_session (k : string) (session : list (string * value)) : bool :=
  bool_decide (k ∈ session.*1).

(** [max_pages and pages_scraped_this_run >= max_pages]. *)
Definition cap_reached (max_pages : option Z) (pages_scraped : Z) : bool :=
  match max_pages with
  | Some m => negb (m =? 0) && (m <=? pages_scraped)
  | None => false
  end.

(** How the [while True] loop was left. *)
Inductive loop_exit : Type :=
| Break
| Raised (e : exn).

Section Driver.
Context `{Builtins}.
Variable post : api.

(** Lines 105-110: the loop over the listings of one page.  It ends with
    the accumulator and the count as they are, and the exception if an item
    has no [get]. *)
Fixpoint record_items (seen : gset string) (items : list value)
    (session : list (string * value)) (count : Z)
  : list (string * value) * Z * option exn :=
  match items with
  | [] => (session, count, None)
  | listing_item :: rest =>
      match get listing_item "postingId" VNone with
      | Raise e => (session, count, Some e)
      | Ok pid =>
          let posting_id := py_str pid in
          if negb (String.eqb posting_id "")
             && negb (bool_decide (posting_id ∈ seen))
             && negb (in_session posting_id session)
          then record_items seen rest (session ++ [(posting_id, listing_item)])
                 (count + 1)
          else record_items seen rest session count
      end
  end.

(** [scrape_page]: every exception is caught and makes it return [False]. *)
Definition scrape_page (sc0 : scraper) (page : value) : bool * scraper :=
  let sc := log_request sc0 page in
  match post (city_code sc) page with
  | PostRaises _ => (false, sc)
  | Response status_code json =>
      if status_code =? 200 then
        match (data ← json; get data "listPostings" (VList [])) with
        | Raise _ => (false, sc)
        | Ok listings_on_page =>
            if negb (truthy listings_on_page) then (false, sc)
            else
              match py_iter listings_on_page with
              | Raise _ => (false, sc)
              | Ok items =>
                  match record_items (seen_posting_ids sc) items
                          (new_listings_this_session sc) 0 with
                  | (session, _, Some _) => (false, with_session sc session)
                  | (session, n, None) =>
                      let sc1 := with_count (with_session sc session)
                                   (new_listings_count sc + n) in
                      match _save_state sc1 page with
                      | (sc2, Some _) => (false, sc2)
                      | (sc2, None) => (true, sc2)
                      end
                  end
              end
        end
      else (false, sc)
  end.

(** Line 124: [start_page or self.state.get("last_page", 0) + 1]. *)
Definition first_page (sc : scraper) (start_page : option Z) : result value :=
  match start_page with
  | Some n =>
      if negb (n =? 0) then Ok (VInt n)
      else last ← get (state sc) "last_page" (VInt 0); py_succ last
  | None => last ← get (state sc) "last_page" (VInt 0); py_succ last
  end.

(** Lines 129-137, [fuel] iterations at most ([None]: still running). *)
Fixpoint scrape_loop (fuel : nat) (delay : pyfloat) (max_pages : option Z)
    (sc : scraper) (current_page : value) (pages_scraped : Z)
  : option (loop_exit * scraper) :=
  match fuel with
  | O => None
  | S fuel' =>
      if cap_reached max_pages pages_scraped then Some (Break, sc)
      else
        let (more, sc') := scrape_page sc current_page in
        if negb more then Some (Break, sc')
        else
          match py_succ current_page with
          | Raise e => Some (Raised e, sc')
          | Ok next_page =>
              match sleep delay with
              | Some e => Some (Raised e, sc')
              | None =>
                  scrape_loop fuel' delay max_pages sc' next_page
                    (pages_scraped + 1)
              end
          end
  end.

(** [scrape]: the [return] of the [finally] block ends the call whichever
    way the loop was left; only line 124, before the [try], can raise. *)
Definition scrape (fuel : nat) (sc : scraper) (start_page : option Z)
    (delay : pyfloat) (max_pages : option Z)
  : option (result (list (string * value) * scraper)) :=
  match first_page sc start_page with
  | Raise e => Some (Raise e)
  | Ok current_page =>
      match scrape_loop fuel delay max_pages sc current_page 0 with
      | None => None
      | Some (Break, sc') => Some (Ok (new_listings_this_session sc', sc'))
      | Some (Raised _, sc') => Some (Ok (new_listings_this_session sc', sc'))
      end
  end.

End Driver.

(** ** Seen IDs, the city task and [main] (site A) *)

(** [load_seen_ids_from_city_csvs]; [None] when the directory does not
    exist, else the files that match the city's pattern. *)
Definition load_seen_ids_from_city_csvs (directory : option (list csv_read))
  : gset string :=
  match directory with
  | None => ∅
  | Some csv_files =>
      fold_left
        (fun seen_ids f =>
           match f with
           | Unreadable => seen_ids
           | Column cells => seen_ids ∪ list_to_set (omap id cells)
           end)
        csv_files ∅
  end.

Definition CITY_CODES : list (string * string) := [("itanhaem-sp", "109237")].

(** [CITY_CODES.get(slug)]. *)
Fixpoint code_of (slug : string) (codes : list (string * string)) : option string :=
  match codes with
  | [] => None
  | (k, code) :: rest => if String.eqb slug k then Some code else code_of slug rest
  end.

(** The namespace [argparse] returns. *)
Record args : Type := {
  city : list string;
  start : option Z;
  state_base_name : string;
  cookies : string;
  delay : pyfloat;
  max_pages : option Z
}.

(** What one worker finds on disk and reads from the clock. *)
Record surroundings : Type := {
  output_dir : option (list csv_read);
  state_on_disk : file;
  cookies_on_disk : file;
  timestamp : string
}.

(** What one worker leaves: its scraper, and the rows of the file it wrote,
    if it wrote one. *)
Definition task_outcome : Type := result (scraper * option (list flat_item)).

Section CityTask.
Context `{Builtins}.
Variable post : api.

(** [scrape_city_task] ([None]: the driver is still running). *)
Definition scrape_city_task (fuel : nat) (slug code : string)
    (around : surroundings) (a : args) : option task_outcome :=
  let seen_ids := load_seen_ids_from_city_csvs (output_dir around) in
  match init_scraper code slug seen_ids (state_on_disk around)
          (cookies_on_disk around) with
  | Raise e => Some (Raise e)
  | Ok scraper =>
      match scrape post fuel scraper (start a) (delay a) (max_pages a) with
      | None => None
      | Some (Raise e) => Some (Raise e)
      | Some (Ok ([], sc)) => Some (Ok (sc, None))
      | Some (Ok (new_city_listings, sc)) =>
          Some (written ← save_new_listings_to_city_csv (timestamp around)
                             new_city_listings.*2;
                Ok (sc, written))
      end
  end.

(** The workers [main] starts, in the order of the command line: a city
    without a code is skipped with a warning.  [around i slug] is what the
    worker of the [i]-th city finds. *)
Fixpoint workers (fuel : nat) (i : nat) (cities : list string)
    (around : nat -> string -> surroundings) (a : args)
  : option (list (string * task_outcome)) :=
  match cities with
  | [] => Some []
  | city_slug_item :: rest =>
      match code_of city_slug_item CITY_CODES with
      | Some code =>
          if String.eqb code "" then workers fuel (S i) rest around a
          else
            match scrape_city_task fuel city_slug_item code
                    (around i city_slug_item) a with
            | None => None
            | Some outcome =>
                others ← workers fuel (S i) rest around a;
                Some ((city_slug_item, outcome) :: others)
            end
      | None => workers fuel (S i) rest around a
      end
  end.

(** [main]: [None] for the arguments when [argparse] rejects the command
    line (it exits with status 2).  An exception in a worker thread ends
    that thread only; [main] joins the threads and returns, so the process
    exits with status 0.  The result is [None] while a worker is running. *)
Definition main (fuel : nat) (parsed : option args)
    (around : nat -> string -> surroundings)
  : option (Z * list (string * task_outcome)) :=
  match parsed with
  | None => Some (2, [])
  | Some a =>
      outcomes ← workers fuel 0 (city a) around a;
      Some (0, outcomes)
  end.

End CityTask.

(** ** Site B: one bulk request per city *)

(** What [requests.post], [raise_for_status] and [response.json()] give:
    a [RequestException], a body that is not JSON, or the decoded body. *)
Inductive http_result : Type :=
| RequestFails
| NotJson
| Json (data : value).

(** The existing output file of a city, as [csv.DictReader] reads it: each
    row maps column names to cells ([None] for a cell a short row lacks). *)
Inductive csv_state : Type :=
| Absent
| Broken
| Rows (rows : list (list (string * option string))).

Fixpoint row_lookup (k : string) (row : list (string * option string))
  : option (option string) :=
  match row with
  | [] => None
  | (k', c) :: rest => if String.eqb k k' then Some c else row_lookup k rest
  end.

(** [load_existing_ids]: the strings of the [id] column (a [None] cell is
    in the Python set too, and equals no string). *)
Definition load_existing_ids (f : csv_state) : gset string :=
  match f with
  | Absent => ∅
  | Broken => ∅
  | Rows rows =>
      list_to_set (omap (fun row => mjoin (row_lookup "id" row)) rows)
  end.

Section SiteB.
Context `{Builtins}.

(** [fetch_quintoandar_data]: [Ok None] is the pair [(None, None)]; an
    exception that is neither a [RequestException] nor a [JSONDecodeError]
    is not caught. *)
Definition fetch_quintoandar_data (r : http_result)
  : result (option (list value)) :=
  match r with
  | RequestFails => Ok None
  | NotJson => Ok None
  | Json data =>
      outer ← get data "hits" empty_dict;
      inner ← get outer "hits" VNone;
      if truthy inner then
        outer' ← getitem data "hits";
        inner' ← getitem outer' "hits";
        hits ← py_iter inner';
        listings ← mapM (fun hit => getitem hit "_source") hits;
        Ok (Some listings)
      else Ok (Some [])
  end.

(** [{str(item['id']): item for item in listings}], as its entries. *)
Fixpoint unique_by_id (listings : list value) (acc : list (string * value))
  : result (list (string * value)) :=
  match listings with
  | [] => Ok acc
  | item :: rest =>
      i ← getitem item "id";
      unique_by_id rest (dict_set (py_str i) item acc)
  end.

(** Lines 132-135. *)
Fixpoint not_existing (existing_ids : gset string) (unique : list value)
  : result (list value) :=
  match unique with
  | [] => Ok []
  | listing :: rest =>
      i ← getitem listing "id";
      kept ← not_existing existing_ids rest;
      Ok (if bool_decide (py_str i ∈ existing_ids) then kept
          else listing :: kept)
  end.

(** Lines 125-135 for one city, given what [load_existing_ids] found: the
    listings handed to [save_to_csv] (none when the request gave nothing). *)
Definition process_city (existing : csv_state) (r : http_result)
  : result (list value) :=
  let existing_ids := load_existing_ids existing in
  fetched ← fetch_quintoandar_data r;
  match fetched with
  | Some (item :: rest) =>
      unique_new_listings ← unique_by_id (item :: rest) [];
      not_existing existing_ids unique_new_listings.*2
  | _ => Ok []
  end.

End SiteB.

(** ** Site B's output file, cell by cell *)

(** The columns site B asks for and writes (lines 34-43). *)
Definition fields_to_request : list string :=
  ["id"; "coverImage"; "rent"; "totalCost"; "salePrice";
   "iptuPlusCondominium"; "area"; "imageList"; "imageCaptionList";
   "address"; "regionName"; "city"; "visitStatus";
   "activeSpecialConditions"; "type"; "forRent"; "forSale";
   "isPrimaryMarket"; "bedrooms"; "parkingSpaces"; "suites";
   "listingTags"; "yield"; "yieldStrategy"; "neighbourhood";
   "categories"; "bathrooms"; "isFurnished"; "installations";
   "amenities"; "shortRentDescription"; "shortSaleDescription"].

(** The lines of a CSV file as the [csv] module sees them, in order, each
    the list of its cells (a blank line has none); the first line is the
    header once one was written.  Every line is complete, and a cell that
    was written and can be read is read back as the text that was written
    (quoting is the module's business). *)
Definition table : Type := list (list string).

(** The output file of a city on disk: it does not exist, it cannot be read
    as UTF-8 text, or it is text. *)
Inductive csv_file : Type :=
| NoFile
| NotText
| Lines (lines : table).

(** Whether [str.encode('utf-8')] accepts a text: it refuses a surrogate
    (the bytes [ED A0..BF xx]). *)
Fixpoint encodable (s : string) : bool :=
  match s with
  | EmptyString => true
  | String c rest =>
      match rest with
      | String c' _ =>
          negb ((N_of_ascii c =? 237)%N
                && (160 <=? N_of_ascii c')%N && (N_of_ascii c' <=? 191)%N)
      | EmptyString => true
      end
      && encodable rest
  end.

(** [csv.field_size_limit()]: the reader raises on a cell with more
    characters. *)
Definition field_size_limit : Z := 131072.

Definition within_field_limit (cell : string) : bool :=
  Z.of_nat (length (chars cell)) <=? field_size_limit.

(** [d[k] = c] on a row that [csv.DictReader] builds. *)
Fixpoint row_set (k : string) (c : option string)
    (row : list (string * option string)) : list (string * option string) :=
  match row with
  | [] => [(k, c)]
  | (k', c') :: rest =>
      if String.eqb k k' then (k', c) :: rest else (k', c') :: row_set k c rest
  end.

(** One row of [csv.DictReader]: [dict(zip(fieldnames, row))], then [None]
    for the columns a short row lacks (the cells a long row has in excess go
    under the key [None], which is no column name). *)
Definition dict_reader_row (fieldnames cells : list string)
  : list (string * option string) :=
  fold_left (fun d k => row_set k None d)
    (drop (length cells) fieldnames)
    (fold_left (fun d kc => row_set kc.1 (Some kc.2) d) (zip fieldnames cells) []).

(** [csv.DictReader(csvfile)]: the first line gives the column names and
    blank lines are skipped. *)
Definition dict_reader (lines : table) : list (list (string * option string)) :=
  match lines with
  | [] => []
  | fieldnames :: rest =>
      dict_reader_row fieldnames <$> filter (fun cells => cells <> []) rest
  end.

(** What [load_existing_ids] finds in a file: any exception while the file
    is read (bytes that do not decode, a cell over the field limit) makes it
    give up on the whole file. *)
Definition read_csv (f : csv_file) : csv_state :=
  match f with
  | NoFile => Absent
  | NotText => Broken
  | Lines lines =>
      if forallb (forallb within_field_limit) lines then Rows (dict_reader lines)
      else Broken
  end.

(** What a city finds on disk: whether [os.makedirs(output_dir,
    exist_ok=True)] raises, its output file, and whether opening that file
    for appending raises. *)
Record disk : Type := {
  makedirs_raises : option exn;
  output_file : csv_file;
  append_raises : option exn
}.

(** A disk on which directories can be made and files opened. *)
Definition plain_disk (f : csv_file) : disk :=
  {| makedirs_raises := None; output_file := f; append_raises := None |}.

(** One line written to the file: the text is encoded as it is written. *)
Definition write_line (cells : list string) (lines : table)
  : table * option exn :=
  if forallb encodable cells then (lines ++ [cells], None)
  else (lines, Some (OtherError "UnicodeEncodeError")).

Section CsvFile.
Context `{Builtins}.

(** What [csv.writer] writes for a value: nothing for [None], [str] of it
    otherwise. *)
Definition csv_cell (v : value) : string :=
  match v with
  | VNone => ""
  | _ => py_str v
  end.

(** [DictWriter] with [extrasaction='ignore']: [row.get(key, '')] for each
    column. *)
Definition dict_to_list (headers : list string) (row : value)
  : result (list string) :=
  mapM (fun key => v ← get row key (VStr ""); Ok (csv_cell v)) headers.

(** [writer.writerows(data)]: the rows are written one by one; a row
    without [get], or one whose text cannot be encoded, raises, and the rows
    before it are in the file. *)
Fixpoint writerows (headers : list string) (data : list value) (lines : table)
  : table * option exn :=
  match data with
  | [] => (lines, None)
  | row :: rest =>
      match dict_to_list headers row with
      | Raise e => (lines, Some e)
      | Ok cells =>
          match write_line cells lines with
          | (lines', None) => writerows headers rest lines'
          | (lines', Some e) => (lines', Some e)
          end
      end
  end.

(** [save_to_csv]: nothing is done without data or without headers; the
    header is written only when the file did not exist. *)
Definition save_to_csv (data : list value) (headers : list string) (d : disk)
  : csv_file * option exn :=
  if bool_decide (data = []) || bool_decide (headers = []) then
    (output_file d, None)
  else
    match makedirs_raises d with
    | Some e => (output_file d, Some e)
    | None =>
        match append_raises d with
        | Some e => (output_file d, Some e)
        | None =>
            match output_file d with
            | NoFile =>
                match write_line headers [] with
                | (lines, Some e) => (Lines lines, Some e)
                | (lines, None) =>
                    let (lines', e) := writerows headers data lines in
                    (Lines lines', e)
                end
            | Lines lines =>
                let (lines', e) := writerows headers data lines in
                (Lines lines', e)
            | NotText => (NotText, (writerows headers data []).2)
            end
        end
    end.

(** Lines 123-140 for one city: the directory is made, the existing IDs are
    loaded, the answer is de-duplicated, and the new listings are appended.
    The result is the listings appended and the file as it is left; an
    exception ends the process, and the file a raising write leaves behind
    is not part of the result. *)
Definition run_on_disk (d : disk) (r : http_result)
  : result (list value * csv_file) :=
  match makedirs_raises d with
  | Some e => Raise e
  | None =>
      final_listings_to_add ← process_city (read_csv (output_file d)) r;
      match save_to_csv final_listings_to_add fields_to_request d with
      | (f', None) => Ok (final_listings_to_add, f')
      | (_, Some e) => Raise e
      end
  end.

(** The same on a disk that raises nothing: the file the city is left
    with. *)
Definition run_city (f : csv_file) (r : http_result) : result csv_file :=
  done ← run_on_disk (plain_disk f) r; Ok done.2.

(** Lines 117-142: the cities in turn; an uncaught exception ends the
    process with status 1.  [world i slug] is what the [i]-th city finds on
    disk and the answer to its request.  The result is the exit status and
    the listings appended per city. *)
Fixpoint process_cities (i : nat) (city_slugs : list string)
    (world : nat -> string -> disk * http_result)
  : Z * list (string * list value) :=
  match city_slugs with
  | [] => (0, [])
  | city_slug :: rest =>
      match run_on_disk (world i city_slug).1 (world i city_slug).2 with
      | Raise _ => (1, [])
      | Ok (added, _) =>
          let (status, later) := process_cities (S i) rest world in
          (status, (city_slug, added) :: later)
      end
  end.

(** The script: exit status and the listings appended per city. *)
Definition quintoandar_main (argv : list string)
    (world : nat -> string -> disk * http_result)
  : Z * list (string * list value) :=
  match argv with
  | _ :: multiplier :: first_city :: more_cities =>
      match int_of_str multiplier with
      | None => (1, [])
      | Some page_multiplier =>
          if page_multiplier <? 1 then (1, [])
          else process_cities 0 (first_city :: more_cities) world
      end
  | _ => (1, [])
  end.

(** The cell [save_to_csv] writes in the [id] column of a listing. *)
Definition written_id (listing : value) : string :=
  match getitem listing "id" with
  | Ok i => csv_cell i
  | Raise _ => ""
  end.

(** Whether the line of a listing can be written, and whether it can be
    written and read back. *)
Definition row_encodable (listing : value) : bool :=
  match dict_to_list fields_to_request listing with
  | Ok cells => forallb encodable cells
  | Raise _ => false
  end.

Definition row_round_trips (listing : value) : bool :=
  match dict_to_list fields_to_request listing with
  | Ok cells => forallb (fun c => encodable c && within_field_limit c) cells
  | Raise _ => false
  end.

End CsvFile.

(** What a line that is not the first contributes to the set
    [load_existing_ids] returns. *)
Definition id_cell (fieldnames cells : list string) : option string :=
  mjoin (row_lookup "id" (dict_reader_row fieldnames cells)).

(** A file that site B itself could have left: none, or a text file whose
    first line is the header [save_to_csv] writes. *)
Definition header_ok (f : csv_file) : bool :=
  match f with
  | NoFile => true
  | NotText => false
  | Lines [] => false
  | Lines (fieldnames :: _) => bool_decide (fieldnames = fields_to_request)
  end.

(** ** Columns of a flat row *)

Inductive column : Type :=
| CPostingId | CPrice | CExpenses | CCurrency | CBedrooms | CSuites
| CBathrooms | CParking | CArea | CLocation | CLatitude | CLongitude
| CTitle | CDescription | CPublisher | CFullUrl | CRetrievedDate.

Definition field (c : column) (row : flat_item) : value :=
  match c with
  | CPostingId => postingId row
  | CPrice => price row
  | CExpenses => expenses row
  | CCurrency => currency row
  | CBedrooms => bedrooms row
  | CSuites => suites row
  | CBathrooms => bathrooms row
  | CParking => parking row
  | CArea => area_m2 row
  | CLocation => location row
  | CLatitude => latitude row
  | CLongitude => longitude row
  | CTitle => title row
  | CDescription => description row
  | CPublisher => publisher row
  | CFullUrl => full_url row
  | CRetrievedDate => retrievedDate row
  end.

(** The key of the listing each column is computed from: columns with the
    same key are assigned in one [try] block of the flattener. *)
Definition reads (c : column) : option string :=
  match c with
  | CPostingId => Some "postingId"
  | CPrice | CCurrency => Some "priceOperationTypes"
  | CExpenses => Some "expenses"
  | CBedrooms | CSuites | CBathrooms | CParking | CArea => Some "mainFeatures"
  | CLocation | CLatitude | CLongitude => Some "postingLocation"
  | CTitle => Some "title"
  | CDescription => Some "descriptionNormalized"
  | CPublisher => Some "publisher"
  | CFullUrl => Some "url"
  | CRetrievedDate => None
  end.

(** Two records that differ at most at the key [k]. *)
Definition agree_except (k : string) (d d' : list (string * value)) : Prop :=
  forall k', k' <> k -> dict_lookup k' d = dict_lookup k' d'.

(** The row with the two price columns blanked. *)
Definition without_price (row : flat_item) : flat_item :=
  {| postingId := postingId row; price := VNone; expenses := expenses row;
     currency := VNone; bedrooms := bedrooms row; suites := suites row;
     bathrooms := bathrooms row; parking := parking row;
     area_m2 := area_m2 row; location := location row;
     latitude := latitude row; longitude := longitude row;
     title := title row; description := description row;
     publisher := publisher row; full_url := full_url row;
     retrievedDate := retrievedDate row |}.

(** The specification's reading of best-effort extraction: a column read
    from a fixed path holds the value found at that path, and null when the
    path is missing or malformed, whatever the other paths are. *)
Inductive step : Type :=
| Key (k : string)
| First.

Fixpoint at_path (v : value) (p : list step) : value :=
  match p with
  | [] => v
  | Key k :: p' =>
      match v with
      | VDict entries =>
          match dict_lookup k entries with
          | Some x => at_path x p'
          | None => VNone
          end
      | _ => VNone
      end
  | First :: p' =>
      match v with
      | VList (x :: _) => at_path x p'
      | _ => VNone
      end
  end.

Definition column_path (c : column) : option (list step) :=
  match c with
  | CPostingId => Some [Key "postingId"]
  | CPrice =>
      Some [Key "priceOperationTypes"; First; Key "prices"; First; Key "amount"]
  | CCurrency =>
      Some [Key "priceOperationTypes"; First; Key "prices"; First; Key "currency"]
  | CExpenses => Some [Key "expenses"; Key "amount"]
  | CLocation => Some [Key "postingLocation"; Key "location"; Key "name"]
  | CLatitude =>
      Some [Key "postingLocation"; Key "postingGeolocation"; Key "geolocation";
            Key "latitude"]
  | CLongitude =>
      Some [Key "postingLocation"; Key "postingGeolocation"; Key "geolocation";
            Key "longitude"]
  | CTitle => Some [Key "title"]
  | CDescription => Some [Key "descriptionNormalized"]
  | CPublisher => Some [Key "publisher"; Key "name"]
  | _ => None
  end.

Section FlattenerSpec.
Context `{Builtins}.

Definition best_effort_as_specified (timestamp : string) (listing : value) : Prop :=
  exists row, flatten timestamp listing = Ok row /\
    forall c p, column_path c = Some p -> field c row = at_path listing p.

(** Every value the flattener calls [.get] on, when it gets that far, is a
    mapping: the listing itself, the first price entry, the geolocation
    entry and the publisher. *)
Definition get_targets_are_mappings (listing : value) : bool :=
  is_dict listing
  && match price_info_of listing with Ok v => is_dict v | Raise _ => true end
  && match location_name_of listing, geo_of listing with
     | Ok _, Ok v => is_dict v
     | _, _ => true
     end
  && match get listing "publisher" empty_dict with
     | Ok v => is_dict v
     | Raise _ => true
     end.

End FlattenerSpec.

(** ** Vocabulary for the claims about the two drivers *)

(** The listing array of an answer with status 200 and a JSON mapping for
    a body ([data.get("listPostings", [])]). *)
Definition page_listings (r : response) : option value :=
  match r with
  | Response status_code (Ok data) =>
      if status_code =? 200 then
        match get data "listPostings" (VList []) with
        | Ok l => Some l
        | Raise _ => None
        end
      else None
  | _ => None
  end.


(** A page whose listing array is empty. *)
Definition empty_page (r : response) : bool :=
  match page_listings r with
  | Some l => negb (truthy l)
  | None => false
  end.

(** The records a page carries. *)
Definition page_records (r : response) : list value :=
  match page_listings r with
  | Some (VList items) => items
  | _ => []
  end.

(** The items the driver walks on a page: the page has status 200, its
    body is a JSON mapping, and its listing array is not empty and can be
    iterated. *)
Definition page_items (r : response) : option (list value) :=
  match page_listings r with
  | Some l =>
      if truthy l then
        match py_iter l with
        | Ok items => Some items
        | Raise _ => None
        end
      else None
  | None => None
  end.


Section Vocabulary.
Context `{Builtins}.

(** The ID of a site A record: [str(item.get("postingId"))]. *)
Definition record_id (item : value) : string :=
  match get item "postingId" VNone with
  | Ok v => py_str v
  | Raise _ => ""
  end.

(** The ID of a site B record: [str(item['id'])]. *)
Definition listing_id (item : value) : string :=
  match getitem item "id" with
  | Ok v => py_str v
  | Raise _ => ""
  end.


(** The keys of the rows of a new output file: [str] of the [postingId] of
    each row, which is the ID under which its listing was collected.  A key
    is not always the text of the cell ([None] is written as an empty
    cell). *)
Definition row_keys (written : option (list flat_item)) : list string :=
  match written with
  | Some rows => (fun row => py_str (postingId row)) <$> rows
  | None => []
  end.


(** The files of a city after a run, as a later run reads them: the prior
    ones and the new one, if one was written. *)
Definition files_after (directory : option (list csv_read))
    (written : option (list flat_item)) : option (list csv_read) :=
  match written with
  | Some rows => Some (default [] directory ++ [read_back rows])
  | None => directory
  end.

(** The listings site B's request returned. *)
Definition fetched (r : http_result) : list value :=
  match fetch_quintoandar_data r with
  | Ok (Some listings) => listings
  | _ => []
  end.


(** The specification's reading of a page that fails: the state file is as
    it was. *)
Definition failed_page_as_specified (post : api) (sc : scraper) (page : value)
  : Prop :=
  (scrape_page post sc page).1 = false ->
  state_file (scrape_page post sc page).2 = state_file sc.

(** What the accumulator satisfies at all times: distinct keys, each the
    ID of its record, none of them empty or already seen. *)
Definition session_ok (seen : gset string) (session : list (string * value))
  : Prop :=
  NoDup session.*1
  /\ Forall (fun e => e.1 = record_id e.2 /\ e.1 <> "" /\ e.1 ∉ seen) session.


(** Entries with distinct keys, each the ID of its listing. *)
Definition ids_ok (u : list (string * value)) : Prop :=
  NoDup u.*1 /\ Forall (fun e => e.1 = listing_id e.2) u.

End Vocabulary.

(** The specification's reading of the ID-less record: the string ["None"]
    is the [postingId] of a row of the new file. *)
Definition none_id_in_file (written : option (list flat_item)) : Prop :=
  exists rows row,
    written = Some rows /\ row ∈ rows /\ postingId row = VStr "None".

(** A hit of the expected shape: a mapping with a [_source] mapping that
    has an [id]. *)
Definition has_id (item : value) : bool :=
  match getitem item "id" with
  | Ok _ => true
  | Raise _ => false
  end.

Definition hit_in_shape (hit : value) : bool :=
  match getitem hit "_source" with
  | Ok source => has_id source
  | Raise _ => false
  end.

(** A request that failed, a body that is not JSON, or a body of the
    expected shape: a mapping whose [hits] is absent or a mapping whose own
    [hits] is absent, empty or an array of hits of the expected shape. *)
Definition answer_in_shape (r : http_result) : bool :=
  match r with
  | RequestFails | NotJson => true
  | Json data =>
      match get data "hits" empty_dict with
      | Ok outer =>
          match get outer "hits" VNone with
          | Ok inner =>
              if truthy inner then
                match inner with
                | VList hits => forallb hit_in_shape hits
                | _ => false
                end
              else true
          | Raise _ => false
          end
      | Raise _ => false
      end
  end.

Section ExitVocabulary.
Context `{Builtins}.




End ExitVocabulary.
(** ** File names *)

(** [s.replace('-', '_')]. *)
Fixpoint replace_dash (s : string) : string :=
  match s with
  | EmptyString => EmptyString
  | String c rest =>
      String (if Ascii.eqb c "-" then "_"%char else c) (replace_dash rest)
  end.

(** Line 23 of [extract_data.py]: the state file of a city. *)
Definition state_file_name (base_state_file_name city_slug : string) : string :=
  base_state_file_name +:+ "_" +:+ replace_dash city_slug +:+ ".json".

(** Line 120 of [quintoandar_scraper.py]: the output file of a city. *)
Definition output_file_name (city_slug : string) : string :=
  "quintoandar_" +:+ replace_dash city_slug +:+ ".csv".

(** [c in s] for a character. *)
Fixpoint occurs (c : ascii) (s : string) : bool :=
  match s with
  | EmptyString => false
  | String c' rest => Ascii.eqb c c' || occurs c rest
  end.


(** ** A concrete library for running the model

    [str.lower] on ASCII letters, [time.sleep] that rejects a negative or
    undefined delay, [int] on plain decimal numerals, and an exact [x + 1];
    [repr] is a placeholder.  Writing a JSON or CSV file raises exactly when
    a text in it cannot be encoded, and a dump that raises leaves a file
    that is cut short.  The cookie jar takes any mapping.  The [postingId]
    column is read back as pandas writes it: a missing value and the texts
    pandas takes for one are missing, a number in a column of numbers with a
    missing value or a float is written as a float, anything else as its
    [str].  The examples below stay where these agree with Python: ASCII
    text and surrogates, decimal numerals, no float or container printed. *)

Definition ascii_lower_char (c : ascii) : ascii :=
  let n := N_of_ascii c in
  if ((65 <=? n) && (n <=? 90))%N then ascii_of_N (n + 32) else c.

Fixpoint ascii_lower (s : string) : string :=
  match s with
  | EmptyString => EmptyString
  | String c rest => String (ascii_lower_char c) (ascii_lower rest)
  end.

Definition sleep_checked (d : pyfloat) : option exn :=
  match d with
  | FNaN => Some ValueError
  | FInf true => Some ValueError
  | FInf false => Some OverflowError
  | FFinite true (Npos _) _ => Some ValueError
  | FFinite _ _ _ => None
  end.

Definition digit_of (c : ascii) : option Z :=
  let n := N_of_ascii c in
  if ((48 <=? n) && (n <=? 57))%N then Some (Z.of_N n - 48) else None.

Fixpoint digits_value (acc : Z) (s : string) : option Z :=
  match s with
  | EmptyString => Some acc
  | String c rest =>
      match digit_of c with
      | Some d => digits_value (10 * acc + d) rest
      | None => None
      end
  end.

Definition decimal_of_str (s : string) : option Z :=
  match s with
  | EmptyString => None
  | String "-" (String c rest) => Z.opp <$> digits_value 0 (String c rest)
  | String "+" (String c rest) => digits_value 0 (String c rest)
  | _ => digits_value 0 s
  end.

Definition signed (negative : bool) (m : Z) : Z := if negative then - m else m.

Definition exact_succ (x : pyfloat) : pyfloat :=
  match x with
  | FFinite s m e =>
      let scale := 2 ^ Z.max 0 (- e) in
      let total := signed s (Z.of_N m * 2 ^ Z.max 0 e) + scale in
      FFinite (total <? 0) (Z.to_N (Z.abs total)) (Z.min 0 e)
  | _ => x
  end.

(** Whether every text of a JSON document can be encoded. *)
Fixpoint value_encodable (v : value) : bool :=
  match v with
  | VStr s => encodable s
  | VList items => forallb value_encodable items
  | VDict entries =>
      forallb (fun e => encodable e.1 && value_encodable e.2) entries
  | _ => true
  end.

Definition dump_checked (_ : file) (st : value) : dumped :=
  if value_encodable st then Dumped
  else DumpRaises (OtherError "UnicodeEncodeError") Undecodable.

Definition update_checked (v : value) : option exn :=
  match v with
  | VDict _ => None
  | _ => Some TypeError
  end.

Definition all_columns : list column :=
  [CPostingId; CPrice; CExpenses; CCurrency; CBedrooms; CSuites; CBathrooms;
   CParking; CArea; CLocation; CLatitude; CLongitude; CTitle; CDescription;
   CPublisher; CFullUrl; CRetrievedDate].

Definition to_csv_checked (rows : list flat_item) : option exn :=
  if forallb (fun row =>
                forallb (fun c => value_encodable (field c row)) all_columns)
       rows
  then None
  else Some (OtherError "UnicodeEncodeError").

(** The texts [pd.read_csv] takes for a missing value. *)
Definition na_values : list string :=
  [""; "#N/A"; "#N/A N/A"; "#NA"; "-1.#IND"; "-1.#QNAN"; "-NaN"; "-nan";
   "1.#IND"; "1.#QNAN"; "<NA>"; "N/A"; "NA"; "NULL"; "NaN"; "None"; "n/a";
   "nan"; "null"].

Definition is_number (v : value) : bool :=
  match v with
  | VInt _ | VFloat _ => true
  | _ => false
  end.

(** A column of numbers and missing values that holds a missing value or a
    float: pandas makes it a column of floats. *)
Definition float_column (column : list value) : bool :=
  forallb (fun v => match v with VNone | VInt _ | VFloat _ => true | _ => false end)
    column
  && existsb is_number column
  && existsb (fun v => match v with VNone | VFloat _ => true | _ => false end)
       column.

Definition cell_read_back (floats : bool) (v : value) : option string :=
  match v with
  | VNone => None
  | VInt n =>
      Some (if floats then pretty n +:+ ".0" else pretty n)
  | VStr s => if bool_decide (s ∈ na_values) then None else Some s
  | VBool true => Some "True"
  | VBool false => Some "False"
  | _ => Some "<repr>"
  end.

Definition read_back_checked (rows : list flat_item) : csv_read :=
  let column := postingId <$> rows in
  Column (cell_read_back (float_column column) <$> column).

Definition sample_builtins : Builtins :=
  {| repr := fun _ => "<repr>";
     lower := ascii_lower;
     float_succ := exact_succ;
     sleep := sleep_checked;
     int_of_str := decimal_of_str;
     json_dump := dump_checked;
     cookies_update := update_checked;
     to_csv := to_csv_checked;
     read_back := read_back_checked |}.


(** ** Sample inputs *)

Definition sample_time : string := "2024-05-01_10-00-00".

(** A listing with coordinates and no location name. *)
Definition listing_without_location_name : list (string * value) :=
  [("postingId", VStr "77"); ("title", VStr "Casa");
   ("postingLocation",
     VDict [("postingGeolocation",
              VDict [("geolocation",
                       VDict [("latitude", VInt (-24));
                              ("longitude", VInt (-46))])])])].

Definition row_without_location_name : flat_item :=
  {| postingId := VStr "77"; price := VNone; expenses := VNone;
     currency := VNone; bedrooms := VNone; suites := VNone;
     bathrooms := VNone; parking := VNone; area_m2 := VNone;
     location := VNone; latitude := VNone; longitude := VNone;
     title := VStr "Casa"; description := VNone; publisher := VNone;
     full_url := VNone; retrievedDate := VStr sample_time |}.

(** The same listing with the location name in place. *)
Definition listing_with_location_name : list (string * value) :=
  dict_set "postingLocation"
    (VDict [("location", VDict [("name", VStr "Centro")]);
            ("postingGeolocation",
              VDict [("geolocation",
                       VDict [("latitude", VInt (-24));
                              ("longitude", VInt (-46))])])])
    listing_without_location_name.

Definition row_with_location_name : flat_item :=
  {| postingId := VStr "77"; price := VNone; expenses := VNone;
     currency := VNone; bedrooms := VNone; suites := VNone;
     bathrooms := VNone; parking := VNone; area_m2 := VNone;
     location := VStr "Centro"; latitude := VInt (-24);
     longitude := VInt (-46);
     title := VStr "Casa"; description := VNone; publisher := VNone;
     full_url := VNone; retrievedDate := VStr sample_time |}.

(** A listing whose publisher is [null]. *)
Definition listing_null_publisher : value :=
  VDict [("postingId", VStr "78"); ("publisher", VNone)].

(** A complete listing, with and without its price entry. *)
Definition listing_unpriced : list (string * value) :=
  [("postingId", VInt 7); ("title", VStr "Apto");
   ("url", VStr "/propriedades/apto-7.html");
   ("expenses", VDict [("amount", VInt 300)]);
   ("mainFeatures",
     VDict [("CFT100", VDict [("label", VStr "Area Total"); ("value", VStr "80")]);
            ("CFT2", VDict [("label", VStr "Quartos"); ("value", VStr "2")])]);
   ("publisher", VDict [("name", VStr "Imob")])].

Definition listing_priced : list (string * value) :=
  dict_set "priceOperationTypes"
    (VList [VDict [("prices",
                     VList [VDict [("amount", VInt 1500);
                                   ("currency", VStr "R$")]])]])
    listing_unpriced.

Definition row_priced : flat_item :=
  {| postingId := VInt 7; price := VInt 1500; expenses := VInt 300;
     currency := VStr "R$"; bedrooms := VStr "2"; suites := VNone;
     bathrooms := VNone; parking := VNone; area_m2 := VStr "80";
     location := VNone; latitude := VNone; longitude := VNone;
     title := VStr "Apto"; description := VNone; publisher := VStr "Imob";
     full_url := VStr "https://www.imovelweb.com.br/propriedades/apto-7.html";
     retrievedDate := VStr sample_time |}.

Definition sample_record (id : string) : value :=
  VDict [("postingId", VStr id); ("title", VStr "Casa")].

Definition page_of (items : list value) : response :=
  Response 200 (Ok (VDict [("listPostings", VList items)])).

(** An API with two full pages and nothing after them. *)
Definition two_pages : api := fun _ page =>
  match page with
  | VInt 1 => page_of [sample_record "101"; sample_record "102"]
  | VInt 2 => page_of [sample_record "102"; sample_record "103"]
  | _ => page_of []
  end.

(** An API that answers every request with an empty page. *)
Definition no_pages : api := fun _ _ => page_of [].

(** The scraper [__init__] builds for the one known city, with no prior
    IDs, from a state file and the state loaded from it. *)
Definition scraper_on (f : file) (st : value) : scraper :=
  {| city_slug := "itanhaem-sp"; city_code := "109237"; seen_posting_ids := ∅;
     state_file := f; state := st;
     new_listings_this_session := []; new_listings_count := 0;
     requested := [] |}.

(** A scraper that finds no state file. *)
Definition fresh_scraper : scraper := scraper_on Missing initial_state.

(** A scraper that finds [{"last_page": 4}] in its state file. *)
Definition resumed_scraper : scraper :=
  scraper_on (Holds (VDict [("last_page", VInt 4)]))
    (VDict [("last_page", VInt 4)]).

(** A scraper that finds [{"last_page": null}] in its state file. *)
Definition scraper_with_null_page : scraper :=
  scraper_on (Holds (VDict [("last_page", VNone)]))
    (VDict [("last_page", VNone)]).

(** A lone surrogate (U+D800), a text that UTF-8 cannot encode. *)
Definition lone_surrogate : string :=
  String (ascii_of_N 237) (String (ascii_of_N 160) (String (ascii_of_N 128) "")).

(** A state file that holds [{"last_page": 0, "note": "\ud800"}], and the
    scraper that finds it. *)
Definition state_with_surrogate : value :=
  VDict [("last_page", VInt 0); ("note", VStr lone_surrogate)].

Definition scraper_with_surrogate : scraper :=
  scraper_on (Holds state_with_surrogate) state_with_surrogate.

Definition no_delay : pyfloat := FFinite false 0 0.
Definition negative_delay : pyfloat := FFinite true 1 0.

(** An API whose only listing has no [postingId]. *)
Definition id_less_api : api := fun _ page =>
  match page with
  | VInt 1 => page_of [VDict [("title", VStr "Casa")]]
  | _ => page_of []
  end.


Definition sample_args : args :=
  {| city := ["itanhaem-sp"]; start := None;
     state_base_name := "scraper_state"; cookies := "cookies.json";
     delay := no_delay; max_pages := None |}.

(** A first run: no output directory, no state file, no cookie file. *)
Definition first_run : surroundings :=
  {| output_dir := None; state_on_disk := Missing; cookies_on_disk := Missing;
     timestamp := sample_time |}.


(** A run that finds the given prior files and nothing else. *)
Definition run_after (files : option (list csv_read)) : surroundings :=
  {| output_dir := files; state_on_disk := Missing;
     cookies_on_disk := Missing; timestamp := sample_time |}.




Definition hit (id : Z) : value := VDict [("_source", VDict [("id", VInt id)])].

Definition answer_5_6_6 : http_result :=
  Json (VDict [("hits", VDict [("hits", VList [hit 5; hit 6; hit 6])])]).

(** An answer whose only listing has no [id]. *)
Definition answer_without_id : http_result :=
  Json (VDict [("hits", VDict [("hits", VList [VDict [("_source", VDict [])]])])]).

Definition sample_argv : list string :=
  ["quintoandar_scraper.py"; "1"; "santos-sp-brasil"; "itanhaem-sp-brasil"].

(** The output file of a city with the header and one short line that
    holds the ID 5. *)
Definition table_with_5 : csv_file := Lines [fields_to_request; ["5"]].




(** An answer whose only listing has an address that cannot be encoded. *)
Definition answer_with_surrogate : http_result :=
  Json (VDict [("hits", VDict [("hits",
    VList [VDict [("_source",
             VDict [("id", VInt 9); ("address", VStr lone_surrogate)])]])])]).

(** An answer with a listing whose [id] is null, and the ID 5. *)
Definition answer_with_null_id : http_result :=
  Json (VDict [("hits", VDict [("hits",
    VList [VDict [("_source", VDict [("id", VNone)])]; hit 5])])]).


(** Site A's command line with a known and an unknown city. *)
Definition two_city_args : args :=
  {| city := ["itanhaem-sp"; "santos-sp"]; start := None;
     state_base_name := "scraper_state"; cookies := "cookies.json";
     delay := no_delay; max_pages := None |}.

(** * Properties *)

(** ** The result monad *)

Lemma bind_Ok_inv {A B : Type} (m : result A) (f : A -> result B) (b : B) :
  m ≫= f = Ok b -> exists a, m = Ok a /\ f a = Ok b.
Proof. destruct m as [a|e]; simpl; [eauto | discriminate]. Qed.

Lemma bind_Raise_inv {A B : Type} (m : result A) (f : A -> result B) (e : exn) :
  m ≫= f = Raise e -> m = Raise e \/ exists a, m = Ok a /\ f a = Raise e.
Proof. destruct m as [a|e']; simpl; [eauto | intros [= ->]; auto]. Qed.

Ltac inv_bind H :=
  let a := fresh "a" in
  let Ha := fresh "Ha" in
  apply bind_Ok_inv in H; destruct H as (a & Ha & H).

(** ** Lookups *)

Lemma dict_lookup_set_eq k v d : dict_lookup k (dict_set k v d) = Some v.
Proof.
  induction d as [|[k' v'] d IH]; simpl.
  - now rewrite String.eqb_refl.
  - destruct (String.eqb k k') eqn:E; simpl; rewrite E; auto.
Qed.

Lemma dict_lookup_set_ne k k' v d :
  k' <> k -> dict_lookup k' (dict_set k v d) = dict_lookup k' d.
Proof.
  intros Hne. induction d as [|[k0 v0] d IH]; simpl.
  - destruct (String.eqb_spec k' k); congruence.
  - destruct (String.eqb_spec k k0) as [->|Hk]; simpl.
    + destruct (String.eqb_spec k' k0); congruence.
    + now rewrite IH.
Qed.

Lemma agree_except_set k v d : agree_except k d (dict_set k v d).
Proof. intros k' Hne. now rewrite dict_lookup_set_ne. Qed.

Lemma getitem_raises v k e :
  getitem v k = Raise e -> e = KeyError \/ e = TypeError.
Proof.
  destruct v; simpl; try (intros [= <-]; auto).
  destruct (dict_lookup k entries); [discriminate | intros [= <-]; auto].
Qed.

Lemma getitem0_raises v e :
  getitem0 v = Raise e -> e = KeyError \/ e = TypeError \/ e = IndexError.
Proof.
  destruct v; simpl; try (intros [= <-]; auto).
  - destruct (chars s); [intros [= <-]; auto | discriminate].
  - destruct items; [intros [= <-]; auto | discriminate].
Qed.

Lemma get_raises v k def e :
  get v k def = Raise e -> e = AttributeError /\ is_dict v = false.
Proof. destruct v; simpl; try discriminate; intros [= <-]; auto. Qed.

Lemma get_of_dict v k def :
  is_dict v = true -> exists x, get v k def = Ok x.
Proof. destruct v; simpl; try discriminate; eauto. Qed.

Section FlattenerFacts.
Context `{Builtins}.

Lemma price_info_raises l e :
  price_info_of l = Raise e -> catches [KeyError; TypeError; IndexError] e = true.
Proof.
  unfold price_info_of. intros Hr.
  repeat (apply bind_Raise_inv in Hr; destruct Hr as [Hr | (? & _ & Hr)]);
    first [ apply getitem_raises in Hr | apply getitem0_raises in Hr ];
    intuition subst; reflexivity.
Qed.

Lemma named_path_raises l e :
  location_name_of l = Raise e \/ geo_of l = Raise e \/ expenses_body l = Raise e ->
  catches [KeyError; TypeError] e = true.
Proof.
  unfold location_name_of, geo_of, expenses_body. intros [Hr | [Hr | Hr]];
    repeat (apply bind_Raise_inv in Hr; destruct Hr as [Hr | (? & _ & Hr)]);
    apply getitem_raises in Hr; intuition subst; reflexivity.
Qed.

Lemma find_feature_raises word fs e :
  find_feature word fs = Raise e -> e = AttributeError.
Proof.
  induction fs as [|f fs IH]; simpl; [discriminate|].
  intros Hr.
  apply bind_Raise_inv in Hr. destruct Hr as [Hr | (label & _ & Hr)].
  { now apply get_raises in Hr. }
  apply bind_Raise_inv in Hr. destruct Hr as [Hr | (lowered & _ & Hr)].
  { destruct label; simpl in Hr; congruence. }
  destruct (contains word lowered); [|auto].
  now apply get_raises in Hr.
Qed.

Lemma features_raises l st e :
  features_body l = (st, Some e) -> e = AttributeError.
Proof.
  unfold features_body.
  destruct (get l "mainFeatures" empty_dict) as [fd|e0] eqn:Hg.
  - destruct fd; try discriminate.
    repeat match goal with
           | |- context [find_feature ?w ?fs] =>
               let E := fresh "E" in
               destruct (find_feature w fs) eqn:E;
               [| apply find_feature_raises in E; intros [= <- <-]; exact E ]
           end.
    discriminate.
  - apply get_raises in Hg. intros [= <- <-]. tauto.
Qed.

(** The blocks of [flatten], in the order they run. *)
Lemma flatten_Ok_inv ts l row :
  flatten ts l = Ok row ->
  exists pc ex fe lo url pid ti de pub pname,
    try_pass (catches [KeyError; TypeError; IndexError])
      (atomic (VNone, VNone) (price_body l)) = Ok pc /\
    try_pass (catches [KeyError; TypeError]) (atomic VNone (expenses_body l)) = Ok ex /\
    try_pass (catches [AttributeError; TypeError]) (features_body l) = Ok fe /\
    try_pass (catches [KeyError; TypeError; IndexError]) (location_body l) = Ok lo /\
    try_pass (catches [TypeError]) (atomic VNone (url_body l)) = Ok url /\
    get l "postingId" VNone = Ok pid /\
    get l "title" VNone = Ok ti /\
    get l "descriptionNormalized" VNone = Ok de /\
    get l "publisher" empty_dict = Ok pub /\
    get pub "name" VNone = Ok pname /\
    row = {| postingId := pid; price := pc.1; expenses := ex; currency := pc.2;
             bedrooms := f_bedrooms fe; suites := f_suites fe;
             bathrooms := f_bathrooms fe; parking := f_parking fe;
             area_m2 := f_area fe; location := lo.1.1; latitude := lo.1.2;
             longitude := lo.2; title := ti; description := de;
             publisher := pname; full_url := url; retrievedDate := VStr ts |}.
Proof.
  unfold flatten. intros Hf.
  do 10 inv_bind Hf. injection Hf as <-.
  repeat eexists; eauto.
Qed.

Lemma flatten_Ok_intro ts l pc ex fe lo url pid ti de pub pname :
  try_pass (catches [KeyError; TypeError; IndexError])
    (atomic (VNone, VNone) (price_body l)) = Ok pc ->
  try_pass (catches [KeyError; TypeError]) (atomic VNone (expenses_body l)) = Ok ex ->
  try_pass (catches [AttributeError; TypeError]) (features_body l) = Ok fe ->
  try_pass (catches [KeyError; TypeError; IndexError]) (location_body l) = Ok lo ->
  try_pass (catches [TypeError]) (atomic VNone (url_body l)) = Ok url ->
  get l "postingId" VNone = Ok pid ->
  get l "title" VNone = Ok ti ->
  get l "descriptionNormalized" VNone = Ok de ->
  get l "publisher" empty_dict = Ok pub ->
  get pub "name" VNone = Ok pname ->
  flatten ts l =
    Ok {| postingId := pid; price := pc.1; expenses := ex; currency := pc.2;
          bedrooms := f_bedrooms fe; suites := f_suites fe;
          bathrooms := f_bathrooms fe; parking := f_parking fe;
          area_m2 := f_area fe; location := lo.1.1; latitude := lo.1.2;
          longitude := lo.2; title := ti; description := de;
          publisher := pname; full_url := url; retrievedDate := VStr ts |}.
Proof.
  intros H1 H2 H3 H4 H5 H6 H7 H8 H9 H10. unfold flatten.
  rewrite H1; simpl. rewrite H2; simpl. rewrite H3; simpl. rewrite H4; simpl.
  rewrite H5; simpl. rewrite H6; simpl. rewrite H7; simpl. rewrite H8; simpl.
  rewrite H9; simpl. rewrite H10; simpl. reflexivity.
Qed.

End FlattenerFacts.

(** ** The flattener reads each column from one key of the listing *)

Section FlattenerFrame.
Context `{Builtins}.

Lemma get_agree d d' k def :
  dict_lookup k d = dict_lookup k d' -> get (VDict d) k def = get (VDict d') k def.
Proof. simpl. now intros ->. Qed.

Lemma getitem_agree d d' k :
  dict_lookup k d = dict_lookup k d' -> getitem (VDict d) k = getitem (VDict d') k.
Proof. simpl. now intros ->. Qed.

Lemma price_body_agree d d' :
  dict_lookup "priceOperationTypes" d = dict_lookup "priceOperationTypes" d' ->
  price_body (VDict d) = price_body (VDict d').
Proof.
  intros E. unfold price_body, price_info_of.
  now rewrite (getitem_agree d d' _ E).
Qed.

Lemma expenses_body_agree d d' :
  dict_lookup "expenses" d = dict_lookup "expenses" d' ->
  expenses_body (VDict d) = expenses_body (VDict d').
Proof. intros E. unfold expenses_body. now rewrite (getitem_agree d d' _ E). Qed.

Lemma features_body_agree d d' :
  dict_lookup "mainFeatures" d = dict_lookup "mainFeatures" d' ->
  features_body (VDict d) = features_body (VDict d').
Proof. intros E. unfold features_body. now rewrite (get_agree d d' _ _ E). Qed.

Lemma location_body_agree d d' :
  dict_lookup "postingLocation" d = dict_lookup "postingLocation" d' ->
  location_body (VDict d) = location_body (VDict d').
Proof.
  intros E. unfold location_body, location_name_of, geo_of.
  now rewrite !(getitem_agree d d' _ E).
Qed.

Lemma url_body_agree d d' :
  dict_lookup "url" d = dict_lookup "url" d' ->
  url_body (VDict d) = url_body (VDict d').
Proof. intros E. unfold url_body. now rewrite (get_agree d d' _ _ E). Qed.

Lemma column_depends_on_its_key ts d d' c k row row' :
  reads c = Some k ->
  dict_lookup k d = dict_lookup k d' ->
  flatten ts (VDict d) = Ok row ->
  flatten ts (VDict d') = Ok row' ->
  field c row = field c row'.
Proof.
  intros Hc Hk Hf Hf'.
  apply flatten_Ok_inv in Hf
    as (pc & ex & fe & lo & url & pid & ti & de & pub & pname
        & H1 & H2 & H3 & H4 & H5 & H6 & H7 & H8 & H9 & H10 & ->).
  apply flatten_Ok_inv in Hf'
    as (pc' & ex' & fe' & lo' & url' & pid' & ti' & de' & pub' & pname'
        & H1' & H2' & H3' & H4' & H5' & H6' & H7' & H8' & H9' & H10' & ->).
  destruct c; simpl in Hc; try discriminate; injection Hc as <-; simpl;
    try (rewrite (price_body_agree _ _ Hk) in H1; congruence);
    try (rewrite (expenses_body_agree _ _ Hk) in H2; congruence);
    try (rewrite (features_body_agree _ _ Hk) in H3; congruence);
    try (rewrite (location_body_agree _ _ Hk) in H4; congruence);
    try (rewrite (url_body_agree _ _ Hk) in H5; congruence);
    try (rewrite (get_agree _ _ _ _ Hk) in H6; congruence);
    try (rewrite (get_agree _ _ _ _ Hk) in H7; congruence);
    try (rewrite (get_agree _ _ _ _ Hk) in H8; congruence).
  rewrite (get_agree _ _ _ _ Hk) in H9. congruence.
Qed.

Lemma retrieved_date ts l row :
  flatten ts l = Ok row -> retrievedDate row = VStr ts.
Proof.
  intros Hf. apply flatten_Ok_inv in Hf.
  destruct Hf as (? & ? & ? & ? & ? & ? & ? & ? & ? & ? & Hf).
  now destruct Hf as (_ & _ & _ & _ & _ & _ & _ & _ & _ & _ & ->).
Qed.

Lemma column_frame ts d d' c k row row' :
  agree_except k d d' ->
  reads c <> Some k ->
  flatten ts (VDict d) = Ok row ->
  flatten ts (VDict d') = Ok row' ->
  field c row' = field c row.
Proof.
  intros Ha Hc Hf Hf'.
  destruct (reads c) as [kc|] eqn:Hr.
  - symmetry.
    apply (column_depends_on_its_key ts d d' c kc row row' Hr); auto.
    apply Ha. congruence.
  - destruct c; try discriminate. simpl.
    now rewrite (retrieved_date _ _ _ Hf), (retrieved_date _ _ _ Hf').
Qed.

(** A path that fails leaves the columns of its block null. *)
Lemma failed_paths_null ts l row :
  flatten ts l = Ok row ->
  (forall e, price_info_of l = Raise e -> price row = VNone /\ currency row = VNone)
  /\ (forall e, expenses_body l = Raise e -> expenses row = VNone)
  /\ (forall e, location_name_of l = Raise e ->
        location row = VNone /\ latitude row = VNone /\ longitude row = VNone)
  /\ (forall e, geo_of l = Raise e -> latitude row = VNone /\ longitude row = VNone)
  /\ (forall e, url_body l = Raise e -> full_url row = VNone).
Proof.
  intros Hf.
  apply flatten_Ok_inv in Hf
    as (pc & ex & fe & lo & url & pid & ti & de & pub & pname
        & H1 & H2 & H3 & H4 & H5 & H6 & H7 & H8 & H9 & H10 & ->).
  simpl. split; [|split; [|split; [|split]]]; intros e He.
  - unfold price_body in H1. rewrite He in H1. simpl in H1.
    destruct (catches _ e); now inversion H1.
  - rewrite He in H2. simpl in H2. destruct (catches _ e); now inversion H2.
  - unfold location_body in H4. rewrite He in H4. simpl in H4.
    destruct (catches _ e); now inversion H4.
  - unfold location_body in H4. rewrite He in H4.
    destruct (location_name_of l); simpl in H4;
      destruct (catches _ _); now inversion H4.
  - rewrite He in H5. simpl in H5. destruct (catches _ e); now inversion H5.
Qed.

Lemma catches_more e :
  catches [KeyError; TypeError] e = true ->
  catches [KeyError; TypeError; IndexError] e = true.
Proof. destruct e; vm_compute; congruence. Qed.

Lemma flatten_total ts l :
  get_targets_are_mappings l = true -> exists row, flatten ts l = Ok row.
Proof.
  unfold get_targets_are_mappings. intros Hm.
  apply andb_prop in Hm as [Hm Hpub].
  apply andb_prop in Hm as [Hm Hgeo].
  apply andb_prop in Hm as [Hd Hprice].
  assert (exists pc, try_pass (catches [KeyError; TypeError; IndexError])
            (atomic (VNone, VNone) (price_body l)) = Ok pc) as [pc H1].
  { unfold price_body.
    destruct (price_info_of l) as [pi|e] eqn:E; simpl.
    - destruct pi; try discriminate. simpl. eauto.
    - rewrite (price_info_raises _ _ E). eauto. }
  assert (exists ex, try_pass (catches [KeyError; TypeError])
            (atomic VNone (expenses_body l)) = Ok ex) as [ex H2].
  { destruct (expenses_body l) as [x|e] eqn:E; simpl; [eauto|].
    rewrite (named_path_raises l e) by auto. eauto. }
  assert (exists fe, try_pass (catches [AttributeError; TypeError])
            (features_body l) = Ok fe) as [fe H3].
  { destruct (features_body l) as [st [e|]] eqn:E; simpl; [|eauto].
    apply features_raises in E as ->. simpl. eauto. }
  assert (exists lo, try_pass (catches [KeyError; TypeError; IndexError])
            (location_body l) = Ok lo) as [lo H4].
  { unfold location_body.
    destruct (location_name_of l) as [name|e] eqn:E; simpl.
    - destruct (geo_of l) as [geo|e] eqn:G; simpl.
      + destruct geo; try discriminate. simpl. eauto.
      + rewrite catches_more by (apply (named_path_raises l); auto). eauto.
    - rewrite catches_more by (apply (named_path_raises l); auto). eauto. }
  destruct l as [| | | | | |d]; try discriminate.
  assert (exists url, try_pass (catches [TypeError])
            (atomic VNone (url_body (VDict d))) = Ok url) as [url H5].
  { unfold url_body. simpl.
    destruct (dict_lookup "url" d) as [u|]; simpl; [|eauto].
    destruct (truthy u); simpl; [|eauto].
    destruct u; simpl; eauto. }
  destruct (get (VDict d) "publisher" empty_dict) as [pub|] eqn:H9;
    [|discriminate].
  destruct (get_of_dict pub "name" VNone Hpub) as [pname H10].
  eexists. eapply flatten_Ok_intro; eauto; reflexivity.
Qed.

End FlattenerFrame.

(** ** Claims about the flattener *)

Section FlattenerClaims.
Context `{Builtins}.

(** C5 (as amended).  Flattening is best effort block by block.  For a
    listing in which every value the flattener calls [.get] on is a mapping,
    it returns a row and raises nothing.  Whenever it returns a row: a price,
    expenses, location, coordinates or url path that is missing or malformed
    leaves the columns of its own [try] block null (a missing location name
    also leaves the coordinates null, the two being read in one block); and
    for two listings that differ only at the key [k], every column that is
    not read from [k] is the same in both rows. *)
Theorem flatten_best_effort_per_block
    (ts : string) (l : value) (d d' : list (string * value)) (k : string) :
  (get_targets_are_mappings l = true -> exists row, flatten ts l = Ok row)
  /\ (forall row, flatten ts l = Ok row ->
        (forall e, price_info_of l = Raise e ->
           price row = VNone /\ currency row = VNone)
        /\ (forall e, expenses_body l = Raise e -> expenses row = VNone)
        /\ (forall e, location_name_of l = Raise e ->
              location row = VNone /\ latitude row = VNone /\ longitude row = VNone)
        /\ (forall e, geo_of l = Raise e ->
              latitude row = VNone /\ longitude row = VNone)
        /\ (forall e, url_body l = Raise e -> full_url row = VNone))
  /\ (agree_except k d d' ->
      forall row row' c,
        flatten ts (VDict d) = Ok row ->
        flatten ts (VDict d') = Ok row' ->
        reads c <> Some k ->
        field c row' = field c row).
Proof.
  split; [apply flatten_total|].
  split; [apply failed_paths_null|].
  intros Ha row row' c Hf Hf' Hc.
  now apply (column_frame ts d d' c k).
Qed.

(** C6.  A listing without the key [priceOperationTypes] flattens to a row
    with null price and currency whose other columns are those of the same
    listing with the key present, whenever the latter flattens to a row. *)
Theorem flatten_without_price_operation_types
    (ts : string) (d d' : list (string * value)) (row' : flat_item) :
  dict_lookup "priceOperationTypes" d = None ->
  agree_except "priceOperationTypes" d d' ->
  flatten ts (VDict d') = Ok row' ->
  flatten ts (VDict d) = Ok (without_price row').
Proof.
  intros Hmiss Ha Hf'.
  apply flatten_Ok_inv in Hf'
    as (pc & ex & fe & lo & url & pid & ti & de & pub & pname
        & H1 & H2 & H3 & H4 & H5 & H6 & H7 & H8 & H9 & H10 & ->).
  assert (forall k, k <> "priceOperationTypes" ->
            dict_lookup k d = dict_lookup k d') as Hk by exact Ha.
  rewrite <- (expenses_body_agree d d') in H2 by (apply Hk; discriminate).
  rewrite <- (features_body_agree d d') in H3 by (apply Hk; discriminate).
  rewrite <- (location_body_agree d d') in H4 by (apply Hk; discriminate).
  rewrite <- (url_body_agree d d') in H5 by (apply Hk; discriminate).
  rewrite <- (get_agree d d') in H6 by (apply Hk; discriminate).
  rewrite <- (get_agree d d') in H7 by (apply Hk; discriminate).
  rewrite <- (get_agree d d') in H8 by (apply Hk; discriminate).
  rewrite <- (get_agree d d') in H9 by (apply Hk; discriminate).
  assert (try_pass (catches [KeyError; TypeError; IndexError])
            (atomic (VNone, VNone) (price_body (VDict d))) = Ok (VNone, VNone))
    as H1'.
  { unfold price_body, price_info_of. simpl. rewrite Hmiss. reflexivity. }
  rewrite (flatten_Ok_intro ts (VDict d) _ _ _ _ _ _ _ _ _ _
             H1' H2 H3 H4 H5 H6 H7 H8 H9 H10).
  reflexivity.
Qed.

End FlattenerClaims.

Section FlattenerExamples.
#[local] Existing Instance sample_builtins.

(** C5, the claim as the specification words it, fails: this listing has its
    coordinates in place and lacks only the location name, and the row has
    no latitude. *)
Lemma best_effort_counterexample :
  ~ best_effort_as_specified sample_time (VDict listing_without_location_name).
Proof.
  intros (row & Hf & Hcol).
  assert (flatten sample_time (VDict listing_without_location_name)
          = Ok row_without_location_name) as Hrun by reflexivity.
  rewrite Hrun in Hf. injection Hf as <-.
  specialize (Hcol CLatitude _ eq_refl). discriminate Hcol.
Qed.

(** The flattener on a listing whose publisher is [null]: [None] has no
    [get], and no handler is around that call. *)
Lemma flatten_null_publisher_raises :
  flatten sample_time listing_null_publisher = Raise AttributeError.
Proof. reflexivity. Qed.

(** C5 on the listing without a location name, and on the same listing with
    the name in place. *)
Lemma flatten_best_effort_witness :
  get_targets_are_mappings (VDict listing_without_location_name) = true
  /\ flatten sample_time (VDict listing_without_location_name)
     = Ok row_without_location_name
  /\ location_name_of (VDict listing_without_location_name) = Raise KeyError
  /\ latitude row_without_location_name = VNone
  /\ agree_except "postingLocation"
       listing_without_location_name listing_with_location_name
  /\ flatten sample_time (VDict listing_with_location_name)
     = Ok row_with_location_name
  /\ field CTitle row_with_location_name
     = field CTitle row_without_location_name.
Proof.
  destruct (flatten_best_effort_per_block sample_time
              (VDict listing_without_location_name)
              listing_without_location_name listing_with_location_name
              "postingLocation") as (Htotal & Hnull & Hframe).
  assert (get_targets_are_mappings (VDict listing_without_location_name) = true)
    as Hm by reflexivity.
  assert (flatten sample_time (VDict listing_without_location_name)
          = Ok row_without_location_name) as Hrun.
  { destruct (Htotal Hm) as [row Hrow]. rewrite Hrow. f_equal.
    assert (flatten sample_time (VDict listing_without_location_name)
            = Ok row_without_location_name) as E by reflexivity.
    congruence. }
  assert (location_name_of (VDict listing_without_location_name)
          = Raise KeyError) as Hloc by reflexivity.
  assert (agree_except "postingLocation"
            listing_without_location_name listing_with_location_name) as Ha
    by apply agree_except_set.
  assert (flatten sample_time (VDict listing_with_location_name)
          = Ok row_with_location_name) as Hrun' by reflexivity.
  split; [exact Hm|]. split; [exact Hrun|]. split; [exact Hloc|].
  split; [|split; [exact Ha|split; [exact Hrun'|]]].
  - destruct (Hnull _ Hrun) as (_ & _ & Hl & _). now apply (Hl KeyError).
  - apply (Hframe Ha _ _ CTitle Hrun Hrun'). discriminate.
Defined.

(** C6 on a complete listing and the same listing without its price
    entry. *)
Lemma flatten_without_price_witness :
  dict_lookup "priceOperationTypes" listing_unpriced = None
  /\ flatten sample_time (VDict listing_priced) = Ok row_priced
  /\ flatten sample_time (VDict listing_unpriced) = Ok (without_price row_priced).
Proof.
  assert (dict_lookup "priceOperationTypes" listing_unpriced = None) as Hmiss
    by reflexivity.
  assert (flatten sample_time (VDict listing_priced) = Ok row_priced) as Hrun
    by reflexivity.
  split; [exact Hmiss|]. split; [exact Hrun|].
  apply (flatten_without_price_operation_types sample_time
           listing_unpriced listing_priced row_priced Hmiss);
    [apply agree_except_set | exact Hrun].
Defined.

End FlattenerExamples.
(** ** One page of the driver *)

Section PageFacts.
Context `{Builtins}.
Variable post : api.

Lemma record_items_of_records seen items session n :
  forallb is_dict items = true ->
  exists session' n', record_items seen items session n = (session', n', None).
Proof.
  revert session n. induction items as [|item items IH]; intros session n Hd.
  - simpl. eauto.
  - simpl in Hd. apply andb_prop in Hd as [Hi Hd].
    destruct item; try discriminate. simpl.
    destruct (_ && _); apply IH; assumption.
Qed.

(** What [_save_state] leaves alone. *)
Lemma _save_state_frame sc page :
  let sc' := (_save_state sc page).1 in
  city_slug sc' = city_slug sc /\ city_code sc' = city_code sc
  /\ seen_posting_ids sc' = seen_posting_ids sc
  /\ new_listings_this_session sc' = new_listings_this_session sc
  /\ new_listings_count sc' = new_listings_count sc
  /\ requested sc' = requested sc.
Proof.
  unfold _save_state. repeat case_match; simpl; auto 10.
Qed.

(** The ways through [scrape_page]: the page gives no items to walk; an
    item stops the walk; or every item is walked and the state is saved. *)
Lemma scrape_page_cases sc page :
  let sc0 := log_request sc page in
  match page_items (post (city_code sc) page) with
  | None => scrape_page post sc page = (false, sc0)
  | Some items =>
      match record_items (seen_posting_ids sc) items
              (new_listings_this_session sc) 0 with
      | (session, _, Some _) =>
          scrape_page post sc page = (false, with_session sc0 session)
      | (session, n, None) =>
          let sc1 := with_count (with_session sc0 session)
                       (new_listings_count sc + n) in
          scrape_page post sc page
          = (match (_save_state sc1 page).2 with
             | None => true
             | Some _ => false
             end, (_save_state sc1 page).1)
      end
  end.
Proof.
  unfold page_items, page_listings, scrape_page. simpl.
  destruct (post (city_code sc) page) as [e|status json]; [reflexivity|].
  destruct json as [data|e]; simpl; [|now destruct (status =? 200)].
  destruct (status =? 200); [|reflexivity].
  destruct (get data "listPostings" (VList [])) as [l|e]; [|reflexivity].
  destruct (truthy l); simpl; [|reflexivity].
  destruct (py_iter l) as [items|e]; [|reflexivity].
  destruct (record_items _ items _ 0) as [[session n] [e|]]; [reflexivity|].
  simpl. now destruct (_save_state _ page) as [sc2 [e|]].
Qed.

(** What does not change, and the request that is logged. *)
Lemma scrape_page_frame sc page :
  let sc' := (scrape_page post sc page).2 in
  city_slug sc' = city_slug sc /\ city_code sc' = city_code sc
  /\ seen_posting_ids sc' = seen_posting_ids sc
  /\ requested sc' = requested sc ++ [page].
Proof.
  pose proof (scrape_page_cases sc page) as Hc. simpl in Hc.
  destruct (page_items _) as [items|]; [|now rewrite Hc].
  destruct (record_items _ items _ 0) as [[session n] [e|]];
    [now rewrite Hc|].
  rewrite Hc. simpl.
  pose proof (_save_state_frame
                (with_count (with_session (log_request sc page) session)
                   (new_listings_count sc + n)) page) as (? & ? & ? & _ & _ & ?).
  auto.
Qed.

(** A page that returns [True]: status 200, a listing array that is not
    empty, every item recorded, and the state saved with this page. *)
Lemma scrape_page_true sc page sc' :
  scrape_page post sc page = (true, sc') ->
  exists l items session n entries,
    page_listings (post (city_code sc) page) = Some l
    /\ truthy l = true
    /\ py_iter l = Ok items
    /\ record_items (seen_posting_ids sc) items (new_listings_this_session sc) 0
       = (session, n, None)
    /\ state sc = VDict entries
    /\ json_dump (state_file sc) (VDict (dict_set "last_page" page entries))
       = Dumped
    /\ new_listings_this_session sc' = session
    /\ state sc' = VDict (dict_set "last_page" page entries)
    /\ state_file sc' = Holds (state sc').
Proof.
  unfold scrape_page, _save_state, page_listings. simpl.
  destruct (post (city_code sc) page) as [e|status json]; [discriminate|].
  destruct (status =? 200); [|discriminate].
  destruct json as [data|e]; simpl; [|discriminate].
  destruct (get data "listPostings" (VList [])) as [l|e]; [|discriminate].
  destruct (truthy l) eqn:Ht; simpl; [|discriminate].
  destruct (py_iter l) as [items|e] eqn:Hi; [|discriminate].
  destruct (record_items _ items _ 0) as [[session n] [e|]] eqn:Hr;
    [discriminate|].
  destruct (state sc) as [| | | | | |entries] eqn:Hs; try discriminate.
  destruct (json_dump (state_file sc)
              (VDict (dict_set "last_page" page entries))) eqn:Hd;
    [|discriminate].
  intros [= <-]. simpl.
  exists l, items, session, n, entries. repeat split; auto.
Qed.

(** A page that returns [False] leaves the state and its file alone, unless
    it is the write of the state that failed: the page was then walked to
    its end, the state holds this page, and the file is what the write
    left. *)
Lemma scrape_page_false sc page sc' :
  scrape_page post sc page = (false, sc') ->
  (state_file sc' = state_file sc /\ state sc' = state sc)
  \/ exists items session n entries e,
       page_items (post (city_code sc) page) = Some items
       /\ record_items (seen_posting_ids sc) items
            (new_listings_this_session sc) 0 = (session, n, None)
       /\ state sc = VDict entries
       /\ state sc' = VDict (dict_set "last_page" page entries)
       /\ json_dump (state_file sc) (state sc') = DumpRaises e (state_file sc').
Proof.
  pose proof (scrape_page_cases sc page) as Hc. simpl in Hc.
  destruct (page_items _) as [items|];
    [|rewrite Hc; intros [= <-]; now left].
  destruct (record_items _ items _ 0) as [[session n] [e|]] eqn:Hr;
    [rewrite Hc; intros [= <-]; now left|].
  rewrite Hc. unfold _save_state. simpl.
  destruct (state sc) as [| | | | | |entries] eqn:Hs; simpl;
    try solve [intros [= <-]; left; simpl; auto].
  destruct (json_dump (state_file sc)
              (VDict (dict_set "last_page" page entries)))
    as [|e remains] eqn:Hd; simpl; [discriminate|].
  intros [= <-]. right. exists items, session, n, entries, e. simpl. auto.
Qed.

(** The ways the claim names for a page to fail. *)
Lemma scrape_page_fails sc page :
  (exists e, post (city_code sc) page = PostRaises e)
  \/ (exists status json,
        post (city_code sc) page = Response status json /\ status <> 200)
  \/ (exists status e, post (city_code sc) page = Response status (Raise e))
  \/ empty_page (post (city_code sc) page) = true ->
  (scrape_page post sc page).1 = false.
Proof.
  unfold scrape_page, empty_page, page_listings. simpl.
  intros [(e & ->) | [(status & json & -> & Hs) | [(status & e & ->) | He]]].
  - reflexivity.
  - apply Z.eqb_neq in Hs. now rewrite Hs.
  - now destruct (status =? 200).
  - destruct (post (city_code sc) page) as [e|status json]; [reflexivity|].
    destruct json as [data|e]; [|discriminate].
    destruct (status =? 200); [|discriminate]. simpl.
    destruct (get data "listPostings" (VList [])) as [l|e]; [|discriminate].
    now rewrite He.
Qed.


End PageFacts.

(** ** The pagination loop *)


Section LoopFacts.
Context `{Builtins}.
Variable post : api.


(** The loop asks for its current page first, unless the cap stops it
    before any request. *)
Lemma scrape_loop_requested fuel delay cap sc p n ex sc' :
  scrape_loop post fuel delay cap sc p n = Some (ex, sc') ->
  if cap_reached cap n then sc' = sc
  else exists more, requested sc' = requested sc ++ p :: more.
Proof.
  revert sc p n. induction fuel as [|fuel IH]; intros sc p n; [discriminate|].
  simpl. destruct (cap_reached cap n) eqn:Hcap; [now intros [= _ <-]|].
  destruct (scrape_page post sc p) as [more sc1] eqn:Hp.
  pose proof (scrape_page_frame post sc p) as (_ & _ & _ & Hreq).
  rewrite Hp in Hreq. simpl in Hreq.
  destruct more; simpl.
  - destruct (py_succ p) as [next|e]; [|intros [= _ <-]; eauto].
    destruct (sleep delay); [intros [= _ <-]; eauto|].
    intros Hl. apply IH in Hl.
    destruct (cap_reached cap (n + 1)).
    + subst sc'. eauto.
    + destruct Hl as [more ->]. rewrite Hreq, <- app_assoc. simpl. eauto.
  - intros [= _ <-]. eauto.
Qed.

(** A page that returns [False] ends the loop at once. *)
Lemma scrape_loop_stops fuel delay cap sc page n sc' :
  cap_reached cap n = false ->
  scrape_page post sc page = (false, sc') ->
  scrape_loop post (S fuel) delay cap sc page n = Some (Break, sc').
Proof. intros Hcap Hp. simpl. now rewrite Hcap, Hp. Qed.


(** With a positive cap the loop ends, within the cap. *)
Lemma scrape_loop_capped delay (m : Z) (fuel : nat) :
  0 < m ->
  forall sc p n,
    0 <= n ->
    (Z.to_nat (m - n) < fuel)%nat ->
    exists ex sc',
      scrape_loop post fuel delay (Some m) sc p n = Some (ex, sc')
      /\ (length (requested sc')
          <= length (requested sc) + Z.to_nat (m - n))%nat.
Proof.
  intros Hm. induction fuel as [|fuel IH]; intros sc p n Hn Hfuel; [lia|].
  simpl. destruct (Z.leb_spec m n) as [Hle|Hlt].
  - replace (m =? 0) with false by (symmetry; apply Z.eqb_neq; lia).
    simpl. exists Break, sc. split; [reflexivity|lia].
  - replace (m =? 0) with false by (symmetry; apply Z.eqb_neq; lia).
    simpl.
    pose proof (scrape_page_frame post sc p) as (_ & _ & _ & Hreq).
    destruct (scrape_page post sc p) as [more sc1]. simpl in Hreq.
    assert (length (requested sc1) = S (length (requested sc))) as Hlen
      by (rewrite Hreq, length_app; simpl; lia).
    destruct more; simpl.
    + destruct (py_succ p) as [next|e];
        [|exists (Raised e), sc1; split; [reflexivity|lia]].
      destruct (sleep delay) as [e|];
        [exists (Raised e), sc1; split; [reflexivity|lia]|].
      destruct (IH sc1 next (n + 1)) as (ex & sc' & Hl & Hb); [lia|lia|].
      exists ex, sc'. split; [exact Hl|lia].
    + exists Break, sc1. split; [reflexivity|lia].
Qed.

End LoopFacts.

(** ** Claims about the pagination driver *)


Section DriverClaims.
Context `{Builtins}.
Variable post : api.


(** C4 (as amended).  For one call of [scrape_page].  It returns [True]
    exactly when every step of its body succeeds: the answer has status 200
    and a JSON mapping for a body, the listing array is not empty and can be
    walked, every item has a [get], the state is a mapping and the state file
    is written; so a transport error, another status, a body that does not
    decode or is not a mapping, an empty listing array, a listing that is
    not a record and a failing write all make it return [False], and none
    of them is raised.  Whenever it returns [False] the loop ends there.
    The state and its file are left as they were unless the state was about
    to be saved, which happens only after status 200, a listing array that
    is not empty and a walk to its end: the state then holds this page as
    [last_page], and the file holds that state when the call returns [True]
    and is what the failed write left when it returns [False]. *)
Theorem failed_page_is_terminal
    (sc : scraper) (page : value) (more : bool) (sc' : scraper) :
  scrape_page post sc page = (more, sc') ->
  ((exists e, post (city_code sc) page = PostRaises e)
   \/ (exists status json,
         post (city_code sc) page = Response status json /\ status <> 200)
   \/ (exists status e, post (city_code sc) page = Response status (Raise e))
   \/ empty_page (post (city_code sc) page) = true ->
   more = false)
  /\ (more = true <->
      exists items session n entries,
        page_items (post (city_code sc) page) = Some items
        /\ record_items (seen_posting_ids sc) items
             (new_listings_this_session sc) 0 = (session, n, None)
        /\ state sc = VDict entries
        /\ json_dump (state_file sc)
             (VDict (dict_set "last_page" page entries)) = Dumped)
  /\ (more = false ->
      forall fuel delay cap n,
        cap_reached cap n = false ->
        scrape_loop post (S fuel) delay cap sc page n = Some (Break, sc'))
  /\ (state_file sc' <> state_file sc \/ state sc' <> state sc ->
      exists items session n entries,
        page_items (post (city_code sc) page) = Some items
        /\ record_items (seen_posting_ids sc) items
             (new_listings_this_session sc) 0 = (session, n, None)
        /\ state sc = VDict entries
        /\ state sc' = VDict (dict_set "last_page" page entries)
        /\ (more = true /\ state_file sc' = Holds (state sc')
            \/ more = false
               /\ exists e,
                    json_dump (state_file sc) (state sc')
                    = DumpRaises e (state_file sc'))).
Proof.
  intros Hp. split; [|split; [|split]].
  - intros Hfail. apply scrape_page_fails in Hfail. now rewrite Hp in Hfail.
  - split.
    + intros ->. apply scrape_page_true in Hp
        as (l & items & session & n & entries & Hl & Ht & Hi & Hr & Hs & Hd & _).
      exists items, session, n, entries.
      split; [|auto]. unfold page_items. now rewrite Hl, Ht, Hi.
    + intros (items & session & n & entries & Hi & Hr & Hs & Hd).
      pose proof (scrape_page_cases post sc page) as Hc. simpl in Hc.
      rewrite Hi, Hr in Hc. unfold _save_state in Hc. simpl in Hc.
      rewrite Hs, Hd in Hc. simpl in Hc. congruence.
  - intros ->. intros fuel delay cap n Hcap. now apply scrape_loop_stops.
  - intros Hchanged. destruct more.
    + apply scrape_page_true in Hp
        as (l & items & session & n & entries & Hl & Ht & Hi & Hr & Hs & Hd
            & _ & Hs' & Hf).
      exists items, session, n, entries.
      split; [unfold page_items; now rewrite Hl, Ht, Hi|]. auto 6.
    + apply scrape_page_false in Hp
        as [[Hf Hs] | (items & session & n & entries & e & Hi & Hr & Hs & Hs' & Hd)].
      * destruct Hchanged; contradiction.
      * exists items, session, n, entries. repeat split; auto. right. eauto.
Qed.

(** C10 (as amended).  The [return] in the [finally] block of [scrape]
    suppresses whatever is raised inside the loop: when the loop is left by
    an exception, [scrape] returns the accumulator; in particular, when the
    pause after a scraped page raises, [scrape] returns right after that
    page.  [scrape] always returns the scraper's accumulator, and the only
    exception it lets through is one raised while the start page is
    computed, before the [try] is entered. *)
Theorem scrape_suppresses_loop_exceptions
    (fuel : nat) (sc : scraper) (start_page : option Z) (delay : pyfloat)
    (cap : option Z) :
  (forall p e sc',
     first_page sc start_page = Ok p ->
     scrape_loop post fuel delay cap sc p 0 = Some (Raised e, sc') ->
     scrape post fuel sc start_page delay cap
     = Some (Ok (new_listings_this_session sc', sc')))
  /\ (forall p e sc1,
        first_page sc start_page = Ok p ->
        cap_reached cap 0 = false ->
        scrape_page post sc p = (true, sc1) ->
        sleep delay = Some e ->
        scrape post (S fuel) sc start_page delay cap
        = Some (Ok (new_listings_this_session sc1, sc1)))
  /\ (forall acc sc',
        scrape post fuel sc start_page delay cap = Some (Ok (acc, sc')) ->
        acc = new_listings_this_session sc')
  /\ (forall e,
        scrape post fuel sc start_page delay cap = Some (Raise e)
        <-> first_page sc start_page = Raise e).
Proof.
  unfold scrape. split; [|split; [|split]].
  - intros p e sc' -> ->. reflexivity.
  - intros p e sc1 -> Hcap Hp Hsleep. simpl.
    rewrite Hcap, Hp. simpl. rewrite Hsleep.
    now destruct (py_succ p).
  - intros acc sc'. destruct (first_page sc start_page); [|discriminate].
    destruct (scrape_loop _ _ _ _ _ _ _) as [[[|e] sc1]|];
      intros [= <- <-] || discriminate; reflexivity.
  - intros e. destruct (first_page sc start_page) as [p|e'].
    + split; [|discriminate].
      now destruct (scrape_loop _ _ _ _ _ _ _) as [[[|e1] sc1]|].
    + split; intros [= ->]; reflexivity.
Qed.

End DriverClaims.

Section DriverExamples.
#[local] Existing Instance sample_builtins.


(** C3.  The code drops the override 0.  Line 124 tests the override for
    truth ([start_page or ...]), so over a persisted [last_page] of 4 a run
    started with [--start 0] begins at page 5, where the claim (and the help
    text of [--start]) says 0; every other override, a negative one
    included, is the first page requested. *)
Lemma start_page_zero_is_dropped :
  first_page resumed_scraper (Some 0) = Ok (VInt 5)
  /\ (exists sc',
        scrape no_pages 1 resumed_scraper (Some 0) no_delay None
        = Some (Ok ([], sc'))
        /\ requested sc' = [VInt 5])
  /\ first_page resumed_scraper (Some (-3)) = Ok (VInt (-3))
  /\ (exists sc',
        scrape no_pages 1 resumed_scraper (Some (-3)) no_delay None
        = Some (Ok ([], sc'))
        /\ requested sc' = [VInt (-3)])
  /\ first_page resumed_scraper (Some 7) = Ok (VInt 7).
Proof.
  split; [reflexivity|]. split; [eexists; split; vm_compute; reflexivity|].
  split; [reflexivity|]. split; [eexists; split; vm_compute; reflexivity|].
  reflexivity.
Qed.

(** C4, the claim as stated, fails when the exception is raised by the
    write of the state: the state file holds a text that cannot be encoded,
    the first page is walked, the dump raises midway, [scrape_page] returns
    [False], and the file is cut short. *)
Lemma failed_save_counterexample :
  ~ failed_page_as_specified two_pages scraper_with_surrogate (VInt 1).
Proof.
  intros Hsame.
  assert ((scrape_page two_pages scraper_with_surrogate (VInt 1)).1 = false)
    as Hfalse by (vm_compute; reflexivity).
  specialize (Hsame Hfalse). vm_compute in Hsame. discriminate Hsame.
Qed.

(** C4 on the empty third page, on the full first page, and on the full
    first page when the write of the state fails. *)
Lemma failed_page_is_terminal_witness :
  scrape_page two_pages fresh_scraper (VInt 3)
  = (false, log_request fresh_scraper (VInt 3))
  /\ empty_page (two_pages (city_code fresh_scraper) (VInt 3)) = true
  /\ state_file (log_request fresh_scraper (VInt 3)) = Missing
  /\ scrape_loop two_pages 1 no_delay None fresh_scraper (VInt 3) 0
     = Some (Break, log_request fresh_scraper (VInt 3))
  /\ (scrape_page two_pages fresh_scraper (VInt 1)).1 = true
  /\ state_file (scrape_page two_pages fresh_scraper (VInt 1)).2
     = Holds (VDict [("last_page", VInt 1)])
  /\ (scrape_page two_pages scraper_with_surrogate (VInt 1)).1 = false
  /\ state_file (scrape_page two_pages scraper_with_surrogate (VInt 1)).2
     = Undecodable
  /\ exists e,
       json_dump (state_file scraper_with_surrogate)
         (state (scrape_page two_pages scraper_with_surrogate (VInt 1)).2)
       = DumpRaises e Undecodable.
Proof.
  assert (scrape_page two_pages fresh_scraper (VInt 3)
          = (false, log_request fresh_scraper (VInt 3))) as Hempty
    by (vm_compute; reflexivity).
  destruct (failed_page_is_terminal two_pages fresh_scraper (VInt 3) false _
              Hempty) as (Hfalse & _ & Hstop & _).
  assert (empty_page (two_pages (city_code fresh_scraper) (VInt 3)) = true)
    as He by reflexivity.
  pose proof (Hfalse (or_intror (or_intror (or_intror He)))) as _.
  pose proof (Hstop eq_refl 0%nat no_delay None 0 eq_refl) as Hloop.
  assert (scrape_page two_pages fresh_scraper (VInt 1)
          = (true, (scrape_page two_pages fresh_scraper (VInt 1)).2)) as Hfull
    by (vm_compute; reflexivity).
  destruct (failed_page_is_terminal two_pages fresh_scraper (VInt 1) true _
              Hfull) as (_ & _ & _ & Hsaved).
  destruct Hsaved as (items & session & n & entries & _ & _ & _ & Hs & Hend);
    [left; vm_compute; discriminate|].
  assert (scrape_page two_pages scraper_with_surrogate (VInt 1)
          = (false, (scrape_page two_pages scraper_with_surrogate (VInt 1)).2))
    as Hbad by (vm_compute; reflexivity).
  destruct (failed_page_is_terminal two_pages scraper_with_surrogate (VInt 1)
              false _ Hbad) as (_ & _ & _ & Hcut).
  destruct Hcut as (items' & session' & n' & entries' & _ & _ & _ & _ & Hend');
    [left; vm_compute; discriminate|].
  destruct Hend' as [[Htrue _] | [_ [e Hd]]]; [discriminate Htrue|].
  assert (state_file (scrape_page two_pages scraper_with_surrogate (VInt 1)).2
          = Undecodable) as Hleft by (vm_compute; reflexivity).
  rewrite Hleft in Hd.
  split; [exact Hempty|]. split; [exact He|]. split; [reflexivity|].
  split; [exact Hloop|]. split; [vm_compute; reflexivity|].
  split; [vm_compute; reflexivity|]. split; [vm_compute; reflexivity|].
  split; [exact Hleft|]. exists e. exact Hd.
Defined.

(** C10, the claim as stated, fails: with [null] for the persisted
    [last_page] and no override, line 124 raises before the [try]. *)
Lemma scrape_raises_counterexample :
  scrape two_pages 3 scraper_with_null_page None no_delay None
  = Some (Raise TypeError).
Proof. reflexivity. Qed.

(** C10 with a negative pause: [time.sleep] raises after the first page and
    [scrape] returns the two listings of that page. *)
Lemma scrape_suppresses_loop_exceptions_witness :
  sleep negative_delay = Some ValueError
  /\ scrape_loop two_pages 1 negative_delay None fresh_scraper (VInt 1) 0
     = Some (Raised ValueError, (scrape_page two_pages fresh_scraper (VInt 1)).2)
  /\ scrape two_pages 1 fresh_scraper None negative_delay None
     = Some (Ok (new_listings_this_session
                   (scrape_page two_pages fresh_scraper (VInt 1)).2,
                 (scrape_page two_pages fresh_scraper (VInt 1)).2))
  /\ (new_listings_this_session
        (scrape_page two_pages fresh_scraper (VInt 1)).2).*1 = ["101"; "102"].
Proof.
  destruct (scrape_suppresses_loop_exceptions two_pages 1 fresh_scraper None
              negative_delay None) as (Hloop & _ & _ & _).
  destruct (scrape_suppresses_loop_exceptions two_pages 0 fresh_scraper None
              negative_delay None) as (_ & Hsleep & _ & _).
  assert (sleep negative_delay = Some ValueError) as Hs by reflexivity.
  assert (scrape_loop two_pages 1 negative_delay None fresh_scraper (VInt 1) 0
          = Some (Raised ValueError,
                  (scrape_page two_pages fresh_scraper (VInt 1)).2)) as Hl
    by (vm_compute; reflexivity).
  assert (scrape_page two_pages fresh_scraper (VInt 1)
          = (true, (scrape_page two_pages fresh_scraper (VInt 1)).2)) as Hp
    by (vm_compute; reflexivity).
  pose proof (Hsleep (VInt 1) ValueError _ eq_refl eq_refl Hp Hs) as _.
  split; [exact Hs|]. split; [exact Hl|].
  split; [exact (Hloop (VInt 1) ValueError _ eq_refl Hl)|].
  vm_compute. reflexivity.
Defined.

End DriverExamples.

(** ** The session accumulator (site A) *)

Section SessionFacts.
Context `{Builtins}.
Variable post : api.

Lemma record_items_spec seen items :
  forallb is_dict items = true ->
  forall session n,
    let session' := (record_items seen items session n).1.1 in
    (forall i, i ∈ session'.*1 <->
               i ∈ session.*1 \/ (i ∈ record_id <$> items /\ i <> "" /\ i ∉ seen))
    /\ (session_ok seen session -> session_ok seen session').
Proof.
  induction items as [|item items IH]; intros Hd session n.
  - simpl. split; [|auto]. intros i. rewrite elem_of_nil. tauto.
  - simpl in Hd. apply andb_prop in Hd as [Hi Hd].
    destruct item as [| | | | | |entries]; try discriminate.
    cbn [record_items]. simpl get. cbv iota.
    set (pid := match dict_lookup "postingId" entries with
                | Some x => x
                | None => VNone
                end).
    assert (record_id (VDict entries) = py_str pid) as Hid by reflexivity.
    cbv zeta.
    destruct (String.eqb_spec (py_str pid) "") as [Hempty|Hempty];
      cbn [negb andb].
    { destruct (IH Hd session n) as [Hkeys Hok]. split; [|exact Hok].
      intros i. rewrite Hkeys, fmap_cons, elem_of_cons, Hid. split.
      - tauto.
      - intros [?|[[->|?] [? ?]]]; tauto. }
    destruct (decide (py_str pid ∈ seen)) as [Hseen|Hseen].
    { rewrite bool_decide_eq_true_2 by exact Hseen. cbn [negb andb].
      destruct (IH Hd session n) as [Hkeys Hok]. split; [|exact Hok].
      intros i. rewrite Hkeys, fmap_cons, elem_of_cons, Hid. split.
      - tauto.
      - intros [?|[[->|?] [? ?]]]; tauto. }
    rewrite bool_decide_eq_false_2 by exact Hseen. cbn [negb andb].
    unfold in_session.
    destruct (decide (py_str pid ∈ session.*1)) as [Hin|Hin].
    { rewrite bool_decide_eq_true_2 by exact Hin. cbn [negb andb].
      destruct (IH Hd session n) as [Hkeys Hok]. split; [|exact Hok].
      intros i. rewrite Hkeys, fmap_cons, elem_of_cons, Hid. split.
      - tauto.
      - intros [?|[[->|?] [? ?]]]; tauto. }
    rewrite bool_decide_eq_false_2 by exact Hin. cbn [negb andb].
    destruct (IH Hd (session ++ [(py_str pid, VDict entries)]) (n + 1))
      as [Hkeys Hok].
    split.
    + intros i. rewrite Hkeys, fmap_app, elem_of_app, !fmap_cons, !elem_of_cons.
      rewrite fmap_nil, elem_of_nil, Hid. cbn [fst]. split.
      * intros [[?|[->|[]]]|?]; tauto.
      * tauto.
    + intros [Hnd Hall]. apply Hok. split.
      * rewrite fmap_app. apply NoDup_app. repeat split; auto.
        -- intros x Hx Hx'. apply list_elem_of_singleton in Hx'.
           cbn [fst] in Hx'. now subst.
        -- apply NoDup_singleton.
      * apply Forall_app. split; [exact Hall|].
        apply Forall_singleton. cbn [fst snd]. auto.
Qed.

Lemma record_items_of_strings seen (xs : list string) session n :
  (record_items seen (map VStr xs) session n).1.1 = session.
Proof. now destruct xs. Qed.

(** The accumulator after a page whose listing array holds records. *)
Lemma scrape_page_session sc page :
  forallb is_dict (page_records (post (city_code sc) page)) = true ->
  new_listings_this_session (scrape_page post sc page).2
  = (record_items (seen_posting_ids sc)
       (page_records (post (city_code sc) page))
       (new_listings_this_session sc) 0).1.1.
Proof.
  unfold page_records, page_listings, scrape_page, _save_state. simpl.
  destruct (post (city_code sc) page) as [e|status json]; [reflexivity|].
  destruct json as [data|e]; simpl; [|now destruct (status =? 200)].
  destruct (status =? 200); [|reflexivity].
  destruct (get data "listPostings" (VList [])) as [l|e]; [|reflexivity].
  destruct l as [|b|z|x|s|items|entries]; simpl; try reflexivity.
  - now destruct b.
  - now destruct (negb (z =? 0)).
  - now destruct (negb (float_is_zero x)).
  - intros _. destruct (negb (s =? "")%string); [|reflexivity]. simpl.
    pose proof (record_items_of_strings (seen_posting_ids sc) (chars s)
                  (new_listings_this_session sc) 0) as Hs.
    destruct (record_items _ (map VStr (chars s)) _ 0) as [[session n] [e|]];
      simpl in *; subst; [reflexivity|].
    unfold _save_state; simpl; repeat case_match; simplify_eq; reflexivity.
  - intros Hd. destruct items as [|item items]; [reflexivity|].
    change (negb (negb (bool_decide (item :: items = [])))) with false.
    cbv iota.
    destruct (record_items_of_records (seen_posting_ids sc) (item :: items)
                (new_listings_this_session sc) 0 Hd) as (session & n & Hr).
    rewrite Hr. simpl. unfold _save_state; simpl; repeat case_match; simplify_eq; reflexivity.
  - intros _. destruct entries as [|entry entries]; [reflexivity|].
    change (negb (negb (bool_decide (entry :: entries = [])))) with false.
    cbv iota. reflexivity.
Qed.



End SessionFacts.

(** ** The rows of a new file, and site B's de-duplication *)

Section WriterFacts.
Context `{Builtins}.




Lemma dict_set_keys k v d :
  (dict_set k v d).*1 = if bool_decide (k ∈ d.*1) then d.*1 else d.*1 ++ [k].
Proof.
  induction d as [|[k' v'] d IH]; [reflexivity|].
  cbn [dict_set].
  destruct (String.eqb_spec k k') as [->|Hne]; rewrite !fmap_cons; cbn [fst].
  - rewrite bool_decide_eq_true_2 by apply list_elem_of_here. reflexivity.
  - rewrite IH. destruct (decide (k ∈ d.*1)) as [Hin|Hin].
    + rewrite !bool_decide_eq_true_2; auto. now apply list_elem_of_further.
    + rewrite !bool_decide_eq_false_2; auto.
      rewrite elem_of_cons. tauto.
Qed.

Lemma dict_set_entries k v d e :
  e ∈ dict_set k v d -> e = (k, v) \/ e ∈ d.
Proof.
  induction d as [|[k' v'] d IH]; simpl.
  - rewrite list_elem_of_singleton. auto.
  - destruct (String.eqb_spec k k') as [->|Hne]; rewrite !elem_of_cons.
    + tauto.
    + intros [?|?]; [tauto|]. destruct IH; auto.
Qed.

Lemma unique_by_id_spec listings :
  forall acc u,
    unique_by_id listings acc = Ok u ->
    ids_ok acc ->
    ids_ok u
    /\ forall i, i ∈ u.*1 <-> i ∈ acc.*1 \/ i ∈ listing_id <$> listings.
Proof.
  induction listings as [|item listings IH]; intros acc u; simpl.
  - intros [= <-] Hok. split; [exact Hok|].
    intros i. rewrite elem_of_nil. tauto.
  - intros Hu [Hnd Hall]. inv_bind Hu.
    assert (listing_id item = py_str a) as Hid
      by (unfold listing_id; now rewrite Ha).
    apply IH in Hu.
    + destruct Hu as [Hok Hkeys]. split; [exact Hok|].
      intros i. rewrite Hkeys, dict_set_keys, elem_of_cons, Hid.
      destruct (decide (py_str a ∈ acc.*1)) as [Hin|Hin].
      * rewrite bool_decide_eq_true_2 by exact Hin.
        split; [tauto|]. intros [?|[->|?]]; tauto.
      * rewrite bool_decide_eq_false_2 by exact Hin.
        rewrite elem_of_app, list_elem_of_singleton. tauto.
    + split.
      * rewrite dict_set_keys.
        destruct (decide (py_str a ∈ acc.*1)) as [Hin|Hin].
        -- now rewrite bool_decide_eq_true_2.
        -- rewrite bool_decide_eq_false_2 by exact Hin.
           apply NoDup_app. repeat split; auto.
           ++ intros x Hx Hx'. apply list_elem_of_singleton in Hx'. now subst.
           ++ apply NoDup_singleton.
      * apply Forall_forall. intros e He.
        apply dict_set_entries in He as [->|He]; [now simpl|].
        now rewrite Forall_forall in Hall; apply Hall.
Qed.

Lemma not_existing_spec existing_ids unique :
  forall kept,
    not_existing existing_ids unique = Ok kept ->
    kept = filter (fun x => listing_id x ∉ existing_ids) unique.
Proof.
  induction unique as [|listing unique IH]; intros kept; simpl.
  - now intros [= <-].
  - intros Hk. inv_bind Hk. inv_bind Hk. injection Hk as <-.
    assert (listing_id listing = py_str a) as Hid
      by (unfold listing_id; now rewrite Ha).
    rewrite filter_cons, <- (IH _ Ha0).
    destruct (decide (listing_id listing ∉ existing_ids)) as [Hout|Hin];
      rewrite Hid in *.
    + now rewrite bool_decide_eq_false_2.
    + rewrite bool_decide_eq_true_2; [reflexivity|].
      destruct (decide (py_str a ∈ existing_ids)); tauto.
Qed.

Lemma kept_ids (existing_ids : gset string) (u : list (string * value)) :
  Forall (fun e => e.1 = listing_id e.2) u ->
  listing_id <$> filter (fun x => listing_id x ∉ existing_ids) u.*2
  = filter (fun i => i ∉ existing_ids) u.*1.
Proof.
  induction 1 as [|[k item] u Hk _ IH]; [reflexivity|].
  cbn [fst snd] in Hk. subst k.
  rewrite !fmap_cons. cbn [fst snd]. rewrite !filter_cons.
  destruct (decide (listing_id item ∉ existing_ids));
    rewrite ?fmap_cons; now rewrite IH.
Qed.

(** What [process_city] appends: the fetched IDs that the file lacks, each
    once. *)
Lemma process_city_spec existing r added :
  process_city existing r = Ok added ->
  NoDup (listing_id <$> added)
  /\ forall i, i ∈ listing_id <$> added <->
               i ∈ listing_id <$> fetched r /\ i ∉ load_existing_ids existing.
Proof.
  unfold process_city, fetched. intros Hp. inv_bind Hp.
  rewrite Ha. destruct a as [[|item rest]|].
  - injection Hp as <-. split; [constructor|].
    intros i. simpl. rewrite elem_of_nil. tauto.
  - inv_bind Hp. apply not_existing_spec in Hp. subst added.
    apply unique_by_id_spec in Ha0 as [[Hnd Hall] Hkeys];
      [|split; [constructor|constructor]].
    rewrite kept_ids by exact Hall. split.
    + now apply NoDup_filter.
    + intros i. rewrite list_elem_of_filter, Hkeys. simpl.
      rewrite elem_of_nil. tauto.
  - injection Hp as <-. split; [constructor|].
    intros i. simpl. rewrite elem_of_nil. tauto.
Qed.

End WriterFacts.

(** ** The seen IDs of a later run *)

Lemma fold_seen_ids (csv_files : list csv_read) (acc : gset string) (i : string) :
  i ∈ fold_left
        (fun seen_ids f =>
           match f with
           | Unreadable => seen_ids
           | Column cells => seen_ids ∪ list_to_set (omap id cells)
           end)
        csv_files acc
  <-> i ∈ acc \/ exists cells, Column cells ∈ csv_files /\ Some i ∈ cells.
Proof.
  revert acc. induction csv_files as [|f csv_files IH]; intros acc; simpl.
  - split; [auto|]. intros [?|(cells & Hin & _)]; [auto|].
    now apply elem_of_nil in Hin.
  - rewrite IH. split.
    + intros [Hacc|(cells & Hin & Hi)].
      * destruct f as [|cells]; [auto|].
        apply elem_of_union in Hacc as [?|Hc]; [auto|].
        right. exists cells. split; [apply list_elem_of_here|].
        apply elem_of_list_to_set, list_elem_of_omap in Hc as (x & Hx & Hid).
        simpl in Hid. now subst x.
      * right. exists cells. split; [now apply list_elem_of_further|exact Hi].
    + intros [Hacc|(cells & Hin & Hi)].
      * left. destruct f; [exact Hacc|]. apply elem_of_union. now left.
      * apply elem_of_cons in Hin as [<-|Hin].
        -- left. apply elem_of_union. right.
           apply elem_of_list_to_set, list_elem_of_omap. now exists (Some i).
        -- right. eauto.
Qed.


Section LaterRun.
Context `{Builtins}.


End LaterRun.

(** ** Site B's file: what is written and what is read back *)

Lemma row_lookup_set k k' c row :
  row_lookup k (row_set k' c row)
  = if String.eqb k k' then Some c else row_lookup k row.
Proof.
  induction row as [|[k0 c0] row IH]; simpl.
  - reflexivity.
  - destruct (String.eqb_spec k' k0) as [->|Hne]; simpl.
    + now destruct (String.eqb k k0).
    + destruct (String.eqb_spec k k0) as [->|Hne'].
      * destruct (String.eqb_spec k0 k') as [->|_]; [congruence|reflexivity].
      * exact IH.
Qed.

Lemma row_lookup_cells k fieldnames :
  k ∉ fieldnames ->
  forall cells row,
    row_lookup k
      (fold_left (fun d kc => row_set kc.1 (Some kc.2) d) (zip fieldnames cells) row)
    = row_lookup k row.
Proof.
  induction fieldnames as [|k' fieldnames IH]; intros Hk cells row.
  - reflexivity.
  - apply not_elem_of_cons in Hk as [Hne Hk].
    destruct cells as [|c cells]; [reflexivity|]. simpl.
    rewrite (IH Hk), row_lookup_set.
    now destruct (String.eqb_spec k k').
Qed.

Lemma row_lookup_rest k fieldnames :
  k ∉ fieldnames ->
  forall row,
    row_lookup k (fold_left (fun d k' => row_set k' None d) fieldnames row)
    = row_lookup k row.
Proof.
  induction fieldnames as [|k' fieldnames IH]; intros Hk row.
  - reflexivity.
  - apply not_elem_of_cons in Hk as [Hne Hk]. simpl.
    rewrite (IH Hk), row_lookup_set.
    now destruct (String.eqb_spec k k').
Qed.

(** The first cell of a line that is not blank is read back under the
    first column name, when no later column has that name. *)
Lemma dict_reader_first_column k fieldnames c cells :
  k ∉ fieldnames ->
  row_lookup k (dict_reader_row (k :: fieldnames) (c :: cells)) = Some (Some c).
Proof.
  intros Hk. unfold dict_reader_row.
  rewrite row_lookup_rest.
  - cbn [zip zip_with fold_left]. rewrite (row_lookup_cells _ _ Hk). simpl.
    now rewrite String.eqb_refl.
  - cbn [length drop]. intros Hin. apply Hk.
    revert Hin. apply subseteq_drop.
Qed.

Lemma omap_cons {A B : Type} (f : A -> option B) x l :
  omap f (x :: l) = match f x with Some y => y :: omap f l | None => omap f l end.
Proof. reflexivity. Qed.

Lemma id_is_first_column :
  exists others, fields_to_request = "id" :: others /\ "id" ∉ others.
Proof.
  eexists. split; [reflexivity|].
  apply (bool_decide_unpack _). vm_compute. exact I.
Qed.

(** The header can be written and read. *)
Lemma header_round_trips :
  forallb encodable fields_to_request = true
  /\ forallb within_field_limit fields_to_request = true.
Proof. split; vm_compute; reflexivity. Qed.

Lemma getitem_Ok_inv v k x :
  getitem v k = Ok x -> exists d, v = VDict d /\ dict_lookup k d = Some x.
Proof.
  destruct v; simpl; try discriminate.
  destruct (dict_lookup k entries) eqn:Hl; [|discriminate].
  intros [= <-]. eauto.
Qed.

(** A text file is read when every cell is within the field limit. *)
Lemma read_csv_lines lines :
  read_csv (Lines lines) <> Broken
  <-> forallb (forallb within_field_limit) lines = true.
Proof.
  unfold read_csv. destruct (forallb _ lines); split; congruence.
Qed.

Lemma existing_ids_of_lines fieldnames lines :
  forallb (forallb within_field_limit) (fieldnames :: lines) = true ->
  load_existing_ids (read_csv (Lines (fieldnames :: lines)))
  = list_to_set (omap (id_cell fieldnames) (filter (fun cells => cells <> []) lines)).
Proof.
  intros Hfit. unfold read_csv. rewrite Hfit.
  unfold load_existing_ids, dict_reader. f_equal.
  induction (filter _ lines) as [|cells l IH]; [reflexivity|].
  rewrite fmap_cons, !omap_cons, IH. reflexivity.
Qed.

Lemma existing_ids_app fieldnames lines lines' :
  forallb (forallb within_field_limit) (fieldnames :: lines ++ lines') = true ->
  load_existing_ids (read_csv (Lines (fieldnames :: lines ++ lines')))
  = load_existing_ids (read_csv (Lines (fieldnames :: lines)))
    ∪ list_to_set (omap (id_cell fieldnames) (filter (fun cells => cells <> []) lines')).
Proof.
  intros Hfit.
  assert (forallb (forallb within_field_limit) (fieldnames :: lines) = true)
    as Hfit'.
  { cbn [forallb] in *. rewrite forallb_app in Hfit.
    apply andb_prop in Hfit as [-> Hfit].
    now apply andb_prop in Hfit as [-> _]. }
  rewrite !existing_ids_of_lines by assumption.
  now rewrite filter_app, omap_app, list_to_set_app_L.
Qed.

Section CsvFacts.
Context `{Builtins}.

Lemma dict_to_list_total headers d :
  exists cells, dict_to_list headers (VDict d) = Ok cells.
Proof.
  unfold dict_to_list. induction headers as [|k headers [cells IH]]; simpl.
  - eauto.
  - simpl in IH. rewrite IH. simpl. eauto.
Qed.

(** The cell written in the [id] column of a listing. *)
Lemma dict_to_list_id listing i :
  getitem listing "id" = Ok i ->
  exists cells, dict_to_list fields_to_request listing = Ok (csv_cell i :: cells).
Proof.
  intros Hi. apply getitem_Ok_inv in Hi as (d & -> & Hd).
  destruct id_is_first_column as (others & -> & _).
  destruct (dict_to_list_total others d) as [cells Hc].
  exists cells. unfold dict_to_list in *. simpl. rewrite Hd. simpl.
  simpl in Hc. now rewrite Hc.
Qed.

(** A value other than [None] is written as [str] of it. *)
Lemma csv_cell_str v : v <> VNone -> csv_cell v = py_str v.
Proof. destruct v; simpl; congruence. Qed.

(** Whether [writerows] raises does not depend on the lines already in the
    file. *)
Lemma writerows_raises headers data :
  forall lines lines',
    (writerows headers data lines).2 = (writerows headers data lines').2.
Proof.
  induction data as [|row data IH]; intros lines lines'; [reflexivity|].
  cbn [writerows]. destruct (dict_to_list headers row) as [cells|e];
    [|reflexivity].
  unfold write_line. destruct (forallb encodable cells); [apply IH|reflexivity].
Qed.

(** The lines [writerows] appends when it does not raise: one per listing,
    whose cells are those of the listing. *)
Lemma writerows_Ok headers data :
  forall lines lines',
    writerows headers data lines = (lines', None) ->
    exists rows,
      lines' = lines ++ rows
      /\ Forall2 (fun row cells => dict_to_list headers row = Ok cells
                                   /\ forallb encodable cells = true) data rows.
Proof.
  induction data as [|row data IH]; intros lines lines'.
  - intros [= <-]. exists []. split; [now rewrite app_nil_r|constructor].
  - cbn [writerows]. destruct (dict_to_list headers row) as [cells|e] eqn:Hc;
      [|discriminate].
    unfold write_line. destruct (forallb encodable cells) eqn:He;
      [|discriminate].
    intros Hw. apply IH in Hw as (rows & -> & Hrows).
    exists (cells :: rows). split; [now rewrite <- app_assoc|].
    constructor; auto.
Qed.

(** [writerows] does not raise on listings whose lines can be encoded. *)
Lemma writerows_total data :
  forallb row_encodable data = true ->
  forall lines, exists lines', writerows fields_to_request data lines = (lines', None).
Proof.
  induction data as [|row data IH]; intros Hd lines; [simpl; eauto|].
  cbn [forallb] in Hd. apply andb_prop in Hd as [Hrow Hd].
  unfold row_encodable in Hrow. cbn [writerows].
  destruct (dict_to_list fields_to_request row) as [cells|e]; [|discriminate].
  unfold write_line. rewrite Hrow. apply IH. exact Hd.
Qed.

(** The IDs read back from the lines of listings that have an [id]. *)
Lemma id_cells_of_rows (listings : list value) (rows : list (list string)) :
  Forall (fun l => exists i, getitem l "id" = Ok i) listings ->
  Forall2 (fun row cells => dict_to_list fields_to_request row = Ok cells
                            /\ forallb encodable cells = true) listings rows ->
  omap (id_cell fields_to_request) (filter (fun cells => cells <> []) rows)
  = written_id <$> listings.
Proof.
  intros Hids Hrows. revert Hids.
  induction Hrows as [|l cells listings rows [Hc _] _ IH]; intros Hids.
  - reflexivity.
  - apply Forall_cons in Hids as [[i Hi] Hids]. specialize (IH Hids).
    destruct (dict_to_list_id _ _ Hi) as [more Hc'].
    rewrite Hc in Hc'. injection Hc' as ->.
    rewrite filter_cons.
    destruct (decide (csv_cell i :: more <> [])) as [_|Hno];
      [|now destruct Hno].
    assert (id_cell fields_to_request (csv_cell i :: more)
            = Some (written_id l)) as Hcell.
    { unfold id_cell. destruct id_is_first_column as (others & -> & Hid).
      rewrite (dict_reader_first_column _ _ _ _ Hid).
      unfold written_id. now rewrite Hi. }
    now rewrite omap_cons, Hcell, IH, fmap_cons.
Qed.

Lemma unique_by_id_values listings :
  forall acc u,
    unique_by_id listings acc = Ok u ->
    forall e, e ∈ u -> e ∈ acc \/ e.2 ∈ listings.
Proof.
  induction listings as [|item listings IH]; intros acc u; simpl.
  - intros [= <-] e He. now left.
  - intros Hu e He. inv_bind Hu.
    destruct (IH _ _ Hu e He) as [Hin|Hin].
    + apply dict_set_entries in Hin as [->|Hin]; [right|now left].
      apply list_elem_of_here.
    + right. now apply list_elem_of_further.
Qed.

(** What [process_city] appends was fetched. *)
Lemma added_were_fetched existing r added item :
  process_city existing r = Ok added -> item ∈ added -> item ∈ fetched r.
Proof.
  unfold process_city, fetched. intros Hp Hin. inv_bind Hp. rewrite Ha.
  destruct a as [[|first rest]|];
    [ injection Hp as <-; now apply elem_of_nil in Hin
    | | injection Hp as <-; now apply elem_of_nil in Hin ].
  inv_bind Hp. apply not_existing_spec in Hp. subst added.
  apply list_elem_of_filter in Hin as [_ Hin].
  apply list_elem_of_fmap in Hin as (e & -> & Hin).
  destruct (unique_by_id_values _ _ _ Ha0 e Hin) as [Hnil|Hl]; [|exact Hl].
  now apply elem_of_nil in Hnil.
Qed.

Lemma not_existing_has_id existing_ids unique kept :
  not_existing existing_ids unique = Ok kept ->
  Forall (fun l => exists i, getitem l "id" = Ok i) unique.
Proof.
  revert kept. induction unique as [|listing unique IH]; intros kept; simpl.
  - constructor.
  - intros Hk. inv_bind Hk. inv_bind Hk. constructor; eauto.
Qed.

Lemma not_existing_all_known (existing_ids : gset string) unique :
  Forall (fun l => exists i, getitem l "id" = Ok i) unique ->
  (forall l, l ∈ unique -> listing_id l ∈ existing_ids) ->
  not_existing existing_ids unique = Ok [].
Proof.
  induction 1 as [|listing unique [i Hi] _ IH]; intros Hall; simpl.
  - reflexivity.
  - rewrite Hi. simpl. rewrite IH.
    + simpl. rewrite bool_decide_eq_true_2; [reflexivity|].
      specialize (Hall listing (list_elem_of_here _ _)).
      unfold listing_id in Hall. now rewrite Hi in Hall.
    + intros l Hl. apply Hall. now apply list_elem_of_further.
Qed.

Lemma added_have_id existing r added :
  process_city existing r = Ok added ->
  Forall (fun l => exists i, getitem l "id" = Ok i) added.
Proof.
  unfold process_city. intros Hp. inv_bind Hp.
  destruct a as [[|first rest]|];
    [ injection Hp as <-; constructor
    | | injection Hp as <-; constructor ].
  inv_bind Hp. pose proof (not_existing_has_id _ _ _ Hp) as Hall.
  apply not_existing_spec in Hp. subst added.
  apply Forall_forall. intros l Hin.
  apply list_elem_of_filter in Hin as [_ Hin].
  rewrite Forall_forall in Hall. now apply Hall.
Qed.

(** Whether lines 125-135 raise does not depend on the file. *)
Lemma process_city_any_file existing existing' r added :
  process_city existing r = Ok added ->
  exists added', process_city existing' r = Ok added'.
Proof.
  unfold process_city. intros Hp. inv_bind Hp. rewrite Ha.
  destruct a as [[|first rest]|]; [now exists [] | | now exists []].
  inv_bind Hp.
  change (exists added',
            unique_by_id (first :: rest) []
              ≫= (fun u => not_existing (load_existing_ids existing') u.*2)
            = Ok added').
  rewrite Ha0.
  change (exists added', not_existing (load_existing_ids existing') a.*2 = Ok added').
  apply not_existing_has_id in Hp. clear Ha0.
  induction Hp as [|l u [i Hi] _ [kept IH]]; simpl; [eauto|].
  rewrite Hi. simpl. simpl in IH. rewrite IH. simpl. eauto.
Qed.

(** Once the IDs of what a run appended are among the IDs of the file, a
    run with the same answer has nothing to append. *)
Lemma process_city_again existing existing' r added :
  process_city existing r = Ok added ->
  load_existing_ids existing'
  = load_existing_ids existing ∪ list_to_set (listing_id <$> added) ->
  process_city existing' r = Ok [].
Proof.
  unfold process_city. intros Hp Hids. inv_bind Hp. rewrite Ha.
  destruct a as [[|first rest]|]; [reflexivity | | reflexivity].
  inv_bind Hp.
  change (unique_by_id (first :: rest) []
            ≫= (fun u => not_existing (load_existing_ids existing') u.*2)
          = Ok []).
  rewrite Ha0.
  change (not_existing (load_existing_ids existing') a.*2 = Ok []).
  pose proof (not_existing_has_id _ _ _ Hp) as Hall.
  apply not_existing_spec in Hp.
  apply not_existing_all_known; [exact Hall|].
  intros l Hl. rewrite Hids. apply elem_of_union.
  destruct (decide (listing_id l ∈ load_existing_ids existing)) as [Hin|Hout];
    [now left|right].
  apply elem_of_list_to_set, list_elem_of_fmap_2. subst added.
  apply list_elem_of_filter. split; [exact Hout|exact Hl].
Qed.

(** A run on a plain disk, in terms of [save_to_csv]. *)
Lemma run_city_saves f r added :
  process_city (read_csv f) r = Ok added ->
  run_city f r
  = match save_to_csv added fields_to_request (plain_disk f) with
    | (f', None) => Ok f'
    | (_, Some e) => Raise e
    end.
Proof.
  unfold run_city, run_on_disk. cbn [makedirs_raises output_file plain_disk].
  intros ->. cbn [mbind result_bind].
  now destruct (save_to_csv added fields_to_request (plain_disk f)) as [f' [e|]].
Qed.

Lemma run_city_Ok_inv f r f1 :
  run_city f r = Ok f1 -> exists added, process_city (read_csv f) r = Ok added.
Proof.
  unfold run_city, run_on_disk. cbn [makedirs_raises output_file plain_disk].
  destruct (process_city (read_csv f) r) as [added|e]; [eauto|discriminate].
Qed.

(** A run that does not raise, on a file with the right header: the lines
    of the file stay, one line per listing is added after them, and the
    cells of the [id] column of the new lines are those of the listings. *)
Lemma run_city_appends f r added f1 :
  header_ok f = true ->
  process_city (read_csv f) r = Ok added ->
  run_city f r = Ok f1 ->
  exists old rows,
    (f = NoFile /\ old = [] \/ f = Lines (fields_to_request :: old))
    /\ f1 = match added with
            | [] => f
            | _ :: _ => Lines (fields_to_request :: old ++ rows)
            end
    /\ Forall2 (fun row cells =>
                  dict_to_list fields_to_request row = Ok cells
                  /\ forallb encodable cells = true) added rows
    /\ omap (id_cell fields_to_request) (filter (fun cells => cells <> []) rows)
       = written_id <$> added.
Proof.
  intros Hh Hp Hrun. rewrite (run_city_saves _ _ _ Hp) in Hrun.
  pose proof (added_have_id _ _ _ Hp) as Hadded.
  destruct header_round_trips as [Henc _].
  assert (exists old,
            (f = NoFile /\ old = [] \/ f = Lines (fields_to_request :: old)))
    as [old Hf].
  { destruct f as [| |[|fieldnames old]]; try discriminate.
    - exists []. now left.
    - apply bool_decide_eq_true_1 in Hh. subst fieldnames.
      exists old. now right. }
  destruct added as [|listing added].
  { exists old, []. split; [exact Hf|].
    cbn in Hrun. injection Hrun as <-. repeat split; constructor. }
  unfold save_to_csv in Hrun.
  rewrite bool_decide_eq_false_2 in Hrun by discriminate.
  rewrite bool_decide_eq_false_2 in Hrun by discriminate.
  cbn [orb makedirs_raises append_raises output_file plain_disk] in Hrun.
  assert (exists lines',
            writerows fields_to_request (listing :: added)
              (fields_to_request :: old) = (lines', None)
            /\ f1 = Lines lines') as (lines' & Hw & ->).
  { destruct Hf as [[-> ->]| ->].
    - unfold write_line in Hrun. rewrite Henc in Hrun. cbn [app] in Hrun.
      destruct (writerows fields_to_request (listing :: added)
                  [fields_to_request]) as [lines' [e|]];
        [discriminate|]. injection Hrun as <-. eauto.
    - destruct (writerows fields_to_request (listing :: added)
                  (fields_to_request :: old)) as [lines' [e|]];
        [discriminate|]. injection Hrun as <-. eauto. }
  apply writerows_Ok in Hw as (rows & -> & Hrows).
  exists old, rows. split; [exact Hf|]. split; [reflexivity|].
  split; [exact Hrows|]. now apply id_cells_of_rows.
Qed.

(** A run does not raise when lines 125-135 do not and every line to write
    can be encoded. *)
Lemma run_city_total f r added :
  header_ok f = true ->
  process_city (read_csv f) r = Ok added ->
  forallb row_encodable added = true ->
  exists f1, run_city f r = Ok f1.
Proof.
  intros Hh Hp Henc. rewrite (run_city_saves _ _ _ Hp).
  destruct header_round_trips as [Hhead _].
  destruct added as [|listing added]; [cbn; eauto|].
  unfold save_to_csv.
  rewrite bool_decide_eq_false_2 by discriminate.
  rewrite bool_decide_eq_false_2 by discriminate.
  cbn [orb makedirs_raises append_raises output_file plain_disk].
  destruct f as [| |lines]; [|discriminate|].
  - unfold write_line. rewrite Hhead. cbn [app].
    destruct (writerows_total _ Henc [fields_to_request]) as [lines' ->]. eauto.
  - destruct (writerows_total _ Henc lines) as [lines' ->]. eauto.
Qed.

(** The IDs of the file a run leaves, when that file can be read: those of
    the file it found and the cells written for the listings appended. *)
Lemma ids_after_run f r added f1 :
  header_ok f = true ->
  process_city (read_csv f) r = Ok added ->
  run_city f r = Ok f1 ->
  read_csv f1 <> Broken ->
  read_csv f <> Broken
  /\ header_ok f1 = true
  /\ load_existing_ids (read_csv f1)
     = load_existing_ids (read_csv f) ∪ list_to_set (written_id <$> added).
Proof.
  intros Hh Hp Hrun Hread.
  destruct (run_city_appends _ _ _ _ Hh Hp Hrun)
    as (old & rows & Hf & -> & _ & Hrows).
  destruct added as [|listing added].
  { split; [exact Hread|]. split; [exact Hh|].
    rewrite fmap_nil, list_to_set_nil. now rewrite (right_id_L ∅ (∪)). }
  apply read_csv_lines in Hread.
  assert (forallb (forallb within_field_limit) (fields_to_request :: old) = true)
    as Hold.
  { cbn [forallb] in *. rewrite forallb_app in Hread.
    apply andb_prop in Hread as [-> Hread].
    now apply andb_prop in Hread as [-> _]. }
  assert (load_existing_ids (read_csv f)
          = load_existing_ids (read_csv (Lines (fields_to_request :: old))))
    as Hsame.
  { destruct Hf as [[-> ->]| ->]; [|reflexivity].
    rewrite existing_ids_of_lines by exact Hold. reflexivity. }
  split; [|split].
  - destruct Hf as [[-> _]| ->]; [discriminate|]. now apply read_csv_lines.
  - now apply bool_decide_eq_true_2.
  - now rewrite existing_ids_app, Hrows, Hsame.
Qed.

End CsvFacts.

(** ** Claims about de-duplication *)

Lemma unique_value_of_key {A B : Type} (l : list (A * B)) k v1 v2 :
  NoDup l.*1 -> (k, v1) ∈ l -> (k, v2) ∈ l -> v1 = v2.
Proof.
  induction l as [|[k' v'] l IH]; simpl; intros Hnd H1 H2.
  - now apply elem_of_nil in H1.
  - apply NoDup_cons in Hnd as [Hk Hnd].
    apply elem_of_cons in H1 as [E1|H1]; apply elem_of_cons in H2 as [E2|H2].
    + congruence.
    + exfalso. apply Hk. injection E1 as <- _.
      now apply (list_elem_of_fmap_2 fst l (k, v2)).
    + exfalso. apply Hk. injection E2 as <- _.
      now apply (list_elem_of_fmap_2 fst l (k, v1)).
    + now apply IH.
Qed.

Section DedupClaims.
Context `{Builtins}.

(** The scraper [__init__] returns. *)
Lemma init_scraper_Ok code slug seen f cookies_file sc :
  init_scraper code slug seen f cookies_file = Ok sc ->
  exists st,
    _load_state f = Ok st
    /\ sc = {| city_slug := slug; city_code := code; seen_posting_ids := seen;
               state_file := f; state := st;
               new_listings_this_session := []; new_listings_count := 0;
               requested := [] |}.
Proof.
  unfold init_scraper. intros Hi. inv_bind Hi.
  destruct (_load_cookies cookies_file); [discriminate|].
  injection Hi as <-. eauto.
Qed.



(** C9 (as amended).  A record without [postingId] (or with [null] for it)
    on a page of records has the ID ["None"]; unless that ID is already
    seen, the accumulator holds the key ["None"] after the page; its keys
    are distinct and each is the ID of its record, so at most one ID-less
    record is kept; and the flat row of the record has a null [postingId],
    not the string ["None"]. *)
Theorem id_less_record_kept_once
    (post : api) (sc : scraper) (page : value) (items : list value)
    (item : value) (ts : string) :
  page_listings (post (city_code sc) page) = Some (VList items) ->
  forallb is_dict items = true ->
  item ∈ items ->
  get item "postingId" VNone = Ok VNone ->
  "None" ∉ seen_posting_ids sc ->
  session_ok (seen_posting_ids sc) (new_listings_this_session sc) ->
  let session' := new_listings_this_session (scrape_page post sc page).2 in
  record_id item = "None"
  /\ "None" ∈ session'.*1
  /\ NoDup session'.*1
  /\ (forall k1 r1 k2 r2,
        (k1, r1) ∈ session' -> (k2, r2) ∈ session' ->
        record_id r1 = "None" -> record_id r2 = "None" -> r1 = r2)
  /\ (forall row, flatten ts item = Ok row -> postingId row = VNone).
Proof.
  intros Hpage Hd Hitem Hget Hseen Hok session'.
  assert (page_records (post (city_code sc) page) = items) as Hrec
    by (unfold page_records; now rewrite Hpage).
  assert (record_id item = "None") as Hid
    by (unfold record_id; now rewrite Hget).
  assert (session' = (record_items (seen_posting_ids sc) items
                        (new_listings_this_session sc) 0).1.1) as Hs.
  { unfold session'. rewrite scrape_page_session by (now rewrite Hrec).
    now rewrite Hrec. }
  destruct (record_items_spec (seen_posting_ids sc) items Hd
              (new_listings_this_session sc) 0) as [Hkeys Hok'].
  simpl in Hkeys, Hok'. rewrite <- Hs in Hkeys, Hok'.
  destruct (Hok' Hok) as [Hnd Hall].
  split; [exact Hid|]. split; [|split; [exact Hnd|split]].
  - apply Hkeys. right. split; [|split; [discriminate|exact Hseen]].
    rewrite <- Hid. now apply list_elem_of_fmap_2.
  - intros k1 r1 k2 r2 H1 H2 E1 E2.
    rewrite Forall_forall in Hall.
    destruct (Hall _ H1) as [K1 _]. destruct (Hall _ H2) as [K2 _].
    simpl in K1, K2.
    apply (unique_value_of_key session' "None" r1 r2 Hnd); congruence.
  - intros row Hf. apply flatten_Ok_inv in Hf
      as (pc & ex & fe & lo & url & pid & ti & de & pub & pname
          & _ & _ & _ & _ & _ & Hpid & _ & _ & _ & _ & ->).
    simpl. congruence.
Qed.

End DedupClaims.

Section DedupExamples.
#[local] Existing Instance sample_builtins.

Lemma two_pages_hold_records code q :
  forallb is_dict (page_records (two_pages code q)) = true.
Proof.
  destruct q as [| |n| | | |]; try reflexivity.
  destruct n as [|p|p]; try reflexivity.
  destruct p as [p|p|]; try reflexivity.
  destruct p; reflexivity.
Qed.



(** The record without an ID is written by a first run and written again
    by the run after it: it is kept under the key ["None"], the cell
    written for it is blank, and a blank cell is not read back as an ID. *)
Lemma id_less_record_written_again :
  exists sc written sc' written',
    scrape_city_task id_less_api 2 "itanhaem-sp" "109237" first_run sample_args
    = Some (Ok (sc, written))
    /\ row_keys written = ["None"]
    /\ files_after (output_dir first_run) written = Some [Column [None]]
    /\ scrape_city_task id_less_api 2 "itanhaem-sp" "109237"
         (run_after (files_after (output_dir first_run) written)) sample_args
       = Some (Ok (sc', written'))
    /\ row_keys written' = ["None"].
Proof.
  do 4 eexists. split; [vm_compute; reflexivity|].
  split; [reflexivity|]. split; [reflexivity|].
  split; [vm_compute; reflexivity|]. reflexivity.
Qed.


(** C9, the claim as stated, fails in its last part: the record without
    [postingId] is kept under the key ["None"], and the row written for it
    has a null [postingId]. *)
Lemma none_id_counterexample :
  exists sc written,
    scrape_city_task id_less_api 2 "itanhaem-sp" "109237" first_run sample_args
    = Some (Ok (sc, written))
    /\ (new_listings_this_session sc).*1 = ["None"]
    /\ ~ none_id_in_file written.
Proof.
  do 2 eexists. split; [vm_compute; reflexivity|].
  split; [reflexivity|].
  intros (rows & row & Hw & Hin & Hid). injection Hw as <-.
  apply list_elem_of_singleton in Hin. subst row. discriminate Hid.
Qed.

(** C9 on the page whose only record has no [postingId]. *)
Lemma id_less_record_kept_once_witness :
  record_id (VDict [("title", VStr "Casa")]) = "None"
  /\ "None" ∈ (new_listings_this_session
                 (scrape_page id_less_api fresh_scraper (VInt 1)).2).*1
  /\ exists row,
       flatten sample_time (VDict [("title", VStr "Casa")]) = Ok row
       /\ postingId row = VNone.
Proof.
  destruct (id_less_record_kept_once id_less_api fresh_scraper (VInt 1)
              [VDict [("title", VStr "Casa")]] (VDict [("title", VStr "Casa")])
              sample_time)
    as (Hid & Hkey & _ & _ & Hrow).
  - reflexivity.
  - reflexivity.
  - apply list_elem_of_here.
  - reflexivity.
  - simpl. apply not_elem_of_empty.
  - split; constructor.
  - split; [exact Hid|]. split; [exact Hkey|].
    destruct (flatten sample_time (VDict [("title", VStr "Casa")]))
      as [row|e] eqn:Hf; [|vm_compute in Hf; discriminate Hf].
    exists row. split; [reflexivity|]. now apply Hrow.
Defined.

End DedupExamples.

(** ** Exit status *)

Section ExitFacts.
Context `{Builtins}.












End ExitFacts.

Section ExitExamples.
#[local] Existing Instance sample_builtins.


(** A listing of the expected shape whose text cannot be encoded makes the
    write raise, and site B exits with status 1. *)
Lemma unencodable_text_exits_1 :
  answer_in_shape answer_with_surrogate = true
  /\ process_city (read_csv NoFile) answer_with_surrogate
     = Ok [VDict [("id", VInt 9); ("address", VStr lone_surrogate)]]
  /\ run_on_disk (plain_disk NoFile) answer_with_surrogate
     = Raise (OtherError "UnicodeEncodeError")
  /\ (quintoandar_main sample_argv
        (fun _ _ => (plain_disk NoFile, answer_with_surrogate))).1 = 1.
Proof. repeat split; vm_compute; reflexivity. Qed.


End ExitExamples.

(** * Further properties of the code *)

(** ** What the flattener lets through *)

Section FlattenerEscapes.
Context `{Builtins}.

Lemma try_pass_raises {S : Type} caught (body : S * option exn) e :
  try_pass caught body = Raise e ->
  exists s, body = (s, Some e) /\ caught e = false.
Proof.
  destruct body as [s [e'|]]; simpl; [|discriminate].
  destruct (caught e') eqn:Hc; [discriminate|].
  intros [= <-]. eauto.
Qed.

Lemma atomic_raises {S : Type} (init : S) (r : result S) s e :
  atomic init r = (s, Some e) -> r = Raise e.
Proof. destruct r; simpl; [discriminate|now intros [= _ <-]]. Qed.

Lemma location_body_raises l st e :
  location_body l = (st, Some e) ->
  e = AttributeError \/ catches [KeyError; TypeError; IndexError] e = true.
Proof.
  unfold location_body.
  destruct (location_name_of l) as [name|e0] eqn:Hn.
  - destruct (geo_of l) as [geo|e1] eqn:Hg; simpl.
    + destruct (get geo "latitude" VNone) as [lat|e2] eqn:Hlat; simpl.
      * destruct (get geo "longitude" VNone) as [lon|e3] eqn:Hlon; simpl;
          [discriminate|].
        intros [= _ <-]. left. now apply get_raises in Hlon.
      * intros [= _ <-]. left. now apply get_raises in Hlat.
    + intros [= _ <-]. right. apply catches_more.
      apply (named_path_raises l); auto.
  - intros [= _ <-]. right. apply catches_more.
    apply (named_path_raises l); auto.
Qed.

(** What the flattener raises, block by block: each of the five blocks
    catches what its body raises unless it is an [AttributeError] (the
    feature block catches that too), and the [get] calls of line 197 raise
    nothing else. *)
Lemma flatten_escapes (ts : string) (l : value) (e : exn) :
  flatten ts l = Raise e -> e = AttributeError.
Proof.
  unfold flatten. intros Hr.
  apply bind_Raise_inv in Hr as [Hr | (pc & _ & Hr)].
  { apply try_pass_raises in Hr as (s & Hb & Hc).
    apply atomic_raises in Hb. unfold price_body in Hb.
    apply bind_Raise_inv in Hb as [Hb | (pi & _ & Hb)].
    - apply price_info_raises in Hb. congruence.
    - apply bind_Raise_inv in Hb as [Hb | (amount & _ & Hb)].
      + now apply get_raises in Hb.
      + apply bind_Raise_inv in Hb as [Hb | (cur & _ & Hb)];
          [now apply get_raises in Hb | discriminate]. }
  apply bind_Raise_inv in Hr as [Hr | (ex & _ & Hr)].
  { apply try_pass_raises in Hr as (s & Hb & Hc).
    apply atomic_raises in Hb.
    rewrite (named_path_raises l e) in Hc by auto. discriminate. }
  apply bind_Raise_inv in Hr as [Hr | (fe & _ & Hr)].
  { apply try_pass_raises in Hr as (s & Hb & Hc).
    now apply features_raises in Hb. }
  apply bind_Raise_inv in Hr as [Hr | (lo & _ & Hr)].
  { apply try_pass_raises in Hr as (s & Hb & Hc).
    apply location_body_raises in Hb as [Hb|Hb]; [exact Hb|congruence]. }
  apply bind_Raise_inv in Hr as [Hr | (url & _ & Hr)].
  { apply try_pass_raises in Hr as (s & Hb & Hc).
    apply atomic_raises in Hb. unfold url_body in Hb.
    apply bind_Raise_inv in Hb as [Hb | (u & _ & Hb)].
    - now apply get_raises in Hb.
    - destruct (truthy u); [|discriminate].
      destruct u; try discriminate; injection Hb as <-; discriminate. }
  repeat (apply bind_Raise_inv in Hr as [Hr | (? & _ & Hr)];
          [now apply get_raises in Hr|]).
  discriminate.
Qed.

(** X1.  The only exception the flattener lets through is
    [AttributeError]: every [KeyError], [TypeError] and [IndexError] of its
    five blocks is caught. *)
Theorem flatten_raises_only_attribute_error
    (ts : string) (l : value) (e : exn) :
  flatten ts l = Raise e -> e = AttributeError.
Proof.
  intros Hr. destruct e; try reflexivity;
    apply flatten_escapes in Hr; discriminate Hr.
Qed.




(** X3.  A listing whose [publisher] is present and is not a mapping (the
    API's [null], for one) always makes the flattener raise
    [AttributeError], whatever its other fields are. *)
Theorem flatten_publisher_not_a_mapping
    (ts : string) (d : list (string * value)) (v : value) :
  dict_lookup "publisher" d = Some v ->
  is_dict v = false ->
  flatten ts (VDict d) = Raise AttributeError.
Proof.
  intros Hp Hv. destruct (flatten ts (VDict d)) as [row|e] eqn:Hf.
  - apply flatten_Ok_inv in Hf
      as (pc & ex & fe & lo & url & pid & ti & de & pub & pname
          & _ & _ & _ & _ & _ & _ & _ & _ & H9 & H10 & _).
    simpl in H9. rewrite Hp in H9. injection H9 as <-.
    destruct v; discriminate.
  - f_equal. now apply flatten_escapes in Hf.
Qed.

End FlattenerEscapes.

Section FlattenerEscapesExamples.
#[local] Existing Instance sample_builtins.

(** X1 on the listing with a [null] publisher. *)
Lemma flatten_raises_only_attribute_error_witness :
  flatten sample_time listing_null_publisher = Raise AttributeError
  /\ AttributeError = AttributeError.
Proof.
  assert (flatten sample_time listing_null_publisher = Raise AttributeError)
    as Hr by reflexivity.
  split; [exact Hr|].
  exact (flatten_raises_only_attribute_error sample_time listing_null_publisher
           AttributeError Hr).
Defined.


(** X3 on the listing with a [null] publisher. *)
Lemma flatten_publisher_not_a_mapping_witness :
  flatten sample_time listing_null_publisher = Raise AttributeError.
Proof.
  apply (flatten_publisher_not_a_mapping sample_time
           [("postingId", VStr "78"); ("publisher", VNone)] VNone);
    reflexivity.
Defined.

End FlattenerEscapesExamples.

(** ** Resuming, the page cap and the order of the pages *)

Section DriverExtras.
Context `{Builtins}.
Variable post : api.

(** X4.  Resuming.  After a page with an integer number [p] has returned
    [True], a scraper created from the state file that was written (with a
    cookie file that loads) starts, without an override, at page [p + 1],
    and the other keys of the persisted state are as they were. *)
Theorem next_run_resumes_after_last_page
    (sc sc' : scraper) (p : Z) (code slug : string) (seen : gset string)
    (cookies_file : file) :
  scrape_page post sc (VInt p) = (true, sc') ->
  _load_cookies cookies_file = None ->
  exists next,
    init_scraper code slug seen (state_file sc') cookies_file = Ok next
    /\ first_page next None = Ok (VInt (p + 1))
    /\ forall k, k <> "last_page" ->
         get (state next) k VNone = get (state sc) k VNone.
Proof.
  intros Hp Hcookies. apply scrape_page_true in Hp
    as (l & items & session & n & entries & _ & _ & _ & _ & Hs & _ & _ & Hs' & Hf).
  unfold init_scraper. rewrite Hf, Hs', Hcookies. cbn [_load_state mbind result_bind].
  eexists. split; [reflexivity|]. rewrite Hs. unfold first_page. simpl.
  rewrite dict_lookup_set_eq. split; [reflexivity|].
  intros k Hk. now rewrite dict_lookup_set_ne.
Qed.

(** X5.  With a positive page cap [m], [scrape] ends whatever the API
    answers (any fuel above [m] is enough) and requests at most [m] pages. *)
Theorem positive_cap_bounds_the_run
    (m : Z) (fuel : nat) (sc : scraper) (start_page : option Z)
    (delay : pyfloat) :
  0 < m ->
  (Z.to_nat m < fuel)%nat ->
  exists r,
    scrape post fuel sc start_page delay (Some m) = Some r
    /\ forall acc sc',
         r = Ok (acc, sc') ->
         (length (requested sc') <= length (requested sc) + Z.to_nat m)%nat.
Proof.
  intros Hm Hfuel. unfold scrape.
  destruct (first_page sc start_page) as [p|e].
  - destruct (scrape_loop_capped post delay m fuel Hm sc p 0) as (ex & sc' & -> & Hb);
      [lia | now rewrite Z.sub_0_r |].
    rewrite Z.sub_0_r in Hb.
    destruct ex; eexists; (split; [reflexivity|]);
      intros acc sc2 [= _ <-]; exact Hb.
  - eexists. split; [reflexivity|]. discriminate.
Qed.

Lemma scrape_loop_cap_zero fuel delay :
  forall sc p n,
    scrape_loop post fuel delay (Some 0) sc p n
    = scrape_loop post fuel delay None sc p n.
Proof.
  induction fuel as [|fuel IH]; intros sc p n; [reflexivity|].
  simpl. destruct (scrape_page post sc p) as [[|] sc1]; simpl; [|reflexivity].
  destruct (py_succ p); [|reflexivity].
  destruct (sleep delay); [reflexivity|]. apply IH.
Qed.

(** X6.  A page cap of 0 is no cap; with a negative cap [scrape] returns
    the accumulator as it is without requesting any page (unless the start
    page cannot be computed, in which case it raises as it always does). *)
Theorem cap_zero_and_negative_cap
    (fuel : nat) (sc : scraper) (start_page : option Z) (delay : pyfloat)
    (m : Z) :
  scrape post fuel sc start_page delay (Some 0)
  = scrape post fuel sc start_page delay None
  /\ (m < 0 ->
      scrape post (S fuel) sc start_page delay (Some m)
      = match first_page sc start_page with
        | Ok _ => Some (Ok (new_listings_this_session sc, sc))
        | Raise e => Some (Raise e)
        end).
Proof.
  split.
  - unfold scrape. destruct (first_page sc start_page); [|reflexivity].
    now rewrite scrape_loop_cap_zero.
  - intros Hm. unfold scrape.
    destruct (first_page sc start_page); [|reflexivity]. simpl.
    replace (m =? 0) with false by (symmetry; apply Z.eqb_neq; lia).
    replace (m <=? 0) with true by (symmetry; apply Z.leb_le; lia).
    reflexivity.
Qed.




End DriverExtras.

(** ** The accumulator, whatever the API answers *)

Section AccumulatorExtras.
Context `{Builtins}.
Variable post : api.

Lemma record_items_any seen items :
  forall session n,
    (exists more,
       (record_items seen items session n).1.1 = session ++ more
       /\ (record_items seen items session n).1.2
          = n + Z.of_nat (length more))
    /\ (session_ok seen session ->
        session_ok seen (record_items seen items session n).1.1).
Proof.
  induction items as [|item items IH]; intros session n.
  - simpl. split; [|auto]. exists []. rewrite app_nil_r. simpl. split; [auto|lia].
  - cbn [record_items].
    destruct (get item "postingId" VNone) as [pid|e] eqn:Hget.
    2:{ simpl. split; [|auto]. exists []. rewrite app_nil_r. simpl.
        split; [auto|lia]. }
    cbv zeta.
    destruct (String.eqb_spec (py_str pid) "") as [Hempty|Hempty];
      cbn [negb andb]; [apply IH|].
    destruct (decide (py_str pid ∈ seen)) as [Hseen|Hseen].
    { rewrite bool_decide_eq_true_2 by exact Hseen. cbn [negb andb]. apply IH. }
    rewrite bool_decide_eq_false_2 by exact Hseen. cbn [negb andb].
    unfold in_session.
    destruct (decide (py_str pid ∈ session.*1)) as [Hin|Hin].
    { rewrite bool_decide_eq_true_2 by exact Hin. cbn [negb andb]. apply IH. }
    rewrite bool_decide_eq_false_2 by exact Hin. cbn [negb andb].
    destruct (IH (session ++ [(py_str pid, item)]) (n + 1))
      as [(more & Hs & Hn) Hok].
    split.
    + exists ((py_str pid, item) :: more). rewrite Hs, Hn, <- app_assoc.
      simpl. split; [reflexivity|lia].
    + intros [Hnd Hall]. apply Hok. split.
      * rewrite fmap_app. apply NoDup_app. repeat split; auto.
        -- intros x Hx Hx'. apply list_elem_of_singleton in Hx'.
           cbn [fst] in Hx'. now subst.
        -- apply NoDup_singleton.
      * apply Forall_app. split; [exact Hall|].
        apply Forall_singleton. cbn [fst snd]. unfold record_id.
        rewrite Hget. auto.
Qed.

Lemma record_items_raises_at_once seen item items session n :
  is_dict item = false ->
  exists e, record_items seen (item :: items) session n = (session, n, Some e).
Proof. destruct item; try discriminate; simpl; eauto. Qed.

(** One page: the accumulator is extended, never rewritten; it stays
    well formed; and the count moves with it. *)
Lemma unchanged_page (P : Prop) (sc s : scraper) :
  new_listings_this_session s = new_listings_this_session sc ->
  new_listings_count s = new_listings_count sc ->
  exists more,
    new_listings_this_session s = new_listings_this_session sc ++ more
    /\ (session_ok (seen_posting_ids sc) (new_listings_this_session sc) ->
        session_ok (seen_posting_ids sc) (new_listings_this_session s))
    /\ (new_listings_count s = new_listings_count sc
        \/ new_listings_count s
           = new_listings_count sc + Z.of_nat (length more))
    /\ (P ->
        new_listings_count s
        = new_listings_count sc + Z.of_nat (length more)).
Proof.
  intros Hs Hc. exists []. rewrite app_nil_r, Hs, Hc. simpl.
  split; [reflexivity|]. split; [auto|]. split; [auto|]. intros _. lia.
Qed.

Lemma scrape_page_any sc page :
  let sc' := (scrape_page post sc page).2 in
  exists more,
    new_listings_this_session sc' = new_listings_this_session sc ++ more
    /\ (session_ok (seen_posting_ids sc) (new_listings_this_session sc) ->
        session_ok (seen_posting_ids sc) (new_listings_this_session sc'))
    /\ (new_listings_count sc' = new_listings_count sc
        \/ new_listings_count sc'
           = new_listings_count sc + Z.of_nat (length more))
    /\ (forallb is_dict (page_records (post (city_code sc) page)) = true ->
        new_listings_count sc'
        = new_listings_count sc + Z.of_nat (length more)).
Proof.
  unfold page_records, page_listings, scrape_page, _save_state. simpl.
  destruct (post (city_code sc) page) as [e|status json];
    [now apply unchanged_page|].
  destruct json as [data|e]; simpl;
    [|destruct (status =? 200); now apply unchanged_page].
  destruct (status =? 200); [|now apply unchanged_page].
  destruct (get data "listPostings" (VList [])) as [l|e]; [|now apply unchanged_page].
  destruct (truthy l) eqn:Ht; simpl; [|now apply unchanged_page].
  destruct (py_iter l) as [items|e] eqn:Hi; [|now apply unchanged_page].
  destruct (record_items_any (seen_posting_ids sc) items
              (new_listings_this_session sc) 0) as [(more & Hs & Hn) Hok].
  destruct (record_items (seen_posting_ids sc) items
              (new_listings_this_session sc) 0) as [[session n] [e|]] eqn:Hr;
    simpl in Hs, Hn, Hok.
  - (* an item without [get]: the count is not updated *)
    simpl. exists more. split; [exact Hs|]. split; [exact Hok|].
    split; [auto|]. intros Hd.
    destruct l as [| | | |s|its|entries]; try discriminate.
    + injection Hi as <-.
      pose proof (record_items_of_strings (seen_posting_ids sc) (chars s)
                    (new_listings_this_session sc) 0) as Hstr.
      rewrite Hr in Hstr. simpl in Hstr. rewrite Hstr in Hs.
      rewrite <- (app_nil_r (new_listings_this_session sc)) in Hs at 1.
      apply app_inv_head in Hs. subst more. simpl. lia.
    + injection Hi as <-.
      destruct (record_items_of_records (seen_posting_ids sc) its
                  (new_listings_this_session sc) 0 Hd) as (? & ? & Hnone).
      congruence.
    + injection Hi as <-. destruct entries as [|entry entries];
        [discriminate|].
      simpl in Hr. injection Hr as Hsess _ _. rewrite <- Hsess in Hs.
      rewrite <- (app_nil_r (new_listings_this_session sc)) in Hs at 1.
      apply app_inv_head in Hs. subst more. simpl. lia.
  - destruct (state sc) as [| | | | | |entries]; simpl;
      try destruct (json_dump (state_file sc)
                      (VDict (dict_set "last_page" page entries)));
      simpl; exists more;
      (split; [exact Hs|]); (split; [exact Hok|]); (split; [right|intros _]);
      lia.
Qed.

Lemma scrape_loop_any fuel delay cap :
  forall sc p n ex sc',
    scrape_loop post fuel delay cap sc p n = Some (ex, sc') ->
    seen_posting_ids sc' = seen_posting_ids sc
    /\ city_code sc' = city_code sc
    /\ exists more,
         new_listings_this_session sc' = new_listings_this_session sc ++ more
         /\ (session_ok (seen_posting_ids sc) (new_listings_this_session sc) ->
             session_ok (seen_posting_ids sc) (new_listings_this_session sc'))
         /\ new_listings_count sc <= new_listings_count sc'
            <= new_listings_count sc + Z.of_nat (length more)
         /\ ((forall q, forallb is_dict
                          (page_records (post (city_code sc) q)) = true) ->
             new_listings_count sc'
             = new_listings_count sc + Z.of_nat (length more)).
Proof.
  induction fuel as [|fuel IH]; intros sc p n ex sc'; [discriminate|].
  assert (seen_posting_ids sc = seen_posting_ids sc
          /\ city_code sc = city_code sc
          /\ exists more,
               new_listings_this_session sc = new_listings_this_session sc ++ more
               /\ (session_ok (seen_posting_ids sc) (new_listings_this_session sc) ->
                   session_ok (seen_posting_ids sc) (new_listings_this_session sc))
               /\ new_listings_count sc <= new_listings_count sc
                  <= new_listings_count sc + Z.of_nat (length more)
               /\ ((forall q, forallb is_dict
                                (page_records (post (city_code sc) q)) = true) ->
                   new_listings_count sc
                   = new_listings_count sc + Z.of_nat (length more))) as Hrefl.
  { split; [reflexivity|]. split; [reflexivity|]. exists [].
    rewrite app_nil_r. simpl. split; [reflexivity|]. split; [auto|].
    split; [lia|]. intros _. lia. }
  simpl. destruct (cap_reached cap n); [intros [= _ <-]; exact Hrefl|].
  pose proof (scrape_page_frame post sc p) as (_ & Hcode & Hseen & _).
  pose proof (scrape_page_any sc p) as (more1 & Hs1 & Hok1 & Hc1 & Hceq1).
  destruct (scrape_page post sc p) as [more sc1]. simpl in *.
  assert (seen_posting_ids sc1 = seen_posting_ids sc
          /\ city_code sc1 = city_code sc
          /\ exists more,
               new_listings_this_session sc1 = new_listings_this_session sc ++ more
               /\ (session_ok (seen_posting_ids sc) (new_listings_this_session sc) ->
                   session_ok (seen_posting_ids sc) (new_listings_this_session sc1))
               /\ new_listings_count sc <= new_listings_count sc1
                  <= new_listings_count sc + Z.of_nat (length more)
               /\ ((forall q, forallb is_dict
                                (page_records (post (city_code sc) q)) = true) ->
                   new_listings_count sc1
                   = new_listings_count sc + Z.of_nat (length more))) as Hone.
  { split; [exact Hseen|]. split; [exact Hcode|]. exists more1.
    split; [exact Hs1|]. split; [exact Hok1|]. split; [lia|].
    intros Hq. now apply Hceq1. }
  destruct more; simpl; [|intros [= _ <-]; exact Hone].
  destruct (py_succ p) as [next|e]; [|intros [= _ <-]; exact Hone].
  destruct (sleep delay); [intros [= _ <-]; exact Hone|].
  intros Hl. apply IH in Hl
    as (Hseen' & Hcode' & more2 & Hs2 & Hok2 & Hc2 & Hceq2).
  split; [congruence|]. split; [congruence|].
  exists (more1 ++ more2). rewrite length_app.
  split; [now rewrite Hs2, Hs1, <- app_assoc|]. split.
  - intros Hok. rewrite <- Hseen. apply Hok2. rewrite Hseen. auto.
  - split; [lia|]. intros Hq.
    rewrite Hceq2 by (intros q; rewrite Hcode; apply Hq).
    rewrite Hceq1 by apply Hq. lia.
Qed.

(** X8.  Whatever the API answers, a run of a fresh scraper returns
    listings under pairwise distinct keys, each key the ID of its listing,
    none of them empty and none of them an ID of a prior file; and it never
    changes the set of seen IDs. *)
Theorem scrape_returns_only_unseen
    (fuel : nat) (code slug : string) (seen : gset string)
    (f cookies_file : file) (sc : scraper)
    (start_page : option Z) (delay : pyfloat) (cap : option Z)
    (acc : list (string * value)) (sc' : scraper) :
  init_scraper code slug seen f cookies_file = Ok sc ->
  scrape post fuel sc start_page delay cap = Some (Ok (acc, sc')) ->
  NoDup acc.*1
  /\ (forall k item, (k, item) ∈ acc ->
        k = record_id item /\ k <> "" /\ k ∉ seen)
  /\ seen_posting_ids sc' = seen.
Proof.
  intros Hinit. apply init_scraper_Ok in Hinit as (st & _ & ->).
  unfold scrape.
  destruct (first_page _ start_page) as [p|e]; [|discriminate].
  destruct (scrape_loop post fuel delay cap _ p 0) as [[ex sc1]|] eqn:Hl;
    [|discriminate].
  apply scrape_loop_any in Hl as (Hseen & _ & more & _ & Hok & _).
  simpl in Hseen, Hok.
  destruct Hok as [Hnd Hall]; [split; constructor|].
  intros Hr.
  assert (acc = new_listings_this_session sc1 /\ sc' = sc1) as [-> ->]
    by (destruct ex; now injection Hr as <- <-).
  split; [exact Hnd|]. split; [|exact Hseen].
  intros k item Hin. rewrite Forall_forall in Hall. exact (Hall _ Hin).
Qed.

(** X9.  A run only appends to the accumulator: what it held is still
    there, in place, so a listing collected earlier is never dropped or
    replaced by a later one with the same ID.  The running count grows by
    at most the number of listings added, and by exactly that number when
    every listing array is an array of records. *)
Theorem scrape_only_appends
    (fuel : nat) (sc : scraper) (start_page : option Z) (delay : pyfloat)
    (cap : option Z) (acc : list (string * value)) (sc' : scraper) :
  scrape post fuel sc start_page delay cap = Some (Ok (acc, sc')) ->
  exists more,
    acc = new_listings_this_session sc ++ more
    /\ new_listings_count sc <= new_listings_count sc'
       <= new_listings_count sc + Z.of_nat (length more)
    /\ ((forall q, forallb is_dict
                     (page_records (post (city_code sc) q)) = true) ->
        new_listings_count sc'
        = new_listings_count sc + Z.of_nat (length more)).
Proof.
  unfold scrape.
  destruct (first_page sc start_page) as [p|e]; [|discriminate].
  destruct (scrape_loop post fuel delay cap sc p 0) as [[ex sc1]|] eqn:Hl;
    [|discriminate].
  apply scrape_loop_any in Hl as (_ & _ & more & Hs & _ & Hc & Hceq).
  intros Hr.
  assert (acc = new_listings_this_session sc1 /\ sc' = sc1) as [-> ->]
    by (destruct ex; now injection Hr as <- <-).
  exists more. auto.
Qed.

End AccumulatorExtras.

Section DriverExtrasExamples.
#[local] Existing Instance sample_builtins.

(** X4 after the first page of the two-page API, with no cookie file. *)
Lemma next_run_resumes_after_last_page_witness :
  scrape_page two_pages fresh_scraper (VInt 1)
  = (true, (scrape_page two_pages fresh_scraper (VInt 1)).2)
  /\ exists next,
       init_scraper "109237" "itanhaem-sp" ∅
         (state_file (scrape_page two_pages fresh_scraper (VInt 1)).2) Missing
       = Ok next
       /\ first_page next None = Ok (VInt 2).
Proof.
  assert (scrape_page two_pages fresh_scraper (VInt 1)
          = (true, (scrape_page two_pages fresh_scraper (VInt 1)).2)) as Hp
    by (vm_compute; reflexivity).
  destruct (next_run_resumes_after_last_page two_pages fresh_scraper
              (scrape_page two_pages fresh_scraper (VInt 1)).2 1
              "109237" "itanhaem-sp" ∅ Missing Hp eq_refl)
    as (next & Hinit & Hfirst & _).
  split; [exact Hp|]. exists next. split; [exact Hinit|exact Hfirst].
Defined.

(** X5 with a cap of one page over the two-page API. *)
Lemma positive_cap_bounds_the_run_witness :
  exists r,
    scrape two_pages 2 fresh_scraper None no_delay (Some 1) = Some r
    /\ forall acc sc',
         r = Ok (acc, sc') ->
         (length (requested sc') <= length (requested fresh_scraper) + 1)%nat.
Proof.
  apply (positive_cap_bounds_the_run two_pages 1 2 fresh_scraper None no_delay);
    [lia|simpl; lia].
Defined.

(** X6 with a cap of -1: nothing is requested. *)
Lemma cap_zero_and_negative_cap_witness :
  scrape two_pages 1 fresh_scraper None no_delay (Some (-1))
  = Some (Ok ([], fresh_scraper)).
Proof.
  destruct (cap_zero_and_negative_cap two_pages 0 fresh_scraper None no_delay
              (-1)) as [_ Hneg].
  rewrite Hneg by lia. reflexivity.
Defined.


(** X8 on a run that knows the ID 102 from a prior file. *)
Lemma scrape_returns_only_unseen_witness :
  exists sc acc sc',
    init_scraper "109237" "itanhaem-sp" {["102"]} Missing Missing = Ok sc
    /\ scrape two_pages 3 sc None no_delay None = Some (Ok (acc, sc'))
    /\ acc.*1 = ["101"; "103"]
    /\ NoDup acc.*1
    /\ seen_posting_ids sc' = {["102"]}.
Proof.
  destruct (init_scraper "109237" "itanhaem-sp" {["102"]} Missing Missing)
    as [sc|e] eqn:Hinit; [|discriminate Hinit].
  destruct (scrape two_pages 3 sc None no_delay None)
    as [[[acc sc']|e]|] eqn:Hrun;
    [| injection Hinit as <-; vm_compute in Hrun; discriminate Hrun
     | injection Hinit as <-; vm_compute in Hrun; discriminate Hrun ].
  destruct (scrape_returns_only_unseen two_pages 3 "109237" "itanhaem-sp"
              {["102"]} Missing Missing sc None no_delay None acc sc'
              Hinit Hrun) as (Hnd & _ & Hseen).
  exists sc, acc, sc'. split; [reflexivity|]. split; [exact Hrun|].
  split; [|split; [exact Hnd|exact Hseen]].
  injection Hinit as <-. vm_compute in Hrun. injection Hrun as <- _.
  reflexivity.
Defined.

(** X9 on a first run over the two-page API: three listings, counted. *)
Lemma scrape_only_appends_witness :
  exists acc sc' more,
    scrape two_pages 3 fresh_scraper None no_delay None = Some (Ok (acc, sc'))
    /\ acc = new_listings_this_session fresh_scraper ++ more
    /\ new_listings_count sc'
       = new_listings_count fresh_scraper + Z.of_nat (length more).
Proof.
  destruct (scrape two_pages 3 fresh_scraper None no_delay None)
    as [[[acc sc']|e]|] eqn:Hrun;
    [| vm_compute in Hrun; discriminate Hrun
     | vm_compute in Hrun; discriminate Hrun ].
  destruct (scrape_only_appends two_pages 3 fresh_scraper None no_delay None
              acc sc' Hrun) as (more & Hacc & _ & Hcount).
  exists acc, sc', more. split; [reflexivity|]. split; [exact Hacc|].
  apply Hcount. intros q. apply two_pages_hold_records.
Defined.

End DriverExtrasExamples.

(** ** The loaders, duplicates within one answer, and the order of cities *)

(** X10.  The seen IDs of a city are exactly the non-missing cells of the
    [postingId] columns of the prior files that could be read: a file that
    cannot be read is skipped and the other files still count, and a
    missing directory gives the empty set. *)
Theorem seen_ids_are_the_cells_of_readable_files
    (directory : option (list csv_read)) (i : string) :
  i ∈ load_seen_ids_from_city_csvs directory
  <-> exists csv_files cells,
        directory = Some csv_files
        /\ Column cells ∈ csv_files
        /\ Some i ∈ cells.
Proof.
  unfold load_seen_ids_from_city_csvs. destruct directory as [csv_files|].
  - rewrite fold_seen_ids. split.
    + intros [Hempty|(cells & Hin & Hi)]; [now apply elem_of_empty in Hempty|].
      exists csv_files, cells. auto.
    + intros (files & cells & [= <-] & Hin & Hi). right. eauto.
  - split; [intros Hempty; now apply elem_of_empty in Hempty|].
    intros (files & cells & Hd & _). discriminate Hd.
Qed.

Lemma lookup_of_entry (u : list (string * value)) k v :
  NoDup u.*1 -> (k, v) ∈ u -> dict_lookup k u = Some v.
Proof.
  induction u as [|[k' v'] u IH]; intros Hnd Hin.
  - now apply elem_of_nil in Hin.
  - rewrite fmap_cons in Hnd. apply NoDup_cons in Hnd as [Hk Hnd]. simpl.
    apply elem_of_cons in Hin as [[= -> ->]|Hin].
    + now rewrite String.eqb_refl.
    + destruct (String.eqb_spec k k') as [->|Hne]; [|auto].
      exfalso. apply Hk. now apply (list_elem_of_fmap_2 fst u (k', v)).
Qed.

Section SiteBExtras.
Context `{Builtins}.

Lemma unique_by_id_lookup listings k :
  forall acc u,
    unique_by_id listings acc = Ok u ->
    dict_lookup k u
    = match last (filter (fun x => listing_id x = k) listings) with
      | Some item => Some item
      | None => dict_lookup k acc
      end.
Proof.
  induction listings as [|item listings IH]; intros acc u; simpl.
  - now intros [= <-].
  - intros Hu. inv_bind Hu.
    assert (listing_id item = py_str a) as Hid
      by (unfold listing_id; now rewrite Ha).
    rewrite (IH _ _ Hu), filter_cons.
    destruct (decide (listing_id item = k)) as [Hk|Hk].
    + rewrite last_cons.
      destruct (last (filter _ listings)); [reflexivity|].
      rewrite <- Hk, Hid. apply dict_lookup_set_eq.
    + destruct (last (filter _ listings)); [reflexivity|].
      apply dict_lookup_set_ne. congruence.
Qed.

(** X11.  Within one answer of site B the last listing with a given ID
    wins: every listing appended for a city is the last one of the fetched
    listings that has its ID. *)
Theorem process_city_keeps_last_duplicate
    (existing : csv_state) (r : http_result) (added : list value)
    (item : value) :
  process_city existing r = Ok added ->
  item ∈ added ->
  last (filter (fun x => listing_id x = listing_id item) (fetched r))
  = Some item.
Proof.
  unfold process_city, fetched. intros Hp Hin. inv_bind Hp. rewrite Ha.
  destruct a as [[|first rest]|];
    [ injection Hp as <-; now apply elem_of_nil in Hin
    | | injection Hp as <-; now apply elem_of_nil in Hin ].
  inv_bind Hp. apply not_existing_spec in Hp. subst added.
  apply list_elem_of_filter in Hin as [_ Hin].
  apply list_elem_of_fmap in Hin as ([k v] & -> & Hin). simpl.
  pose proof (unique_by_id_lookup (first :: rest) (listing_id v) [] _ Ha0) as Hl.
  apply unique_by_id_spec in Ha0 as [[Hnd Hall] _];
    [|split; [constructor|constructor]].
  rewrite Forall_forall in Hall. pose proof (Hall _ Hin) as Hk. simpl in Hk.
  subst k. rewrite (lookup_of_entry _ _ _ Hnd Hin) in Hl.
  destruct (last (filter _ (first :: rest))); [now injection Hl as ->|].
  discriminate Hl.
Qed.

(** X12.  Site B handles its cities in turn and stops at the first one
    whose run raises (while the directory is made, the answer is taken
    apart, or the new lines are written): the exit status is 1, the cities
    before it keep what was appended for them, and the cities after it are
    not processed at all. *)
Theorem process_cities_stops_at_first_failure
    (before after : list string) (c : string) (i : nat)
    (world : nat -> string -> disk * http_result) (e : exn) :
  run_on_disk (world (i + length before)%nat c).1
    (world (i + length before)%nat c).2 = Raise e ->
  process_cities i (before ++ c :: after) world
  = (1, (process_cities i before world).2).
Proof.
  revert i. induction before as [|b before IH]; intros i Hc; simpl.
  - rewrite Nat.add_0_r in Hc. simpl in Hc. now rewrite Hc.
  - destruct (run_on_disk (world i b).1 (world i b).2) as [[added f']|];
      [|reflexivity].
    rewrite IH.
    + now destruct (process_cities (S i) before world).
    + simpl in Hc. now replace (S i + length before)%nat
        with (i + S (length before))%nat by lia.
Qed.

End SiteBExtras.

Section WorkersExtras.
Context `{Builtins}.
Variable post : api.

Lemma workers_known_cities fuel cities around a :
  forall i outcomes,
    workers post fuel i cities around a = Some outcomes ->
    outcomes.*1 = filter (fun c => c = "itanhaem-sp") cities.
Proof.
  induction cities as [|c cities IH]; intros i outcomes.
  - simpl. now intros [= <-].
  - rewrite filter_cons. cbn [workers code_of CITY_CODES].
    destruct (String.eqb_spec c "itanhaem-sp") as [->|Hne].
    + rewrite decide_True by reflexivity.
      change (String.eqb "109237" "") with false. cbv iota.
      destruct (scrape_city_task _ _ _ _ _ _) as [o|]; [|discriminate].
      destruct (workers post fuel (S i) cities around a) as [others|] eqn:Hw;
        [|discriminate].
      simpl. intros [= <-].
      rewrite fmap_cons. simpl. f_equal. now apply (IH (S i)).
    + rewrite decide_False by exact Hne. apply IH.
Qed.

(** X13.  Site A starts a worker for a requested city only if the city has
    a code: whenever [main] ends with accepted arguments, the workers that
    ran are those of the requested cities equal to ["itanhaem-sp"], in the
    order of the command line; every other city is skipped. *)
Theorem main_skips_cities_without_code
    (fuel : nat) (a : args) (around : nat -> string -> surroundings)
    (status : Z) (outcomes : list (string * task_outcome)) :
  main post fuel (Some a) around = Some (status, outcomes) ->
  outcomes.*1 = filter (fun c => c = "itanhaem-sp") (city a).
Proof.
  unfold main. simpl.
  destruct (workers post fuel 0 (city a) around a) as [os|] eqn:Hw;
    [|discriminate].
  simpl. intros [= _ <-]. now apply (workers_known_cities fuel _ around a 0).
Qed.

End WorkersExtras.

Section SiteBExtrasExamples.
#[local] Existing Instance sample_builtins.

(** X11 on the answer with the IDs 5, 6, 6 over an empty file. *)
Lemma process_city_keeps_last_duplicate_witness :
  process_city Absent answer_5_6_6
  = Ok [VDict [("id", VInt 5)]; VDict [("id", VInt 6)]]
  /\ last (filter (fun x => listing_id x = listing_id (VDict [("id", VInt 6)]))
             (fetched answer_5_6_6))
     = Some (VDict [("id", VInt 6)]).
Proof.
  assert (process_city Absent answer_5_6_6
          = Ok [VDict [("id", VInt 5)]; VDict [("id", VInt 6)]]) as Hp
    by (vm_compute; reflexivity).
  split; [exact Hp|].
  apply (process_city_keeps_last_duplicate Absent answer_5_6_6 _ _ Hp).
  apply list_elem_of_further, list_elem_of_here.
Defined.

(** X12 with a first city that succeeds, a second whose answer has a
    listing without [id], and with a second whose listing cannot be
    written. *)
Lemma process_cities_stops_at_first_failure_witness :
  process_cities 0 (["santos-sp-brasil"] ++ "itanhaem-sp-brasil" :: ["x"])
    (fun i _ => match i with
                | 1%nat => (plain_disk NoFile, answer_without_id)
                | _ => (plain_disk NoFile, answer_5_6_6)
                end)
  = (1, [("santos-sp-brasil",
          [VDict [("id", VInt 5)]; VDict [("id", VInt 6)]])])
  /\ process_cities 0 (["santos-sp-brasil"] ++ "itanhaem-sp-brasil" :: ["x"])
       (fun i _ => match i with
                   | 1%nat => (plain_disk NoFile, answer_with_surrogate)
                   | _ => (plain_disk NoFile, answer_5_6_6)
                   end)
     = (1, [("santos-sp-brasil",
             [VDict [("id", VInt 5)]; VDict [("id", VInt 6)]])]).
Proof.
  split.
  - rewrite (process_cities_stops_at_first_failure ["santos-sp-brasil"] ["x"]
               "itanhaem-sp-brasil" 0 _ KeyError); reflexivity.
  - rewrite (process_cities_stops_at_first_failure ["santos-sp-brasil"] ["x"]
               "itanhaem-sp-brasil" 0 _ (OtherError "UnicodeEncodeError"));
      reflexivity.
Defined.

(** X13 on a command line with a known and an unknown city. *)
Lemma main_skips_cities_without_code_witness :
  exists status outcomes,
    main two_pages 3 (Some two_city_args) (fun _ _ => first_run)
    = Some (status, outcomes)
    /\ outcomes.*1 = ["itanhaem-sp"].
Proof.
  destruct (main two_pages 3 (Some two_city_args) (fun _ _ => first_run))
    as [[status outcomes]|] eqn:Hmain; [|vm_compute in Hmain; discriminate Hmain].
  exists status, outcomes. split; [reflexivity|].
  rewrite (main_skips_cities_without_code two_pages 3 two_city_args
             (fun _ _ => first_run) status outcomes Hmain).
  reflexivity.
Defined.

End SiteBExtrasExamples.

(** ** Site B: a second run on the file of the first *)

Section RoundTrip.
Context `{Builtins}.

Lemma round_trips_encodable added :
  forallb row_round_trips added = true -> forallb row_encodable added = true.
Proof.
  intros Hall. apply forallb_forall. intros l Hl.
  rewrite forallb_forall in Hall. specialize (Hall l Hl).
  unfold row_round_trips, row_encodable in *.
  destruct (dict_to_list fields_to_request l) as [cells|e]; [|discriminate].
  apply forallb_forall. intros c Hc.
  rewrite forallb_forall in Hall. specialize (Hall c Hc).
  now apply andb_prop in Hall as [-> _].
Qed.

Lemma rows_within_limit (added : list value) (rows : list (list string)) :
  Forall2 (fun row cells => dict_to_list fields_to_request row = Ok cells
                            /\ forallb encodable cells = true) added rows ->
  forallb row_round_trips added = true ->
  forallb (forallb within_field_limit) rows = true.
Proof.
  induction 1 as [|l cells added rows [Hc _] _ IH]; [reflexivity|].
  cbn [forallb]. intros Hall. apply andb_prop in Hall as [Hl Hall].
  rewrite (IH Hall), andb_true_r.
  unfold row_round_trips in Hl. rewrite Hc in Hl.
  apply forallb_forall. intros c Hin.
  rewrite forallb_forall in Hl. specialize (Hl c Hin).
  now apply andb_prop in Hl as [_ ->].
Qed.

(** X14.  What site B writes is what it reads back.  For a city whose file
    does not exist, or starts with the header [save_to_csv] writes and can
    be read, and an answer in which no listing has a null [id]: when lines
    125-135 give the listings to append without raising, and every cell to
    write for them can be encoded and is within the reader's field limit,
    the write does not raise either; the file it leaves again starts with
    that header and can be read; the IDs [load_existing_ids] reads from it
    are the IDs it read before together with [str(listing['id'])] of every
    listing appended; and a second run that gets the same answer leaves the
    file as it is. *)
Theorem written_ids_are_read_back
    (f : csv_file) (r : http_result) (added : list value) :
  header_ok f = true ->
  read_csv f <> Broken ->
  (forall l, l ∈ fetched r -> getitem l "id" <> Ok VNone) ->
  process_city (read_csv f) r = Ok added ->
  forallb row_round_trips added = true ->
  exists f1,
    run_city f r = Ok f1
    /\ header_ok f1 = true
    /\ read_csv f1 <> Broken
    /\ load_existing_ids (read_csv f1)
       = load_existing_ids (read_csv f) ∪ list_to_set (listing_id <$> added)
    /\ run_city f1 r = Ok f1.
Proof.
  intros Hh Hread Hnn Hp Hfit.
  destruct (run_city_total _ _ _ Hh Hp (round_trips_encodable _ Hfit))
    as [f1 Hrun].
  assert (written_id <$> added = listing_id <$> added) as Hsame.
  { apply list_fmap_ext. intros _ l Hl%list_elem_of_lookup_2.
    pose proof (added_have_id _ _ _ Hp) as Hall.
    rewrite Forall_forall in Hall. destruct (Hall l Hl) as [i Hi].
    unfold written_id, listing_id. rewrite Hi. apply csv_cell_str.
    intros ->. now apply (Hnn l (added_were_fetched _ _ _ _ Hp Hl)). }
  assert (read_csv f1 <> Broken) as Hread1.
  { destruct (run_city_appends _ _ _ _ Hh Hp Hrun)
      as (old & rows & Hf & -> & Hrows & _).
    destruct added as [|listing added]; [exact Hread|].
    apply read_csv_lines. cbn [forallb]. rewrite forallb_app.
    rewrite (rows_within_limit _ _ Hrows Hfit), andb_true_r.
    destruct Hf as [[_ ->]| ->].
    - destruct header_round_trips as [_ ->]. reflexivity.
    - apply read_csv_lines in Hread. exact Hread. }
  destruct (ids_after_run _ _ _ _ Hh Hp Hrun Hread1) as (_ & Hh1 & Hids).
  rewrite Hsame in Hids.
  exists f1. split; [exact Hrun|]. split; [exact Hh1|].
  split; [exact Hread1|]. split; [exact Hids|].
  rewrite (run_city_saves _ _ _ (process_city_again _ _ _ _ Hp Hids)).
  reflexivity.
Qed.

(** X15.  A listing whose [id] is null is appended again by every run.  Its
    key is [str(None)], the text [None], but the cell written for it is
    empty, so the key is not among the IDs read back.  For a file with the
    right header whose [id] column does not hold the text [None], and an
    answer that has a listing with a null [id] and none whose [id] is
    written as the text [None]: a run that does not raise (lines 125-135 do
    not, and every line to write can be encoded) adds lines to the file,
    and the file it leaves is again such a file, on which lines 125-135 do
    not raise. *)
Theorem null_id_is_appended_by_every_run
    (f : csv_file) (r : http_result) (added : list value) (item : value) :
  header_ok f = true ->
  "None" ∉ load_existing_ids (read_csv f) ->
  (forall l, l ∈ fetched r -> written_id l <> "None") ->
  item ∈ fetched r ->
  getitem item "id" = Ok VNone ->
  process_city (read_csv f) r = Ok added ->
  forallb row_encodable added = true ->
  exists f1 added1,
    run_city f r = Ok f1
    /\ f1 <> f
    /\ header_ok f1 = true
    /\ ("None" ∉ load_existing_ids (read_csv f1))
    /\ process_city (read_csv f1) r = Ok added1.
Proof.
  intros Hh Hnone Hcells Hitem Hid Hp Henc.
  destruct (run_city_total _ _ _ Hh Hp Henc) as [f1 Hrun].
  destruct (process_city_any_file _ (read_csv f1) _ _ Hp) as [added1 Hp1].
  exists f1, added1. split; [exact Hrun|].
  assert ("None" ∈ listing_id <$> added) as Hin.
  { apply (process_city_spec _ _ _ Hp). split; [|exact Hnone].
    apply list_elem_of_fmap. exists item. split; [|exact Hitem].
    unfold listing_id. now rewrite Hid. }
  destruct (run_city_appends _ _ _ _ Hh Hp Hrun)
    as (old & rows & Hf & Hf1 & Hrows & _).
  destruct added as [|listing added]; [now apply elem_of_nil in Hin|].
  split; [|split; [|split; [|exact Hp1]]].
  - subst f1. destruct Hf as [[-> _]| ->]; [discriminate|].
    intros [= Heq]. apply (f_equal length) in Heq.
    rewrite length_app in Heq. apply Forall2_length in Hrows.
    cbn [length] in Hrows. lia.
  - subst f1. now apply bool_decide_eq_true_2.
  - destruct (read_csv f1) eqn:Hread; try (cbn; apply not_elem_of_empty).
    assert (read_csv f1 <> Broken) as Hok by (rewrite Hread; discriminate).
    rewrite <- Hread.
    destruct (ids_after_run _ _ _ _ Hh Hp Hrun Hok) as (_ & _ & ->).
    intros Hbad. apply elem_of_union in Hbad as [Hbad|Hbad]; [now apply Hnone|].
    apply elem_of_list_to_set, list_elem_of_fmap in Hbad as (l & Hl & Hin').
    apply (Hcells l); [|now symmetry].
    exact (added_were_fetched _ _ _ _ Hp Hin').
Qed.

End RoundTrip.

Section CsvExamples.
#[local] Existing Instance sample_builtins.

(** X14 on the file that holds the ID 5 and the answer with the IDs 5, 6,
    6: the line of the listing 6 is added, and the IDs read back are 5
    and 6. *)
Lemma written_ids_are_read_back_witness :
  process_city (read_csv table_with_5) answer_5_6_6 = Ok [VDict [("id", VInt 6)]]
  /\ exists f1,
       run_city table_with_5 answer_5_6_6 = Ok f1
       /\ header_ok f1 = true
       /\ read_csv f1 <> Broken
       /\ load_existing_ids (read_csv f1)
          = load_existing_ids (read_csv table_with_5)
            ∪ list_to_set (listing_id <$> [VDict [("id", VInt 6)]])
       /\ run_city f1 answer_5_6_6 = Ok f1.
Proof.
  assert (process_city (read_csv table_with_5) answer_5_6_6
          = Ok [VDict [("id", VInt 6)]]) as Hp by (vm_compute; reflexivity).
  split; [exact Hp|].
  apply (written_ids_are_read_back table_with_5 answer_5_6_6 _ eq_refl);
    [vm_compute; discriminate| |exact Hp|vm_compute; reflexivity].
  intros l Hl. vm_compute in Hl.
  repeat (apply elem_of_cons in Hl as [->|Hl]); try discriminate.
  now apply elem_of_nil in Hl.
Defined.

(** X15 on the same file and the answer with a null [id]. *)
Lemma null_id_is_appended_by_every_run_witness :
  exists f1 added1,
    run_city table_with_5 answer_with_null_id = Ok f1
    /\ f1 <> table_with_5
    /\ header_ok f1 = true
    /\ ("None" ∉ load_existing_ids (read_csv f1))
    /\ process_city (read_csv f1) answer_with_null_id = Ok added1.
Proof.
  apply (null_id_is_appended_by_every_run table_with_5 answer_with_null_id
           [VDict [("id", VNone)]] (VDict [("id", VNone)]) eq_refl).
  - apply (bool_decide_unpack _). vm_compute. exact I.
  - intros l Hl. vm_compute in Hl.
    repeat (apply elem_of_cons in Hl as [->|Hl]); try discriminate.
    now apply elem_of_nil in Hl.
  - apply list_elem_of_here.
  - reflexivity.
  - vm_compute. reflexivity.
  - vm_compute. reflexivity.
Defined.

End CsvExamples.

(** ** File names *)

Lemma string_length_append (a b : string) :
  String.length (a +:+ b) = (String.length a + String.length b)%nat.
Proof. induction a as [|c a IH]; simpl; [reflexivity|now rewrite IH]. Qed.

(** A common ending can be cancelled. *)
Lemma append_inj_l (a b s : string) : a +:+ s = b +:+ s -> a = b.
Proof.
  revert b. induction a as [|c a IH]; intros [|c' b] Heq.
  - reflexivity.
  - exfalso. apply (f_equal String.length) in Heq.
    rewrite !string_length_append in Heq. simpl in Heq. lia.
  - exfalso. apply (f_equal String.length) in Heq.
    rewrite !string_length_append in Heq. simpl in Heq. lia.
  - simpl in Heq. injection Heq as -> Heq. f_equal. now apply IH.
Qed.

(** So can a common beginning. *)
Lemma append_inj_r (p a b : string) : p +:+ a = p +:+ b -> a = b.
Proof.
  induction p as [|c p IH]; intros Heq; [exact Heq|].
  apply IH. now injection Heq.
Qed.

(** Replacing the dashes loses nothing on slugs without underscores. *)
Lemma replace_dash_inj (a b : string) :
  occurs "_" a = false -> occurs "_" b = false ->
  replace_dash a = replace_dash b -> a = b.
Proof.
  revert b. induction a as [|c a IH]; intros [|c' b];
    cbn [occurs replace_dash]; try discriminate; [reflexivity|].
  intros Ha Hb Heq.
  apply orb_false_elim in Ha as [Hc Ha].
  apply orb_false_elim in Hb as [Hc' Hb].
  injection Heq as Hch Heq. f_equal; [|now apply IH].
  apply Ascii.eqb_neq in Hc, Hc'.
  destruct (Ascii.eqb_spec c "-") as [->|_];
    destruct (Ascii.eqb_spec c' "-") as [->|_]; congruence.
Qed.

(** X16.  Cities do not share files.  For two city slugs without
    underscores, site B's output files have the same name only when the
    slugs are equal, and so do site A's state files for one base name. *)
Theorem distinct_cities_have_distinct_files (base a b : string) :
  occurs "_" a = false -> occurs "_" b = false ->
  (output_file_name a = output_file_name b <-> a = b)
  /\ (state_file_name base a = state_file_name base b <-> a = b).
Proof.
  intros Ha Hb. split; (split; [|now intros ->]).
  - unfold output_file_name. intros Heq.
    apply append_inj_r, append_inj_l in Heq. now apply replace_dash_inj.
  - unfold state_file_name. intros Heq.
    apply append_inj_r, append_inj_r, append_inj_l in Heq.
    now apply replace_dash_inj.
Qed.

(** X16 on two slugs of the form the program is given. *)
Lemma distinct_cities_have_distinct_files_witness :
  (output_file_name "santos-sp-brasil" = output_file_name "itanhaem-sp-brasil"
   <-> "santos-sp-brasil" = "itanhaem-sp-brasil")
  /\ (state_file_name "scraper_state" "santos-sp-brasil"
      = state_file_name "scraper_state" "itanhaem-sp-brasil"
      <-> "santos-sp-brasil" = "itanhaem-sp-brasil").
Proof.
  apply (distinct_cities_have_distinct_files "scraper_state"
           "santos-sp-brasil" "itanhaem-sp-brasil"); reflexivity.
Defined.
